(** * Havenix: the reservation / unlock workflow over its Postgres schema

    A shallow embedding of
    - [calculateReservationFee] (utils/supabase),
    - the tables, CHECK / UNIQUE constraints, row-level policies and the two
      triggers of the migrations,
    - [fetchProperty], [handlePaymentSuccess] and the render gate of
      PropertyDetailPage,
    - [requestRefund] of StudentDashboard and the landlord's property edit,
    - the reads of the Explore page and of the two dashboards, the media
      upload, the WhatsApp link, the Paystack button, the form's stepper and
      the retry loops of utils/supabase and AuthContext,
    together with the properties of the workflow that are checked on them.

    Numbers that only ever hold database integers are [Z]; the fee is
    computed on binary64 floats, as JavaScript does. *)

From Stdlib Require Import ZArith Floats Uint63 SpecFloat Bool List String Ascii
  DecimalString Lia.
Import ListNotations.
Open Scope Z_scope.

(* ===================================================================== *)
(** * Fee calculator *)
(* ===================================================================== *)

Module Fee.

(** A database integer as the JavaScript number the client receives. *)
Definition Z2float (z : Z) : float :=
  if z <? 0 then PrimFloat.opp (PrimFloat.of_uint63 (Uint63.of_Z (- z)))
  else PrimFloat.of_uint63 (Uint63.of_Z z).

(** [Math.round]: the nearest integer, ties towards +infinity; NaN, the
    infinities and numbers that are already integral are returned as they
    are, and a result of zero keeps the sign of the argument.  A finite
    float is [(+/-) m * 2^e]; for [e < 0] the integer
    [floor (x + 1/2)] is computed exactly in [Z]. *)
Definition Math_round (x : float) : float :=
  match Prim2SF x with
  | S754_finite s m e =>
      if 0 <=? e then x
      else
        let d := 2 ^ (- e) in
        let n := (2 * (if s then Z.neg m else Z.pos m) + d) / (2 * d) in
        if n =? 0 then (if s then PrimFloat.neg_zero else PrimFloat.zero)
        else Z2float n
  | _ => x
  end.

(** The literal [0.01] of the source is the double 0x1.47ae147ae147bp-7. *)
Definition one_percent : float := 0x1.47ae147ae147bp-7%float.

(** utils/supabase:
    [const individualRent = totalRent / totalSpaces
     return Math.round(individualRent * 0.01)] *)
Definition calculateReservationFee (totalRent totalSpaces : float) : float :=
  let individualRent := PrimFloat.div totalRent totalSpaces in
  Math_round (PrimFloat.mul individualRent one_percent).

(** JavaScript truthiness of a number: false for 0, -0 and NaN. *)
Definition truthy (x : float) : bool :=
  negb (PrimFloat.is_zero x || PrimFloat.is_nan x).

(** MultiStepPropertyForm, the fee shown while the landlord edits a listing:
    [if (!price || !total) return 0
     const individual = price / total
     return Math.round(individual * 0.01)] *)
Definition calcReservationFee (price total : float) : float :=
  if negb (truthy price) || negb (truthy total) then PrimFloat.zero
  else
    let individual := PrimFloat.div price total in
    Math_round (PrimFloat.mul individual one_percent).

(** The formula in the words of the specification,
    [round((price / total_rooms) * 0.01)], on integer inputs. *)
Definition fee_formula (price total_rooms : Z) : float :=
  Math_round
    (PrimFloat.mul (PrimFloat.div (Z2float price) (Z2float total_rooms))
                   one_percent).

(** A JavaScript number as Postgres stores it in an [integer] column: only
    integral values within 32 bits are accepted. *)
Definition to_integer (x : float) : option Z :=
  let int4 v := if (- 2147483648 <=? v) && (v <=? 2147483647)
                then Some v else None in
  match Prim2SF x with
  | S754_zero _ => Some 0
  | S754_finite s m e =>
      let v := if s then Z.neg m else Z.pos m in
      if 0 <=? e then int4 (v * 2 ^ e)
      else if Z.pos m mod 2 ^ (- e) =? 0 then int4 (v / 2 ^ (- e))
      else None
  | _ => None
  end.

(** One per cent of the per-room rent as an exact rational, rounded half up:
    [floor (price / (100 * total_rooms) + 1/2)]. *)
Definition fee_exact (price total_rooms : Z) : Z :=
  (price + 50 * total_rooms) / (100 * total_rooms).

(** Whether the float formula and the exact rounding agree on a pair. *)
Definition agrees (price total_rooms : Z) : bool :=
  PrimFloat.Leibniz.eqb (fee_formula price total_rooms)
    (Z2float (fee_exact price total_rooms)).

(** [1; 2; ...; n] *)
Fixpoint upto (n : nat) : list Z :=
  match n with
  | O => []
  | S k => upto k ++ [Z.of_nat n]
  end.

Definition agree_on (prices rooms : list Z) : bool :=
  forallb (fun p => forallb (fun r => agrees p r) rooms) prices.

(** The same computation on the specification of binary64
    ([SpecFloat]): both integers are normalised to 53-bit mantissas,
    divided, and the quotient is multiplied by the double [0.01], which is
    [5764607523034235 * 2^-59]. *)
Definition sf_fee (p r : positive) : spec_float :=
  SFmul 53 1024
    (SFdiv 53 1024 (binary_normalize 53 1024 (Zpos p) 0 false)
                   (binary_normalize 53 1024 (Zpos r) 0 false))
    (S754_finite false 5764607523034235 (-59)).

(** Where a rational [N / D] lies with respect to a shifted mantissa: the
    record [(m, r, s)] of [SpecFloat] places it in [m, m + 1); [r] says it
    is in the upper half, [s] that it is not on a boundary. *)
Definition inrec (N D : Z) (mrs : shr_record) : Prop :=
  match shr_r mrs, shr_s mrs with
  | false, false => N = shr_m mrs * D
  | false, true => shr_m mrs * D < N /\ 2 * N < (2 * shr_m mrs + 1) * D
  | true, false => 2 * N = (2 * shr_m mrs + 1) * D
  | true, true => (2 * shr_m mrs + 1) * D < 2 * N /\ N < (shr_m mrs + 1) * D
  end.

End Fee.

(* ===================================================================== *)
(** * The schema: rows, constraints, policies, triggers *)
(* ===================================================================== *)

Module Schema.

(** Identifiers ([uuid] columns, strings on the client). *)
Definition uuid := Z.

Inductive user_role := student | landlord.
Inductive property_tier := low | mid | premium.
Inductive payment_status_t := pending | paid | refunded.

Definition payment_status_eqb (a b : payment_status_t) : bool :=
  match a, b with
  | pending, pending | paid, paid | refunded, refunded => true
  | _, _ => false
  end.

(** Table [users]. *)
Record User := mkUser {
  u_id : uuid;
  name : string;
  email : string;
  role : user_role;
  phone : option string
}.

(** Table [properties] ([created_at] is left out: the rows of a table are
    kept in the order in which they were inserted). *)
Record Property := mkProperty {
  p_id : uuid;
  title : string;
  description : string;
  location : string;
  detailed_location : string;
  rooms_available : Z;
  total_rooms : Z;
  price : Z;
  tier : property_tier;
  reservation_fee : Z;
  is_verified : bool;
  images : list string;
  video_url : option string;
  landlord_id : uuid
}.

(** Table [reservations]. *)
Record Reservation := mkReservation {
  r_id : uuid;
  student_id : uuid;
  property_id : uuid;
  payment_status : payment_status_t;
  unlock_granted : bool
}.

Record Db := mkDb {
  users : list User;
  properties : list Property;
  reservations : list Reservation
}.

Definition set_rooms_available (v : Z) (p : Property) : Property :=
  mkProperty (p_id p) (title p) (description p) (location p)
    (detailed_location p) v (total_rooms p) (price p) (tier p)
    (reservation_fee p) (is_verified p) (images p) (video_url p)
    (landlord_id p).

Definition set_payment_status (s : payment_status_t) (r : Reservation)
  : Reservation :=
  mkReservation (r_id r) (student_id r) (property_id r) s (unlock_granted r).

Definition set_properties (ps : list Property) (db : Db) : Db :=
  mkDb (users db) ps (reservations db).

Definition set_reservations (rs : list Reservation) (db : Db) : Db :=
  mkDb (users db) (properties db) rs.

(** ** CHECK constraints of [properties] *)

(** [CONSTRAINT valid_room_count
     CHECK (rooms_available <= total_rooms AND rooms_available >= 0)] *)
Definition valid_room_count (p : Property) : bool :=
  (rooms_available p <=? total_rooms p) && (rooms_available p >=? 0).

(** [CONSTRAINT valid_price CHECK (price > 0)] *)
Definition valid_price (p : Property) : bool := price p >? 0.

(** [CONSTRAINT valid_reservation_fee CHECK (reservation_fee > 0)] *)
Definition valid_reservation_fee (p : Property) : bool :=
  reservation_fee p >? 0.

Definition properties_checks (p : Property) : bool :=
  valid_room_count p && valid_price p && valid_reservation_fee p.

(** ** Row-level policies (all three tables have row security enabled)

    [who] is [auth.uid()]: [None] for the [anon] role. *)
Definition auth := option uuid.

Definition uid_is (who : auth) (x : uuid) : bool :=
  match who with
  | Some u => u =? x
  | None => false
  end.

(** "Anyone can read all properties": [TO authenticated, anon USING (true)]. *)
Definition properties_select (who : auth) (p : Property) : bool := true.

(** "Landlords can update own properties" / "Landlords can manage own
    properties": [USING (landlord_id = auth.uid())], and the same
    expression as [WITH CHECK] on the new row. *)
Definition properties_write (who : auth) (p : Property) : bool :=
  uid_is who (landlord_id p).

(** "Users can read profiles": [TO authenticated USING (true)]. *)
Definition users_select (who : auth) (u : User) : bool :=
  match who with Some _ => true | None => false end.

(** "Students can read reservations", "Students can insert own
    reservations", "Students can update own reservations": each is
    [student_id = auth.uid()]. *)
Definition reservations_policy (who : auth) (r : Reservation) : bool :=
  uid_is who (student_id r).

(** ** Statement results *)

Inductive PgError :=
| unique_violation
| check_violation
| rls_violation
| foreign_key_violation
| not_null_violation
| not_a_single_row
| fetch_failed.

(** [UPDATE properties SET ... WHERE sel], run for [who]: the policy hides
    the rows [who] may not write, every new row must pass the policy's check
    and the CHECK constraints, and one failing row aborts the statement. *)
Definition update_properties (who : auth) (sel : Property -> bool)
    (upd : Property -> Property) (ps : list Property)
  : PgError + list Property :=
  let hit p := sel p && properties_write who p in
  if forallb (fun p => negb (hit p) || properties_write who (upd p)) ps
  then
    if forallb (fun p => negb (hit p) || properties_checks (upd p)) ps
    then inr (map (fun p => if hit p then upd p else p) ps)
    else inl check_violation
  else inl rls_violation.

(** ** Triggers

    Both functions are declared without [SECURITY DEFINER], so their
    [UPDATE properties] runs for the principal whose statement fired them
    and goes through the same policies. *)

(** [handle_reservation_insert], AFTER INSERT ON reservations:
    [IF NEW.payment_status = 'paid' AND NEW.unlock_granted = true THEN
       UPDATE properties SET rooms_available = rooms_available - 1
       WHERE id = NEW.property_id AND rooms_available > 0;
     END IF;] *)
Definition handle_reservation_insert (who : auth) (NEW : Reservation)
    (ps : list Property) : PgError + list Property :=
  if payment_status_eqb (payment_status NEW) paid && unlock_granted NEW then
    update_properties who
      (fun p => (p_id p =? property_id NEW) && (rooms_available p >? 0))
      (fun p => set_rooms_available (rooms_available p - 1) p) ps
  else inr ps.

(** [handle_reservation_update], AFTER UPDATE ON reservations:
    [IF OLD.payment_status = 'paid' AND NEW.payment_status = 'refunded' THEN
       UPDATE properties SET rooms_available = rooms_available + 1
       WHERE id = NEW.property_id;
     END IF;] *)
Definition handle_reservation_update (who : auth) (OLD NEW : Reservation)
    (ps : list Property) : PgError + list Property :=
  if payment_status_eqb (payment_status OLD) paid
     && payment_status_eqb (payment_status NEW) refunded then
    update_properties who
      (fun p => p_id p =? property_id NEW)
      (fun p => set_rooms_available (rooms_available p + 1) p) ps
  else inr ps.

End Schema.

(* ===================================================================== *)
(** * The store: the statements the client issues and what they do *)
(* ===================================================================== *)

Module Supabase.
Import Schema.

(** What an awaited query resolves to: [{ data, error }]. *)
Record Response (R : Type) := mkResponse {
  data : option R;
  error : option PgError
}.
Arguments mkResponse {R} _ _.
Arguments data {R} _.
Arguments error {R} _.

Definition ok {R} (d : option R) : Response R := mkResponse d None.
Definition failed {R} (e : PgError) : Response R := mkResponse None (Some e).

(** [.maybeSingle()]: no row is [data = null] without an error. *)
Definition maybeSingle {R} (rows : list R) : Response R :=
  match rows with
  | [] => ok None
  | [x] => ok (Some x)
  | _ => failed not_a_single_row
  end.

(** [.single()]: anything but one row is an error. *)
Definition single {R} (rows : list R) : Response R :=
  match rows with
  | [x] => ok (Some x)
  | _ => failed not_a_single_row
  end.

(** The columns [select('id, name, email, phone')] returns. *)
Record Landlord := mkLandlord {
  l_id : uuid;
  l_name : string;
  l_email : string;
  l_phone : option string
}.

(** The object a landlord's form sends to [properties]; [None] for a number
    that Postgres cannot store in an [integer NOT NULL] column. *)
Record PropertyData := mkPropertyData {
  d_title : string;
  d_description : string;
  d_location : string;
  d_detailed_location : string;
  d_rooms_available : option Z;
  d_total_rooms : option Z;
  d_price : option Z;
  d_tier : property_tier;
  d_reservation_fee : option Z;
  d_images : list string;
  d_video_url : option string;
  d_landlord_id : uuid
}.

(** The requests of the pages modelled below, indexed by the type of the
    rows they return. *)
Inductive Request : Type -> Type :=
(* from('properties').select('*').eq('id', id)[.eq('is_verified', true)]
   .maybeSingle() *)
| SelectProperty (id : uuid) (verified_only : bool) : Request Property
(* from('users').select('id, name, email, phone').eq('id', id).single() *)
| SelectLandlord (id : uuid) : Request Landlord
(* from('reservations').select('unlock_granted').eq('student_id', s)
   .eq('property_id', p).eq('unlock_granted', true).maybeSingle() *)
| SelectUnlockGranted (s p : uuid) : Request bool
(* from('reservations').select('id').eq('student_id', s)
   .eq('property_id', p).maybeSingle() *)
| SelectReservationId (s p : uuid) : Request uuid
(* from('reservations').insert({ student_id, property_id, payment_status,
   unlock_granted }) *)
| InsertReservation (s p : uuid) (st : payment_status_t) (unlock : bool)
  : Request unit
(* from('properties').update({ rooms_available: v }).eq('id', p) *)
| UpdateRoomsAvailable (p : uuid) (v : Z) : Request unit
(* rpc('decrement_rooms', { property_id: p }) *)
| RpcDecrementRooms (p : uuid) : Request unit
(* from('properties').select('rooms_available').eq('id', p).single() *)
| SelectRoomsAvailable (p : uuid) : Request Z
(* from('reservations').update({ payment_status: st }).eq('id', r) *)
| UpdatePaymentStatus (r : uuid) (st : payment_status_t) : Request unit
(* from('properties').update(propertyData).eq('id', p) *)
| UpdateProperty (p : uuid) (d : PropertyData) : Request unit
(* from('properties').insert(propertyData) *)
| InsertProperty (d : PropertyData) : Request unit
(* from('properties').delete().eq('id', p) *)
| DeleteProperty (p : uuid) : Request unit
(* auth.refreshSession() and the profile read that follows it *)
| RefreshAuth : Request unit.

(** [gen_random_uuid()]: a value no row of the table carries. *)
Definition gen_random_uuid (ids : list uuid) : uuid :=
  1 + fold_right Z.max 0 ids.

Definition landlord_columns (u : User) : Landlord :=
  mkLandlord (u_id u) (name u) (email u) (phone u).

Definition same_pair (s p : uuid) (r : Reservation) : bool :=
  (student_id r =? s) && (property_id r =? p).

(** The row a landlord's form writes over [old]. *)
Definition apply_data (d : PropertyData) (old : Property) : option Property :=
  match d_rooms_available d, d_total_rooms d, d_price d, d_reservation_fee d with
  | Some ra, Some tr, Some pr, Some fee =>
      Some (mkProperty (p_id old) (d_title d) (d_description d) (d_location d)
              (d_detailed_location d) ra tr pr (d_tier d) fee
              (is_verified old) (d_images d) (d_video_url d) (d_landlord_id d))
  | _, _, _, _ => None
  end.

(** The after-update trigger, fired for each updated row in turn. *)
Fixpoint fire_update_triggers (who : auth) (st : payment_status_t)
    (olds : list Reservation) (ps : list Property) : PgError + list Property :=
  match olds with
  | [] => inr ps
  | OLD :: rest =>
      match handle_reservation_update who OLD (set_payment_status st OLD) ps with
      | inl e => inl e
      | inr ps' => fire_update_triggers who st rest ps'
      end
  end.

(** ** Programs: what a handler awaits, one request after the other *)

Inductive Prog (A : Type) : Type :=
| Ret (a : A)
| Await {R : Type} (q : Request R) (k : Response R -> Prog A).
Arguments Ret {A} _.
Arguments Await {A R} _ _.

Declare Scope prog_scope.
Delimit Scope prog_scope with prog.
Notation "'let*' r ':=' q 'in' k" := (Await q (fun r => k))
  (at level 10, r name, q at level 100, k at level 200) : prog_scope.

(** Sequencing: [await p] inside another handler. *)
Fixpoint bind {A B} (p : Prog A) (f : A -> Prog B) : Prog B :=
  match p with
  | Ret a => f a
  | Await q k => Await q (fun r => bind (k r) f)
  end.

(** A statement of some session, as it reaches the database. *)
Inductive Action :=
| Act (who : auth) {R : Type} (q : Request R).

(** What happens around one awaited request: the statements of other
    sessions that reach the database before it, and whether the request
    itself gets through (a request that does not resolves to an error and
    leaves the database alone). *)
Record Tick := mkTick {
  before : list Action;
  delivered : bool
}.

Definition quiet : Tick := mkTick [] true.

Section Backend.

(** No migration defines the function behind [rpc('decrement_rooms')]; its
    body is a parameter: given the caller and the [property_id] argument it
    rewrites the [properties] table.  The database still enforces the CHECK
    constraints on what it writes. *)
Variable decrement_rooms : auth -> uuid -> list Property -> list Property.

(** One statement, run atomically for [who]. A statement that fails leaves
    the database as it was. *)
Definition exec {R} (who : auth) (q : Request R) (db : Db) : Response R * Db :=
  match q in Request R return Response R * Db with
  | SelectProperty id verified_only =>
      (maybeSingle
         (filter (fun p => properties_select who p && (p_id p =? id)
                           && (negb verified_only || is_verified p))
                 (properties db)), db)
  | SelectLandlord id =>
      (single (map landlord_columns
                 (filter (fun u => users_select who u && (u_id u =? id))
                         (users db))), db)
  | SelectUnlockGranted s p =>
      (maybeSingle
         (map unlock_granted
            (filter (fun r => reservations_policy who r && same_pair s p r
                              && unlock_granted r)
                    (reservations db))), db)
  | SelectReservationId s p =>
      (maybeSingle
         (map r_id
            (filter (fun r => reservations_policy who r && same_pair s p r)
                    (reservations db))), db)
  | InsertReservation s p st unlock =>
      let NEW := mkReservation (gen_random_uuid (map r_id (reservations db)))
                   s p st unlock in
      if negb (reservations_policy who NEW) then (failed rls_violation, db)
      else if negb (existsb (fun u => u_id u =? s) (users db)
                    && existsb (fun x => p_id x =? p) (properties db))
      then (failed foreign_key_violation, db)
      else if existsb (same_pair s p) (reservations db)
      then (failed unique_violation, db)
      else
        match handle_reservation_insert who NEW (properties db) with
        | inl e => (failed e, db)
        | inr ps => (ok None, mkDb (users db) ps (reservations db ++ [NEW]))
        end
  | UpdateRoomsAvailable p v =>
      match update_properties who (fun x => p_id x =? p)
              (set_rooms_available v) (properties db) with
      | inl e => (failed e, db)
      | inr ps => (ok None, set_properties ps db)
      end
  | RpcDecrementRooms p =>
      let ps := decrement_rooms who p (properties db) in
      if forallb properties_checks ps then (ok None, set_properties ps db)
      else (failed check_violation, db)
  | SelectRoomsAvailable p =>
      (single (map rooms_available
                 (filter (fun x => properties_select who x && (p_id x =? p))
                         (properties db))), db)
  | UpdatePaymentStatus r st =>
      let hit x := (r_id x =? r) && reservations_policy who x in
      match fire_update_triggers who st (filter hit (reservations db))
              (properties db) with
      | inl e => (failed e, db)
      | inr ps =>
          (ok None,
           mkDb (users db) ps
             (map (fun x => if hit x then set_payment_status st x else x)
                  (reservations db)))
      end
  | UpdateProperty p d =>
      let hit x := (p_id x =? p) && properties_write who x in
      if forallb (fun x => negb (hit x)
                           || match apply_data d x with
                              | Some _ => true | None => false end)
                 (properties db)
      then
        match update_properties who (fun x => p_id x =? p)
                (fun x => match apply_data d x with
                          | Some y => y | None => x end)
                (properties db) with
        | inl e => (failed e, db)
        | inr ps => (ok None, set_properties ps db)
        end
      else (failed not_null_violation, db)
  | InsertProperty d =>
      let blank :=
        mkProperty (gen_random_uuid (map p_id (properties db)))
          EmptyString EmptyString EmptyString EmptyString 1 1 0 mid 5000
          false [] None (d_landlord_id d) in
      match apply_data d blank with
      | None => (failed not_null_violation, db)
      | Some row =>
          if negb (properties_write who row) then (failed rls_violation, db)
          else if negb (properties_checks row) then (failed check_violation, db)
          else (ok None, set_properties (properties db ++ [row]) db)
      end
  | DeleteProperty p =>
      let hit x := (p_id x =? p) && properties_write who x in
      let gone := map p_id (filter hit (properties db)) in
      (ok None,
       mkDb (users db)
         (filter (fun x => negb (hit x)) (properties db))
         (filter (fun r => negb (existsb (Z.eqb (property_id r)) gone))
                 (reservations db)))
  | RefreshAuth => (ok None, db)
  end.

Definition perform (a : Action) (db : Db) : Db :=
  match a with
  | Act who q => snd (exec who q db)
  end.

Definition perform_all (acts : list Action) (db : Db) : Db :=
  fold_left (fun d a => perform a d) acts db.

(** Run a handler for [who]: each request is one atomic statement; the
    schedule gives one tick per request, and is quiet once it runs out. *)
Fixpoint run {A} (p : Prog A) (who : auth) (sched : list Tick) (db : Db)
  : A * Db :=
  match p with
  | Ret a => (a, db)
  | Await q k =>
      let t := hd quiet sched in
      let db1 := perform_all (before t) db in
      if delivered t then
        let (r, db2) := exec who q db1 in run (k r) who (tl sched) db2
      else run (k (failed fetch_failed)) who (tl sched) db1
  end.

(** The requests a run issues, in order. *)
Fixpoint issued {A} (p : Prog A) (who : auth) (sched : list Tick) (db : Db)
  : list Action :=
  match p with
  | Ret _ => []
  | Await q k =>
      let t := hd quiet sched in
      let db1 := perform_all (before t) db in
      if delivered t then
        let (r, db2) := exec who q db1 in
        Act who q :: issued (k r) who (tl sched) db2
      else Act who q :: issued (k (failed fetch_failed)) who (tl sched) db1
  end.

End Backend.

(** The database as the migrations under the repository leave it: nothing
    answers [rpc('decrement_rooms')], and the table is not touched. *)
Definition rpc_undefined (who : auth) (p : uuid) (ps : list Property)
  : list Property := ps.

(** Modelled from the spec: the body of [decrement_rooms], which no
    migration defines: "atomically decrement the property's
    rooms_available by 1, guarded by rooms_available > 0 at the database
    level (a conditional update)", for whoever calls it. *)
Definition rpc_conditional_decrement (who : auth) (p : uuid)
    (ps : list Property) : list Property :=
  map (fun x => if (p_id x =? p) && (rooms_available x >? 0)
                then set_rooms_available (rooms_available x - 1) x else x) ps.

End Supabase.

(** react-hot-toast: what the user is told. *)
Module ReactHotToast.

Inductive Toast :=
| toast (msg : string)
| toast_success (msg : string)
| toast_error (msg : string).

End ReactHotToast.

(* ===================================================================== *)
(** * PropertyCard (the listing) *)
(* ===================================================================== *)

Module PropertyCard.
Import Schema.

(** [const dynamicReservationFee =
       calculateReservationFee(property.price, property.total_rooms)],
    the fee a listing card displays. *)
Definition dynamicReservationFee (p : Property) : float :=
  Fee.calculateReservationFee (Fee.Z2float (price p))
    (Fee.Z2float (total_rooms p)).

End PropertyCard.

(* ===================================================================== *)
(** * PropertyDetailPage *)
(* ===================================================================== *)

Module PropertyDetailPage.
Import Schema Supabase ReactHotToast.

Open Scope prog_scope.

(** The session's user ([useAuth().user]) and profile. *)
Record AuthUser := mkAuthUser {
  uid : uuid;
  user_email : string
}.

(** The route parameter, the auth context and the component's state. *)
Record State := mkState {
  id : uuid;
  user : option AuthUser;
  profile : option User;
  property : option Property;
  landlord : option Landlord;
  loading : bool;
  isUnlocked : bool;
  paymentLoading : bool;
  error : option string;
  toasts : list Toast
}.

Definition setProperty (p : Property) (c : State) : State :=
  mkState (id c) (user c) (profile c) (Some p) (landlord c) (loading c)
    (isUnlocked c) (paymentLoading c) (error c) (toasts c).
Definition setLandlord (l : option Landlord) (c : State) : State :=
  mkState (id c) (user c) (profile c) (property c) l (loading c)
    (isUnlocked c) (paymentLoading c) (error c) (toasts c).
Definition setLoading (b : bool) (c : State) : State :=
  mkState (id c) (user c) (profile c) (property c) (landlord c) b
    (isUnlocked c) (paymentLoading c) (error c) (toasts c).
Definition setIsUnlocked (b : bool) (c : State) : State :=
  mkState (id c) (user c) (profile c) (property c) (landlord c) (loading c)
    b (paymentLoading c) (error c) (toasts c).
Definition setPaymentLoading (b : bool) (c : State) : State :=
  mkState (id c) (user c) (profile c) (property c) (landlord c) (loading c)
    (isUnlocked c) b (error c) (toasts c).
Definition setError (e : option string) (c : State) : State :=
  mkState (id c) (user c) (profile c) (property c) (landlord c) (loading c)
    (isUnlocked c) (paymentLoading c) e (toasts c).
Definition show (t : Toast) (c : State) : State :=
  mkState (id c) (user c) (profile c) (property c) (landlord c) (loading c)
    (isUnlocked c) (paymentLoading c) (error c) (toasts c ++ [t]).

(** The component as it mounts: the [useState] initial values. *)
Definition mount (id : uuid) (user : option AuthUser) (profile : option User)
  : State :=
  mkState id user profile None None true false false None [].

Definition is_student (profile : option User) : bool :=
  match profile with
  | Some p => match role p with
              | Schema.student => true
              | Schema.landlord => false
              end
  | None => false
  end.

Definition who (c : State) : auth := option_map uid (user c).

(** [fetchProperty].  [user], [profile] and [id] are those of the render
    that created the closure; [refreshAuth] does not change them for this
    call. *)
Definition fetchProperty (c : State) : Prog State :=
  let c := setError None (setLoading true c) in
  bind (match user c, profile c with
        | Some _, None => let* _ := RefreshAuth in Ret tt
        | _, _ => Ret tt
        end)
  (fun _ =>
  (* if (!user || (profile && profile.role === 'student'))
       propertyQuery = propertyQuery.eq('is_verified', true) *)
  let verified_only :=
    match user c with None => true | Some _ => is_student (profile c) end in
  let* fetched := SelectProperty (id c) verified_only in
  match Supabase.error fetched with
  | Some _ =>
      Ret (setLoading false
             (setError (Some "Failed to load property details"%string) c))
  | None =>
      match data fetched with
      | None =>
          Ret (setLoading false
                 (setError (Some "Property not found or not available"%string)
                    c))
      | Some propertyData =>
          let c := setProperty propertyData c in
          let* l := SelectLandlord (landlord_id propertyData) in
          let c := match Supabase.error l with
                   | Some _ => c
                   | None => setLandlord (data l) c
                   end in
          match user c with
          | Some u =>
              let* r := SelectUnlockGranted (uid u) (id c) in
              let c := match Supabase.error r with
                       | Some _ => c
                       | None =>
                           setIsUnlocked
                             (match data r with Some _ => true | None => false end)
                             c
                       end in
              Ret (setLoading false c)
          | None => Ret (setLoading false c)
          end
      end
  end).

Definition already_unlocked : string :=
  "You have already unlocked this property.".
Definition unlocked_message : string :=
  "Property unlocked! You can now view full details and contact the landlord.".
Definition unlock_failed : string :=
  "Payment processed but failed to unlock property. Please contact support.".

(** [handlePaymentSuccess], the payment widget's success callback (the
    specification's [grantUnlock]).  [property] is the row the page holds
    from its last fetch. *)
Definition handlePaymentSuccess (c : State) : Prog State :=
  match user c, property c with
  | Some u, Some prop =>
      let c := setPaymentLoading true c in
      (* Check for existing reservation *)
      let* existing := SelectReservationId (uid u) (p_id prop) in
      match data existing with
      | Some _ =>
          Ret (setPaymentLoading false
                 (setIsUnlocked true (show (toast already_unlocked) c)))
      | None =>
          (* Create reservation record *)
          let* inserted := InsertReservation (uid u) (p_id prop) paid true in
          match Supabase.error inserted with
          | Some reservationError =>
              (* throw reservationError, caught by the handler's catch *)
              Ret (setPaymentLoading false (show (toast_error unlock_failed) c))
          | None =>
              (* Reduce available rooms by 1; an updateError is only logged *)
              let* updated :=
                UpdateRoomsAvailable (p_id prop)
                  (Z.max 0 (rooms_available prop - 1)) in
              let c := setIsUnlocked true c in
              let c := show (toast_success unlocked_message) c in
              let* decremented := RpcDecrementRooms (p_id prop) in
              let* fresh := SelectRoomsAvailable (p_id prop) in
              let newRooms :=
                Z.max 0 (match data fresh with
                         | Some v => v
                         | None => rooms_available prop
                         end - 1) in
              let* written := UpdateRoomsAvailable (p_id prop) newRooms in
              bind (fetchProperty c) (fun c => Ret (setPaymentLoading false c))
          end
      end
  | _, _ => Ret c
  end.

(** [dynamicReservationFee], the amount handed to the payment button. *)
Definition dynamicReservationFee (p : Property) : float :=
  Fee.calculateReservationFee (Fee.Z2float (price p))
    (Fee.Z2float (total_rooms p)).

(** ** What the page renders *)

Inductive Sidebar :=
| FullyBooked
| UnlockButton (amount : float) (disabled : bool)
| LandlordContact (l : Landlord)
| SignIn
| OnlyStudents.

Inductive Screen :=
| LoadingScreen
| ErrorScreen (msg : string)
| Detail (shown_detailed_location : option string)
         (shown_video : option string)
         (sidebar : Sidebar).

Definition nonempty (s : string) : bool :=
  match s with EmptyString => false | _ => true end.

Definition render (c : State) : Screen :=
  if loading c then LoadingScreen
  else
    match error c, property c with
    | Some e, _ => ErrorScreen e
    | None, None => ErrorScreen "Property not found"
    | None, Some prop =>
        Detail
          (* isUnlocked && property.detailed_location *)
          (if isUnlocked c && nonempty (detailed_location prop)
           then Some (detailed_location prop) else None)
          (* property.video_url && isUnlocked *)
          (match video_url prop with
           | Some v => if nonempty v && isUnlocked c then Some v else None
           | None => None
           end)
          (if rooms_available prop =? 0 then FullyBooked
           else if negb (isUnlocked c)
                   && match user c with Some _ => true | None => false end
                   && is_student (profile c)
           then UnlockButton (dynamicReservationFee prop) (paymentLoading c)
           else match isUnlocked c, landlord c with
                | true, Some l => LandlordContact l
                | _, _ =>
                    match user c with
                    | None => SignIn
                    | Some _ => OnlyStudents
                    end
                end)
    end.

End PropertyDetailPage.

(* ===================================================================== *)
(** * StudentDashboard *)
(* ===================================================================== *)

Module StudentDashboard.
Import Schema Supabase ReactHotToast.
Open Scope prog_scope.

Definition refund_requested : string :=
  "Refund requested successfully! We will process it within 3-5 business days.".
Definition refund_failed : string := "Failed to request refund".

(** [requestRefund(reservationId)]; [confirmed] is the answer to the
    [confirm(...)] dialog.  The list is re-read afterwards without being
    awaited. *)
Definition requestRefund (confirmed : bool) (reservationId : uuid)
    (toasts : list Toast) : Prog (list Toast) :=
  if negb confirmed then Ret toasts
  else
    let* updated := UpdatePaymentStatus reservationId refunded in
    match Supabase.error updated with
    | Some _ => Ret (toasts ++ [toast_error refund_failed])
    | None => Ret (toasts ++ [toast_success refund_requested])
    end.

(** The "Request Refund" button is rendered for
    [reservation.payment_status === 'paid'] only. *)
Definition refund_offered (r : Reservation) : bool :=
  payment_status_eqb (payment_status r) paid.

End StudentDashboard.

(* ===================================================================== *)
(** * LandlordDashboard *)
(* ===================================================================== *)

Module LandlordDashboard.
Import Schema Supabase ReactHotToast.
Open Scope prog_scope.

(** The form's state; the numeric inputs are JavaScript numbers. *)
Record FormData := mkFormData {
  f_title : string;
  f_description : string;
  f_location : string;
  f_detailed_location : string;
  f_rooms_available : float;
  f_total_rooms : float;
  f_price : float;
  f_tier : property_tier;
  f_images : list string;
  f_video_url : string
}.

Definition default_image : string :=
  "https://images.pexels.com/photos/106399/pexels-photo-106399.jpeg".

(** [const propertyData = { ...formData, landlord_id: user.id,
      reservation_fee: dynamicReservationFee, images: ..., video_url: ... }] *)
Definition propertyData (user_id : uuid) (formData : FormData) : PropertyData :=
  let dynamicReservationFee :=
    Fee.calculateReservationFee (f_price formData) (f_total_rooms formData) in
  mkPropertyData (f_title formData) (f_description formData)
    (f_location formData) (f_detailed_location formData)
    (Fee.to_integer (f_rooms_available formData))
    (Fee.to_integer (f_total_rooms formData))
    (Fee.to_integer (f_price formData))
    (f_tier formData)
    (Fee.to_integer dynamicReservationFee)
    (match f_images formData with [] => [default_image] | l => l end)
    (match f_video_url formData with
     | EmptyString => None
     | v => Some v
     end)
    user_id.

(** [handleSubmit]: the landlord saves the form, over [editingProperty] when
    one is being edited. *)
Definition handleSubmit (user_id : option uuid) (formData : FormData)
    (editingProperty : option Property) (toasts : list Toast)
  : Prog (list Toast) :=
  match user_id with
  | None => Ret toasts
  | Some u =>
      match editingProperty with
      | Some editing =>
          let* saved := UpdateProperty (p_id editing) (propertyData u formData) in
          match Supabase.error saved with
          | Some _ => Ret (toasts ++ [toast_error "Failed to save property"])
          | None =>
              Ret (toasts ++ [toast_success "Property updated successfully!"])
          end
      | None =>
          let* saved := InsertProperty (propertyData u formData) in
          match Supabase.error saved with
          | Some _ => Ret (toasts ++ [toast_error "Failed to save property"])
          | None =>
              Ret (toasts ++
                   [toast_success
                      "Property added successfully! It will be reviewed for verification."])
          end
      end
  end.

End LandlordDashboard.

(* ===================================================================== *)
(** * Sample data (the rows of the seed migration, and a student) *)
(* ===================================================================== *)

Module Sample.
Import Schema Supabase PropertyDetailPage.

Definition sample_landlord : User :=
  mkUser 1 "Sample Landlord" "landlord@example.com" Schema.landlord
    (Some "+2348012345678"%string).

Definition ada : User :=
  mkUser 2 "Ada" "ada@example.com" Schema.student None.

Definition bola : User :=
  mkUser 3 "Bola" "bola@example.com" Schema.student None.

(** 'Modern 2-Bedroom Apartment Near LASU': 3 of 4 rooms, price 180000. *)
Definition lasu_flat (rooms : Z) : Property :=
  mkProperty 10 "Modern 2-Bedroom Apartment Near LASU"
    "Beautiful and spacious 2-bedroom apartment with modern amenities."
    "Near LASU, Ojo"
    "No. 15 University Road, Opposite LASU Main Gate, Ojo, Lagos State."
    rooms 4 180000 mid 5000 true
    ["https://images.pexels.com/photos/106399/pexels-photo-106399.jpeg"%string]
    (Some "https://example.com/tour.mp4"%string) 1.

Definition seeded (rooms : Z) (rs : list Reservation) : Db :=
  mkDb [sample_landlord; ada; bola] [lasu_flat rooms] rs.

Definition session (u : User) : option AuthUser :=
  Some (mkAuthUser (u_id u) (email u)).

(** The detail page of the flat as [u] sees it once it has loaded from
    [db]. *)
Definition opened (u : User) (db : Db) : State :=
  fst (run rpc_undefined (fetchProperty (mount 10 (session u) (Some u)))
         (Some (u_id u)) [] db).

Definition rooms_of (db : Db) : list Z := map rooms_available (properties db).

Definition paid_by (rid : uuid) (u : User) : Reservation :=
  mkReservation rid (u_id u) 10 paid true.

(** [u] opens the page on [db] and the payment callback fires once. *)
Definition unlock_once rpc (u : User) (db : Db) : State * Db :=
  run rpc (handlePaymentSuccess (opened u db)) (Some (u_id u)) [] db.

(** ... and then a second time, as a duplicate callback. *)
Definition unlock_twice rpc (u : User) (db : Db) : State * Db :=
  let (c, db1) := unlock_once rpc u db in
  run rpc (handlePaymentSuccess c) (Some (u_id u)) [] db1.

(** [u] holds the paid reservation 7 on the flat, which has [rooms] rooms
    left, and asks for the refund. *)
Definition refund_by (u : User) (rooms : Z)
  : list ReactHotToast.Toast * Db :=
  run rpc_undefined (StudentDashboard.requestRefund true 7 [])
    (Some (u_id u)) [] (seeded rooms [paid_by 7 u]).

(** The database after the first [n] requests of a list have been run. *)
Definition replay rpc (n : nat) (acts : list Action) (db : Db) : Db :=
  perform_all rpc (firstn n acts) db.

End Sample.

(* ===================================================================== *)
(** * Predicates the properties are stated with *)
(* ===================================================================== *)

Module Ledger.
Import Schema Supabase.

(** The invariant of the data model: [0 <= rooms_available <= total_rooms]
    on every property row. *)
Definition room_invariant (p : Property) : Prop :=
  0 <= rooms_available p <= total_rooms p.

Definition rooms_in_range (db : Db) : Prop :=
  Forall room_invariant (properties db).

(** The reservation rows of the pair (student, property). *)
Definition rows_of (s p : uuid) (db : Db) : list Reservation :=
  filter (same_pair s p) (reservations db).

(** A reservation row that grants [s] the unlock of [p]. *)
Definition unlocked (s p : uuid) (db : Db) : Prop :=
  exists r, In r (reservations db) /\ student_id r = s /\ property_id r = p
            /\ unlock_granted r = true.

(** Two reservation rows that differ at most in [payment_status]. *)
Definition same_but_status (r r' : Reservation) : Prop :=
  r_id r' = r_id r /\ student_id r' = student_id r
  /\ property_id r' = property_id r /\ unlock_granted r' = unlock_granted r.

(** The counter of a row went up by at most one. *)
Definition raised_at_most_once (p p' : Property) : Prop :=
  p_id p' = p_id p /\ rooms_available p' <= rooms_available p + 1.

(** A schedule in which no other session writes; requests may still fail
    to get through. *)
Definition undisturbed (sched : list Tick) : Prop :=
  Forall (fun t => before t = []) sched.

(** The request writes [rooms_available] with a value the client computed
    (rather than with an expression the database evaluates on the row). *)
Definition client_computed_write (a : Action) : bool :=
  match a with
  | Act _ (UpdateRoomsAvailable _ _) => true
  | Act _ _ => false
  end.

(** The keys of [reservations]: [id] is the primary key and
    [UNIQUE(student_id, property_id)] holds. *)
Definition pair_of (r : Reservation) : uuid * uuid :=
  (student_id r, property_id r).

Definition ledger_keys (db : Db) : Prop :=
  NoDup (map r_id (reservations db))
  /\ NoDup (map pair_of (reservations db)).

(** [who] owns none of the rows: the properties policies admit none of
    [who]'s writes. *)
Definition owns_nothing (who : auth) (ps : list Property) : Prop :=
  Forall (fun p => properties_write who p = false) ps.

(** The requests of the student's pages (the landlord's form sends the
    other three). *)
Definition student_request {R} (q : Request R) : bool :=
  match q with
  | UpdateProperty _ _ | InsertProperty _ | DeleteProperty _ => false
  | _ => true
  end.

(** Requests that cannot write the [reservations] table. *)
Definition keeps_ledger {R} (q : Request R) : bool :=
  match q with
  | InsertReservation _ _ _ _ | UpdatePaymentStatus _ _ | DeleteProperty _ =>
      false
  | _ => true
  end.

(** The rows [UPDATE reservations ... WHERE id = rid] reaches for [who]. *)
Definition refund_hit (who : auth) (rid : uuid) (x : Reservation) : bool :=
  (r_id x =? rid) && reservations_policy who x.

End Ledger.

(* ===================================================================== *)
(** * JavaScript strings

    Text is held as the bytes of its UTF-8 encoding, as Postgres stores it.
    None of the functions below looks inside a multi-byte character: every
    byte of one is outside ASCII. *)
(* ===================================================================== *)

Module JsString.
Open Scope string_scope.

(** The double quote, as a one-character string. *)
Definition dquote : string := String (ascii_of_nat 34) EmptyString.

(** [String(n)] for an integer [n]: its decimal digits, with a minus sign
    for a negative one. *)
Definition Number_toString (n : Z) : string :=
  NilZero.string_of_int (Z.to_int n).

(** [\d] *)
Definition is_digit (c : ascii) : bool :=
  ((48 <=? nat_of_ascii c) && (nat_of_ascii c <=? 57))%nat.

(** [s.replace(/[^\d]/g, '')] *)
Fixpoint digits_only (s : string) : string :=
  match s with
  | EmptyString => EmptyString
  | String c s' => if is_digit c then String c (digits_only s')
                   else digits_only s'
  end.

(** The characters [encodeURIComponent] leaves as they are:
    [A-Z a-z 0-9 - _ . ! ~ * ' ( )]. *)
Definition unreserved (c : ascii) : bool :=
  let n := nat_of_ascii c in
  (((65 <=? n) && (n <=? 90)) || ((97 <=? n) && (n <=? 122))
   || ((48 <=? n) && (n <=? 57))
   || existsb (Nat.eqb n) [45; 95; 46; 33; 126; 42; 39; 40; 41])%nat.

Definition hex_digit (n : nat) : ascii :=
  ascii_of_nat (if (n <? 10)%nat then 48 + n else 55 + n).

(** One byte as [%XX], in upper-case hexadecimal. *)
Definition percent (c : ascii) : string :=
  String "%" (String (hex_digit (nat_of_ascii c / 16))
                (String (hex_digit (nat_of_ascii c mod 16)) EmptyString)).

(** [encodeURIComponent(s)]: every character but the unreserved ones is
    replaced by the escapes of the bytes of its UTF-8 encoding. *)
Fixpoint encodeURIComponent (s : string) : string :=
  match s with
  | EmptyString => EmptyString
  | String c s' =>
      (if unreserved c then String c EmptyString else percent c)
      ++ encodeURIComponent s'
  end.

(** [hay.includes(needle)] *)
Fixpoint includes (hay needle : string) : bool :=
  String.prefix needle hay
  || match hay with
     | EmptyString => false
     | String _ rest => includes rest needle
     end.

End JsString.

(* ===================================================================== *)
(** * PropertyDetailPage: the WhatsApp link *)
(* ===================================================================== *)

Module WhatsApp.
Import Schema Supabase JsString.
Open Scope string_scope.

(** The text of the message, before it is encoded. *)
Definition message (property : Property) : string :=
  "Hi! I'm interested in your property " ++ dquote ++ title property ++ dquote
  ++ " listed on Havenix. I have unlocked the details and would like to schedule a viewing. Available spaces: "
  ++ Number_toString (rooms_available property) ++ "/"
  ++ Number_toString (total_rooms property).

(** [generateWhatsAppLink]:
    [if (!landlord?.phone || !property) return '#'
     ...
     return `https://wa.me/${phoneNumber}?text=${encodedMessage}`] *)
Definition generateWhatsAppLink (landlord : option Landlord)
    (property : option Property) : string :=
  match landlord, property with
  | Some l, Some p =>
      match l_phone l with
      | Some phone =>
          if PropertyDetailPage.nonempty phone then
            let encodedMessage := encodeURIComponent (message p) in
            let phoneNumber := digits_only phone in
            "https://wa.me/" ++ phoneNumber ++ "?text=" ++ encodedMessage
          else "#"
      | None => "#"
      end
  | _, _ => "#"
  end.

End WhatsApp.

(* ===================================================================== *)
(** * Media upload (landlordDashboardUtils) *)
(* ===================================================================== *)

Module Upload.
Import ReactHotToast JsString.
Open Scope string_scope.

(** [[a-zA-Z0-9.\-_]] *)
Definition safe (c : ascii) : bool :=
  let n := nat_of_ascii c in
  (((97 <=? n) && (n <=? 122)) || ((65 <=? n) && (n <=? 90))
   || ((48 <=? n) && (n <=? 57)) || (n =? 46) || (n =? 45) || (n =? 95))%nat.

(** What [replace(/[^a-zA-Z0-9.\-_]/g, '_')] makes of one byte of the name.
    JavaScript replaces UTF-16 code units: a character outside ASCII is one
    unit, or two when it takes four bytes; its other bytes add nothing. *)
Definition replaced (c : ascii) : string :=
  let n := nat_of_ascii c in
  if safe c then String c EmptyString
  else if (n <? 128)%nat then "_"
  else if (n <? 192)%nat then EmptyString
  else if (n <? 240)%nat then "_"
  else "__".

(** [file.name.replace(/[^a-zA-Z0-9.\-_]/g, '_')] *)
Fixpoint safeName (name : string) : string :=
  match name with
  | EmptyString => EmptyString
  | String c rest => replaced c ++ safeName rest
  end.

(** [`${folder}/${Date.now()}-${safeName}`] *)
Definition filePath (folder : string) (now : Z) (name : string) : string :=
  folder ++ "/" ++ Number_toString now ++ "-" ++ safeName name.

(** A selected file, the clock when its turn comes, and whether the
    storage accepts it. *)
Record File := mkFile {
  file_name : string;
  file_type : string
}.

Record Turn := mkTurn {
  file : File;
  now : Z;
  accepted : bool
}.

(** The part of the form the upload writes. *)
Record Media := mkMedia {
  images : list string;
  video_url : string
}.

(** The loop's variables, and what it did: the paths it sent to the
    storage and the messages it showed. *)
Record Loop := mkLoop {
  uploadedImageUrls : list string;
  uploadedVideoUrl : option string;
  sent : list string;
  toasts : list Toast
}.

Section Storage.

(** [storage.from('property-media').getPublicUrl(filePath).data?.publicUrl] *)
Variable getPublicUrl : string -> option string.

(** One turn of [for (const file of Array.from(files))]. *)
Definition upload_one (l : Loop) (t : Turn) : Loop :=
  let isImage := String.prefix "image/" (file_type (file t)) in
  let isVideo := String.prefix "video/" (file_type (file t)) in
  if negb isImage && negb isVideo then l
  else
    let filePath := filePath (if isImage then "images" else "videos") (now t)
                      (file_name (file t)) in
    let sent := (sent l ++ [filePath])%list in
    if negb (accepted t) then
      mkLoop (uploadedImageUrls l) (uploadedVideoUrl l) sent
        (toasts l
         ++ [toast_error ("Failed to upload: " ++ file_name (file t))])%list
    else
      (* if (data?.publicUrl) *)
      match getPublicUrl filePath with
      | Some publicUrl =>
          if PropertyDetailPage.nonempty publicUrl then
            mkLoop
              (if isImage then (uploadedImageUrls l ++ [publicUrl])%list
               else uploadedImageUrls l)
              (if isVideo then Some publicUrl else uploadedVideoUrl l)
              sent (toasts l)
          else mkLoop (uploadedImageUrls l) (uploadedVideoUrl l) sent (toasts l)
      | None => mkLoop (uploadedImageUrls l) (uploadedVideoUrl l) sent (toasts l)
      end.

(** [handleMediaUpload]: [e.target.files] is [None] when the input holds no
    file list. *)
Definition handleMediaUpload (files : option (list Turn)) (prev : Media)
    (shown : list Toast) : Media * Loop :=
  match files with
  | None => (prev, mkLoop [] None [] shown)
  | Some files =>
      let l := fold_left upload_one files (mkLoop [] None [] shown) in
      (mkMedia (images prev ++ uploadedImageUrls l)%list
         (* uploadedVideoUrl || prev.video_url *)
         (match uploadedVideoUrl l with
          | Some v => if PropertyDetailPage.nonempty v then v else video_url prev
          | None => video_url prev
          end),
       l)
  end.

End Storage.

End Upload.

(* ===================================================================== *)
(** * PaystackButton *)
(* ===================================================================== *)

Module PaystackButton.
Open Scope string_scope.

(** The options handed to [window.PaystackPop.setup] (the key and the two
    callbacks apart). *)
Record Setup := mkSetup {
  email : string;
  amount : float;
  currency : string
}.

(** [handlePayment]: the button's [loading] state and the payment window
    that is opened, if [window.PaystackPop] is defined. *)
Definition handlePayment (paystack_loaded : bool) (email : string)
    (amount : float) : bool * option Setup :=
  if negb paystack_loaded then (false, None)
  else
    (true,
     Some (mkSetup email
             (PrimFloat.mul amount 100) (* Convert to kobo *)
             "NGN")).

(** The button as PropertyDetailPage renders it for [property]:
    [email={user.email || ''} amount={dynamicReservationFee}]. *)
Definition pay_for (paystack_loaded : bool) (u : PropertyDetailPage.AuthUser)
    (property : Schema.Property) : bool * option Setup :=
  handlePayment paystack_loaded (PropertyDetailPage.user_email u)
    (PropertyDetailPage.dynamicReservationFee property).

End PaystackButton.

(* ===================================================================== *)
(** * MultiStepPropertyForm: the stepper *)
(* ===================================================================== *)

Module MultiStepPropertyForm.
Open Scope string_scope.

Definition steps : list string :=
  ["Basic Info"; "Address"; "Features"; "Media"; "Proof"; "Review"].

(** [setStep(s => Math.min(s + 1, steps.length - 1))] *)
Definition handleNext (s : Z) : Z :=
  Z.min (s + 1) (Z.of_nat (List.length steps) - 1).

(** [setStep(s => Math.max(s - 1, 0))] *)
Definition handleBack (s : Z) : Z := Z.max (s - 1) 0.

(** The two buttons of the form. *)
Inductive Click := ClickNext | ClickBack.

Definition click (s : Z) (c : Click) : Z :=
  match c with
  | ClickNext => handleNext s
  | ClickBack => handleBack s
  end.

(** The step after a series of clicks, from [useState(0)]. *)
Definition step_after (clicks : list Click) : Z := fold_left click clicks 0.

End MultiStepPropertyForm.

(* ===================================================================== *)
(** * LandlordDashboard: editing and deleting a listing *)
(* ===================================================================== *)

Module LandlordListings.
Import Schema Supabase ReactHotToast LandlordDashboard.
Open Scope prog_scope.

(** [startEdit(property)]: the form is filled from the listing. *)
Definition startEdit (property : Property) : FormData :=
  mkFormData (title property) (description property) (location property)
    (detailed_location property)
    (Fee.Z2float (rooms_available property))
    (Fee.Z2float (total_rooms property))
    (Fee.Z2float (price property))
    (tier property) (images property)
    (* property.video_url || '' *)
    (match video_url property with
     | Some v => v
     | None => EmptyString
     end).

(** [handleDeleteProperty]; [confirmed] is the answer to
    [window.confirm(...)]. *)
Definition handleDelete (confirmed : bool) (id : uuid) (toasts : list Toast)
  : Prog (list Toast) :=
  if negb confirmed then Ret toasts
  else
    let* deleted := DeleteProperty id in
    match Supabase.error deleted with
    | Some _ => Ret (toasts ++ [toast_error "Failed to delete property"])%list
    | None =>
        Ret (toasts ++ [toast_success "Property deleted successfully!"])%list
    end.

End LandlordListings.

(* ===================================================================== *)
(** * The reads of the other pages *)
(* ===================================================================== *)

Module Queries.
Import Schema Supabase.

(** The columns [select('name, email, phone')] returns. *)
Record Contact := mkContact {
  c_name : string;
  c_email : string;
  c_phone : option string
}.

(** The property embedded in a reservation:
    [properties (id, title, location, price, total_rooms, images,
    landlord_id)]. *)
Record Listing := mkListing {
  li_id : uuid;
  li_title : string;
  li_location : string;
  li_price : Z;
  li_total_rooms : Z;
  li_images : list string;
  li_landlord_id : uuid
}.

(** A row of [reservations] with its embedded property. *)
Record Booking := mkBooking {
  b_reservation : Reservation;
  b_properties : option Listing
}.

Inductive Query : Type -> Type :=
(* from('users').select('*').eq('id', id).single() *)
| SelectProfile (id : uuid) : Query User
(* from('properties').select('*').order('created_at', { ascending: false }) *)
| SelectAllProperties : Query (list Property)
(* from('properties').select('*').eq('is_verified', true)
   .gt('rooms_available', 0).order('created_at', { ascending: false }) *)
| SelectAvailable : Query (list Property)
(* from('reservations').select('property_id').eq('student_id', s)
   .eq('unlock_granted', true) *)
| SelectUnlocked (s : uuid) : Query (list uuid)
(* from('reservations').select('*, properties (...)').eq('student_id', s)
   .order('created_at', { ascending: false }) *)
| SelectBookings (s : uuid) : Query (list Booking)
(* from('users').select('name, email, phone').eq('id', id).single() *)
| SelectContact (id : uuid) : Query Contact
(* from('properties').select('*').eq('landlord_id', l)
   .order('created_at', { ascending: false }) *)
| SelectOwnProperties (l : uuid) : Query (list Property).

(** [order('created_at', { ascending: false })].  The tables are kept in
    the order their rows were inserted and [created_at] defaults to
    [now()], which no statement of the client changes: the newest row is
    the last one. *)
Definition newest_first {A} (rows : list A) : list A := rev rows.

Definition contact_columns (u : User) : Contact :=
  mkContact (name u) (email u) (phone u).

Definition listing_columns (p : Property) : Listing :=
  mkListing (p_id p) (title p) (location p) (price p) (total_rooms p)
    (images p) (landlord_id p).

(** The property a reservation refers to, as far as [who] may read it. *)
Definition embedded (who : auth) (r : Reservation) (db : Db) : option Listing :=
  match filter (fun p => properties_select who p && (p_id p =? property_id r))
               (properties db) with
  | p :: _ => Some (listing_columns p)
  | [] => None
  end.

(** What a query answers on [db] for [who]: the rows the policies let
    [who] read. *)
Definition answer {R} (who : auth) (q : Query R) (db : Db) : Response R :=
  match q in Query R return Response R with
  | SelectProfile id =>
      single (filter (fun u => users_select who u && (u_id u =? id)) (users db))
  | SelectAllProperties =>
      ok (Some (newest_first (filter (properties_select who) (properties db))))
  | SelectAvailable =>
      ok (Some (newest_first
                  (filter (fun p => properties_select who p && is_verified p
                                    && (rooms_available p >? 0))
                          (properties db))))
  | SelectUnlocked s =>
      ok (Some (map property_id
                  (filter (fun r => reservations_policy who r
                                    && (student_id r =? s) && unlock_granted r)
                          (reservations db))))
  | SelectBookings s =>
      ok (Some (newest_first
                  (map (fun r => mkBooking r (embedded who r db))
                     (filter (fun r => reservations_policy who r
                                       && (student_id r =? s))
                             (reservations db)))))
  | SelectContact id =>
      single (map contact_columns
                (filter (fun u => users_select who u && (u_id u =? id))
                        (users db)))
  | SelectOwnProperties l =>
      ok (Some (newest_first
                  (filter (fun p => properties_select who p
                                    && (landlord_id p =? l))
                          (properties db))))
  end.

(** A handler that only reads: the queries it awaits and the pauses
    between them. *)
Inductive Script (A : Type) : Type :=
| Done (a : A)
| Ask {R : Type} (q : Query R) (k : Response R -> Script A)
| Sleep (ms : Z) (k : Script A).
Arguments Done {A} _.
Arguments Ask {A R} _ _.
Arguments Sleep {A} _ _.

Declare Scope script_scope.
Delimit Scope script_scope with script.
Notation "'ask' r ':=' q 'in' k" := (Ask q (fun r => k))
  (at level 10, r name, q at level 100, k at level 200) : script_scope.

Section Backend.
Variable decrement_rooms : auth -> uuid -> list Property -> list Property.

(** Run a script for [who] under a schedule: as [Supabase.run], one tick per
    query. *)
Fixpoint run_script {A} (p : Script A) (who : auth) (sched : list Tick)
    (db : Db) : A * Db :=
  match p with
  | Done a => (a, db)
  | Ask q k =>
      let t := hd quiet sched in
      let db1 := perform_all decrement_rooms (before t) db in
      if delivered t then run_script (k (answer who q db1)) who (tl sched) db1
      else run_script (k (failed fetch_failed)) who (tl sched) db1
  | Sleep _ k => run_script k who sched db
  end.

(** How many queries a run sends, and how long it pauses, in order. *)
Fixpoint asked {A} (p : Script A) (who : auth) (sched : list Tick) (db : Db)
  : nat :=
  match p with
  | Done _ => O
  | Ask q k =>
      let t := hd quiet sched in
      let db1 := perform_all decrement_rooms (before t) db in
      S (if delivered t then asked (k (answer who q db1)) who (tl sched) db1
         else asked (k (failed fetch_failed)) who (tl sched) db1)
  | Sleep _ k => asked k who sched db
  end.

Fixpoint pauses {A} (p : Script A) (who : auth) (sched : list Tick) (db : Db)
  : list Z :=
  match p with
  | Done _ => []
  | Ask q k =>
      let t := hd quiet sched in
      let db1 := perform_all decrement_rooms (before t) db in
      if delivered t then pauses (k (answer who q db1)) who (tl sched) db1
      else pauses (k (failed fetch_failed)) who (tl sched) db1
  | Sleep ms k => ms :: pauses k who sched db
  end.

End Backend.

End Queries.

(* ===================================================================== *)
(** * utils/supabase: the connection test *)
(* ===================================================================== *)

Module Connection.
Import Schema Supabase.


Definition maxRetries : Z := 3.



End Connection.

(* ===================================================================== *)
(** * AuthContext: reading the profile *)
(* ===================================================================== *)

Module AuthContext.
Import Schema Supabase Queries.
Open Scope script_scope.

(** The part of the context [fetchProfileWithRetry] writes. *)
Record Auth := mkAuth {
  profile : option User;
  loading : bool
}.

Definition maxRetries : Z := 3.

(** [fetchProfileWithRetry(userId)] from its [i]-th round on. *)
Fixpoint fetchProfile_from (rounds : nat) (i : Z) (userId : uuid) (a : Auth)
  : Script Auth :=
  match rounds with
  | O => Done a
  | S rounds' =>
      if i <? maxRetries then
        ask fetched := SelectProfile userId in
        match Supabase.error fetched with
        | Some not_a_single_row =>
            (* error.code === 'PGRST116' *)
            Done (mkAuth None false)
        | Some _ =>
            if i =? maxRetries - 1 then Done (mkAuth None false)
            else Sleep (1000 * (i + 1))
                   (fetchProfile_from rounds' (i + 1) userId a)
        | None => Done (mkAuth (data fetched) false)
        end
      else Done a
  end.

Definition fetchProfileWithRetry (userId : uuid) (a : Auth) : Script Auth :=
  fetchProfile_from (Z.to_nat maxRetries) 0 userId a.

End AuthContext.

(* ===================================================================== *)
(** * ExplorePage *)
(* ===================================================================== *)

Module ExplorePage.
Import Schema Supabase ReactHotToast Queries JsString.
Open Scope script_scope.

(** The component's state ([connectionStatus] apart). *)
Record State := mkState {
  properties : list Property;
  loading : bool;
  error : option string;
  searchTerm : string;
  selectedLocation : string;
  selectedTier : string;
  priceRange_min : string;
  priceRange_max : string;
  showFilters : bool;
  unlockedProperties : list uuid;
  toasts : list Toast
}.

Definition setProperties (ps : list Property) (c : State) : State :=
  mkState ps (loading c) (error c) (searchTerm c) (selectedLocation c)
    (selectedTier c) (priceRange_min c) (priceRange_max c) (showFilters c)
    (unlockedProperties c) (toasts c).
Definition setLoading (b : bool) (c : State) : State :=
  mkState (properties c) b (error c) (searchTerm c) (selectedLocation c)
    (selectedTier c) (priceRange_min c) (priceRange_max c) (showFilters c)
    (unlockedProperties c) (toasts c).
Definition setError (e : option string) (c : State) : State :=
  mkState (properties c) (loading c) e (searchTerm c) (selectedLocation c)
    (selectedTier c) (priceRange_min c) (priceRange_max c) (showFilters c)
    (unlockedProperties c) (toasts c).
Definition setUnlockedProperties (ids : list uuid) (c : State) : State :=
  mkState (properties c) (loading c) (error c) (searchTerm c)
    (selectedLocation c) (selectedTier c) (priceRange_min c)
    (priceRange_max c) (showFilters c) ids (toasts c).
Definition show (t : Toast) (c : State) : State :=
  mkState (properties c) (loading c) (error c) (searchTerm c)
    (selectedLocation c) (selectedTier c) (priceRange_min c)
    (priceRange_max c) (showFilters c) (unlockedProperties c)
    (toasts c ++ [t]).

(** The component as it mounts. *)
Definition mount : State :=
  mkState [] true None EmptyString EmptyString EmptyString EmptyString
    EmptyString false [] [].

(** [new Set(ids)]: the ids without repetitions, first occurrences kept. *)
Fixpoint Set_of (ids seen : list uuid) : list uuid :=
  match ids with
  | [] => []
  | x :: rest =>
      if existsb (Z.eqb x) seen then Set_of rest seen
      else x :: Set_of rest (x :: seen)
  end.

(** [unlockedProperties.has(id)] *)
Definition has (ids : list uuid) (id : uuid) : bool := existsb (Z.eqb id) ids.

Definition tier_name (t : property_tier) : string :=
  match t with
  | low => "low"
  | mid => "mid"
  | premium => "premium"
  end.

Section Platform.

(** [error.message] of a failed request, [String.prototype.toLowerCase] and
    [parseInt]. *)
Variable message : PgError -> string.
Variable toLowerCase : string -> string.
Variable parseInt : string -> float.

(** The [catch] and [finally] of [fetchProperties]. *)
Definition load_failed (e : PgError) (c : State) : State :=
  setLoading false
    (show (toast_error "Failed to load properties")
       (setError (Some ("Failed to load properties: " ++ message e)%string) c)).

(** [fetchProperties] *)
Definition fetchProperties (c : State) : Script State :=
  let c := setError None c in
  ask all := SelectAllProperties in
  match Supabase.error all with
  | Some allError => Done (load_failed allError c)
  | None =>
      match data all with
      | None | Some [] =>
          Done (setLoading false
                  (setError
                     (Some "No properties available yet. Be the first to list a property!"%string)
                     (setProperties [] c)))
      | Some allData =>
          ask verified := SelectAvailable in
          match Supabase.error verified with
          | Some verifiedError => Done (load_failed verifiedError c)
          | None =>
              match data verified with
              | None | Some [] =>
                  Done (setLoading false
                          (setError
                             (Some ("Found "
                                    ++ Number_toString
                                         (Z.of_nat (List.length allData))
                                    ++ " properties in database, but none are verified yet. Properties are being reviewed for verification.")%string)
                             (setProperties [] c)))
              | Some verifiedData =>
                  Done (setLoading false
                          (setError None (setProperties verifiedData c)))
              end
          end
      end
  end.

(** [fetchUnlockedProperties] *)
Definition fetchUnlockedProperties (user : option PropertyDetailPage.AuthUser)
    (c : State) : Script State :=
  match user with
  | None => Done c
  | Some u =>
      ask unlocked := SelectUnlocked (PropertyDetailPage.uid u) in
      match Supabase.error unlocked with
      | Some _ => Done c
      | None =>
          Done (setUnlockedProperties
                  (Set_of (match data unlocked with
                           | Some ids => ids
                           | None => []
                           end) []) c)
      end
  end.

(** [filteredProperties] *)
Definition matches (c : State) (property : Property) : bool :=
  let matchesSearch :=
    includes (toLowerCase (title property)) (toLowerCase (searchTerm c))
    || includes (toLowerCase (location property)) (toLowerCase (searchTerm c))
    || includes (toLowerCase (description property))
         (toLowerCase (searchTerm c)) in
  let matchesLocation :=
    negb (PropertyDetailPage.nonempty (selectedLocation c))
    || includes (location property) (selectedLocation c) in
  let matchesTier :=
    negb (PropertyDetailPage.nonempty (selectedTier c))
    || String.eqb (tier_name (tier property)) (selectedTier c) in
  let matchesPrice :=
    (negb (PropertyDetailPage.nonempty (priceRange_min c))
     || PrimFloat.leb (parseInt (priceRange_min c))
          (Fee.Z2float (price property)))
    && (negb (PropertyDetailPage.nonempty (priceRange_max c))
        || PrimFloat.leb (Fee.Z2float (price property))
             (parseInt (priceRange_max c))) in
  matchesSearch && matchesLocation && matchesTier && matchesPrice.

Definition filteredProperties (c : State) : list Property :=
  filter (matches c) (properties c).

(** The cards of the grid: each property with its [isUnlocked] flag. *)
Definition cards (c : State) : list (Property * bool) :=
  map (fun property => (property, has (unlockedProperties c) (p_id property)))
    (filteredProperties c).

End Platform.

(** The row [createSampleProperty] writes for [user_id]; [id] is the
    column's default. *)
Definition sampleProperty (user_id id : uuid) : Property :=
  mkProperty id "Modern 2-Bedroom Apartment Near LASU"
    "Beautiful and spacious 2-bedroom apartment with modern amenities, located just 5 minutes walk from LASU main gate. Features include 24/7 electricity, running water, security, and parking space."
    "Near LASU, Ojo"
    "No. 15 University Road, Opposite LASU Main Gate, Ojo, Lagos State. Landmark: Blue building next to First Bank."
    3 4 180000 mid 5000 true
    ["https://images.pexels.com/photos/106399/pexels-photo-106399.jpeg"%string;
     "https://images.pexels.com/photos/1571460/pexels-photo-1571460.jpeg"%string]
    None user_id.

(** [from('properties').insert(sampleProperty).select()], run for [who]:
    the policy's check on the new row, the CHECK constraints, and the
    foreign key of [landlord_id]. *)
Definition insert_sampleProperty (who : auth) (user_id : uuid) (db : Db)
  : Response (list Property) * Db :=
  let row := sampleProperty user_id
               (gen_random_uuid (map p_id (Schema.properties db))) in
  if negb (properties_write who row) then (failed rls_violation, db)
  else if negb (properties_checks row) then (failed check_violation, db)
  else if negb (existsb (fun u => (u_id u =? user_id)%Z) (users db))
  then (failed foreign_key_violation, db)
  else (ok (Some [row]),
        set_properties (Schema.properties db ++ [row])%list db).

Section Writing.
Variable decrement_rooms : auth -> uuid -> list Property -> list Property.
Variable message : PgError -> string.

(** [createSampleProperty]: the insert takes the first tick of the
    schedule, [fetchProperties] the rest. *)
Definition createSampleProperty (user : option PropertyDetailPage.AuthUser)
    (c : State) (who : auth) (sched : list Tick) (db : Db) : State * Db :=
  match user with
  | None =>
      (show (toast_error "Please sign in to create a sample property") c, db)
  | Some u =>
      let t := hd quiet sched in
      let db1 := perform_all decrement_rooms (before t) db in
      let (created, db2) :=
        if delivered t
        then insert_sampleProperty who (PropertyDetailPage.uid u) db1
        else (failed fetch_failed, db1) in
      match Supabase.error created with
      | Some e =>
          (show (toast_error
                   ("Failed to create sample property: " ++ message e)%string)
             c, db2)
      | None =>
          run_script decrement_rooms
            (fetchProperties message
               (show (toast_success "Sample property created successfully!") c))
            who (tl sched) db2
      end
  end.

End Writing.

(** [clearAllFilters] *)
Definition clearAllFilters (c : State) : State :=
  mkState (properties c) (loading c) (error c) EmptyString EmptyString
    EmptyString EmptyString EmptyString false (unlockedProperties c) (toasts c).

(** [activeFiltersCount] *)
Definition activeFiltersCount (c : State) : nat :=
  List.length
    (filter PropertyDetailPage.nonempty
       [selectedLocation c; selectedTier c; priceRange_min c;
        priceRange_max c]).

End ExplorePage.

(* ===================================================================== *)
(** * StudentDashboard: the list of reservations *)
(* ===================================================================== *)

Module StudentReservations.
Import Schema Supabase ReactHotToast Queries.
Open Scope script_scope.

(** A reservation as the dashboard holds it. *)
Record Row := mkRow {
  booking : Booking;
  landlords : option Contact
}.

Record State := mkState {
  reservations : list Row;
  loading : bool;
  error : option string;
  toasts : list Toast
}.

(** The landlord of each reservation, one request per reservation:
    [Promise.all(data.map(async (reservation) => ...))].  The requests only
    read [users], which no statement of the client writes, so that the
    order in which they are served does not show; they are taken in the
    order of the rows. *)
Fixpoint with_landlords {A} (data : list Booking)
    (k : list Row -> Script A) : Script A :=
  match data with
  | [] => k []
  | reservation :: rest =>
      match b_properties reservation with
      | Some p =>
          ask landlord := SelectContact (li_landlord_id p) in
          with_landlords rest
            (fun rows => k (mkRow reservation (Supabase.data landlord) :: rows))
      | None =>
          with_landlords rest (fun rows => k (mkRow reservation None :: rows))
      end
  end.

(** [fetchReservations] *)
Definition fetchReservations (user : option PropertyDetailPage.AuthUser)
    (c : State) : Script State :=
  match user with
  | None => Done c
  | Some u =>
      let c := mkState (reservations c) true None (toasts c) in
      ask fetched := SelectBookings (PropertyDetailPage.uid u) in
      match Supabase.error fetched with
      | Some _ =>
          Done (mkState (reservations c) false
                  (Some "Failed to load your reservations. Please try again."%string)
                  (toasts c ++ [toast_error "Failed to load your reservations"]))
      | None =>
          with_landlords (match data fetched with
                          | Some rows => rows
                          | None => []
                          end)
            (fun rows => Done (mkState rows false (error c) (toasts c)))
      end
  end.

(** The fee shown on a row:
    [price && total_rooms ? calculateReservationFee(price, total_rooms) : 0]. *)
Definition reservationFee (r : Row) : float :=
  match b_properties (booking r) with
  | Some p =>
      if Fee.truthy (Fee.Z2float (li_price p))
         && Fee.truthy (Fee.Z2float (li_total_rooms p))
      then Fee.calculateReservationFee (Fee.Z2float (li_price p))
             (Fee.Z2float (li_total_rooms p))
      else PrimFloat.zero
  | None => PrimFloat.zero
  end.

(** [reservation.unlock_granted && reservation.landlords]: the contact box. *)
Definition contact_shown (r : Row) : option Contact :=
  if unlock_granted (b_reservation (booking r)) then landlords r else None.

(** The contact a row carries is that of the landlord of its property, as
    the [users] table of [db] has it. *)
Definition contact_of_landlord (db : Db) (row : Row) : Prop :=
  forall contact, landlords row = Some contact ->
    exists p l, b_properties (booking row) = Some p
                /\ In l (users db) /\ u_id l = li_landlord_id p
                /\ contact = contact_columns l.

End StudentReservations.

(* ===================================================================== *)
(** * LandlordDashboard: the list of own properties *)
(* ===================================================================== *)

Module LandlordProperties.
Import Schema Supabase ReactHotToast Queries.
Open Scope script_scope.

Record State := mkState {
  properties : list Property;
  loading : bool;
  toasts : list Toast
}.

(** [fetchProperties(landlordId, setProperties, setLoading)] *)
Definition fetchProperties (landlordId : uuid) (c : State) : Script State :=
  let c := mkState (properties c) true (toasts c) in
  ask fetched := SelectOwnProperties landlordId in
  match Supabase.error fetched with
  | Some _ =>
      Done (mkState (properties c) false
              (toasts c ++ [toast_error "Failed to load properties"]))
  | None =>
      Done (mkState (match data fetched with
                     | Some rows => rows
                     | None => []
                     end) false (toasts c))
  end.

Section Backend.
Variable decrement_rooms : auth -> uuid -> list Property -> list Property.

(** The list of [u]'s dashboard once it has loaded from [db]. *)
Definition listed (u : uuid) (c : State) (db : Db) : list Property :=
  properties
    (fst (run_script decrement_rooms (fetchProperties u c) (Some u) [] db)).

End Backend.

End LandlordProperties.

(* ===================================================================== *)
(** * More sample data *)
(* ===================================================================== *)

Module Cases.
Import Schema Supabase PropertyDetailPage Sample.

(** A listing of the sample landlord that waits for its review. *)
Definition annex : Property :=
  mkProperty 11 "Annex behind the chapel"
    "Two rooms with a shared kitchen." "Iba" "12 Chapel Close, Iba."
    2 2 90000 low 450 false
    ["https://example.com/annex.jpg"%string] None 1.

Definition with_annex (rs : list Reservation) : Db :=
  mkDb [sample_landlord; ada; bola] [lasu_flat 3; annex] rs.

(** Ada's session. *)
Definition ada_signed_in : AuthUser := mkAuthUser 2 "ada@example.com".


(** The Explore page with the flat loaded and every filter set. *)
Definition filtered : ExplorePage.State :=
  ExplorePage.mkState [lasu_flat 3] false None "garden" "Ikeja" "premium"
    "500000" "900000" true [] [].

End Cases.

(** Closed facts about the sample data are settled by evaluation, one
    conjunct at a time. *)
Ltac evaluate :=
  cbv zeta;
  repeat match goal with |- _ /\ _ => split end; vm_compute; reflexivity.

(* ===================================================================== *)
(** * The room counter stays within its bounds *)
(* ===================================================================== *)

Module RoomCounter.
Import Schema Supabase Ledger.

Lemma checks_room_invariant p :
  properties_checks p = true -> room_invariant p.
Proof.
  unfold properties_checks, valid_room_count, room_invariant.
  rewrite !andb_true_iff. intros [[[Hle Hge] _] _].
  apply Z.leb_le in Hle. apply Z.geb_le in Hge. lia.
Qed.

Lemma update_properties_in_range who sel upd ps ps' :
  Forall room_invariant ps ->
  update_properties who sel upd ps = inr ps' ->
  Forall room_invariant ps'.
Proof.
  unfold update_properties. intros Hall.
  destruct (forallb _ ps); [|discriminate].
  destruct (forallb _ ps) eqn:Hchecks; [|discriminate].
  intros [= <-]. rewrite forallb_forall in Hchecks.
  rewrite Forall_forall in *. intros x Hx.
  apply in_map_iff in Hx. destruct Hx as (p & <- & Hp).
  specialize (Hchecks p Hp). specialize (Hall p Hp).
  destruct (sel p && properties_write who p); simpl in *.
  - now apply checks_room_invariant.
  - assumption.
Qed.

Lemma insert_trigger_in_range who NEW ps ps' :
  Forall room_invariant ps ->
  handle_reservation_insert who NEW ps = inr ps' ->
  Forall room_invariant ps'.
Proof.
  unfold handle_reservation_insert. intros Hall.
  destruct (_ && _).
  - now apply update_properties_in_range.
  - now intros [= <-].
Qed.

Lemma update_trigger_in_range who OLD NEW ps ps' :
  Forall room_invariant ps ->
  handle_reservation_update who OLD NEW ps = inr ps' ->
  Forall room_invariant ps'.
Proof.
  unfold handle_reservation_update. intros Hall.
  destruct (_ && _).
  - now apply update_properties_in_range.
  - now intros [= <-].
Qed.

Lemma fire_update_triggers_in_range who st olds : forall ps ps',
  Forall room_invariant ps ->
  fire_update_triggers who st olds ps = inr ps' ->
  Forall room_invariant ps'.
Proof.
  induction olds as [|OLD rest IH]; simpl; intros ps ps' Hall.
  - now intros [= <-].
  - destruct (handle_reservation_update _ _ _ ps) as [e|ps1] eqn:Ht;
      [discriminate|].
    intros Hrest. eapply IH; [|exact Hrest].
    eapply update_trigger_in_range; eauto.
Qed.

Section AnyBackend.
Variable rpc : auth -> uuid -> list Property -> list Property.

(** Every statement leaves every counter within its bounds, whoever
    issues it and whatever it asks for. *)
Lemma exec_in_range {R} who (q : Request R) db :
  rooms_in_range db -> rooms_in_range (snd (exec rpc who q db)).
Proof.
  unfold rooms_in_range. intros Hall.
  destruct q; simpl; try assumption.
  - (* InsertReservation *)
    destruct (negb _); [assumption|].
    destruct (negb _); [assumption|].
    destruct (existsb _ _); [assumption|].
    destruct (handle_reservation_insert _ _ _) as [e|ps] eqn:Ht;
      [assumption|]. simpl.
    eapply insert_trigger_in_range; eauto.
  - (* UpdateRoomsAvailable *)
    destruct (update_properties _ _ _ _) as [e|ps] eqn:Hu; [assumption|].
    simpl. eapply update_properties_in_range; eauto.
  - (* RpcDecrementRooms *)
    destruct (forallb properties_checks _) eqn:Hc; [|assumption].
    simpl. rewrite forallb_forall in Hc. apply Forall_forall.
    intros x Hx. apply checks_room_invariant. now apply Hc.
  - (* UpdatePaymentStatus *)
    destruct (fire_update_triggers _ _ _ _) as [e|ps] eqn:Hf; [assumption|].
    simpl. eapply fire_update_triggers_in_range; eauto.
  - (* UpdateProperty *)
    destruct (forallb _ _); [|assumption].
    destruct (update_properties _ _ _ _) as [e|ps] eqn:Hu; [assumption|].
    simpl. eapply update_properties_in_range; eauto.
  - (* InsertProperty *)
    destruct (apply_data _ _) as [row|]; [|assumption].
    destruct (negb (properties_write _ _)); [assumption|].
    destruct (negb (properties_checks row)) eqn:Hc; [assumption|].
    simpl. apply Forall_app. split; [assumption|].
    constructor; [|constructor].
    apply checks_room_invariant. now apply negb_false_iff.
  - (* DeleteProperty *)
    rewrite Forall_forall in *. intros x Hx.
    apply filter_In in Hx. now apply Hall.
Qed.

Lemma perform_all_in_range acts : forall db,
  rooms_in_range db -> rooms_in_range (perform_all rpc acts db).
Proof.
  induction acts as [|a acts IH]; simpl; intros db Hdb; [assumption|].
  apply IH. destruct a as [who R q]. now apply exec_in_range.
Qed.

(** Safety under any interleaving: whatever a handler awaits, whichever
    statements of other sessions reach the database in between and
    whichever requests fail, no counter leaves [0 .. total_rooms]. *)
Lemma run_in_range {A} (p : Prog A) : forall who sched db,
  rooms_in_range db -> rooms_in_range (snd (run rpc p who sched db)).
Proof.
  induction p as [a|R q k IH]; simpl; intros who sched db Hdb; [assumption|].
  pose proof (perform_all_in_range (before (hd quiet sched)) db Hdb) as H1.
  destruct (delivered (hd quiet sched)).
  - pose proof (exec_in_range who q _ H1) as H2.
    destruct (exec rpc who q _) as [r db2]. now apply IH.
  - now apply IH.
Qed.

End AnyBackend.

(** C9: the unlock (with its trigger, its two client writes and the
    [decrement_rooms] call), the refund (with its trigger) and a landlord's
    edit or new listing keep [0 <= rooms_available <= total_rooms] on every
    property row, under every schedule of other sessions' statements and
    failed requests, and for every body of [decrement_rooms]. *)
Theorem room_counters_stay_in_range rpc db :
  rooms_in_range db ->
  (forall c who sched,
     rooms_in_range
       (snd (run rpc (PropertyDetailPage.handlePaymentSuccess c) who sched db)))
  /\ (forall confirmed rid toasts who sched,
        rooms_in_range
          (snd (run rpc (StudentDashboard.requestRefund confirmed rid toasts)
                  who sched db)))
  /\ (forall user_id form editing toasts who sched,
        rooms_in_range
          (snd (run rpc (LandlordDashboard.handleSubmit user_id form editing
                           toasts) who sched db))).
Proof.
  intros Hdb. repeat split; intros; now apply run_in_range.
Qed.

Lemma room_counters_stay_in_range_witness :
  rooms_in_range (Sample.seeded 3 [])
  /\ rooms_in_range
       (snd (run rpc_conditional_decrement
               (PropertyDetailPage.handlePaymentSuccess
                  (Sample.opened Sample.sample_landlord (Sample.seeded 3 [])))
               (Some 1) [] (Sample.seeded 3 []))).
Proof.
  assert (H : rooms_in_range (Sample.seeded 3 [])).
  { repeat constructor; vm_compute; discriminate. }
  split; [exact H|].
  apply (room_counters_stay_in_range rpc_conditional_decrement
           (Sample.seeded 3 []) H).
Defined.

End RoomCounter.

(* ===================================================================== *)
(** * The reservation ledger *)
(* ===================================================================== *)

Module LedgerFacts.
Import Schema Supabase Ledger.

(** The policy [student_id = auth.uid()] hides nothing from the student
    who asks for their own rows. *)
Lemma own_rows_visible s p rs :
  filter (fun r => reservations_policy (Some s) r && same_pair s p r) rs
  = filter (same_pair s p) rs.
Proof.
  apply filter_ext. intros r. unfold reservations_policy, same_pair, uid_is.
  destruct (student_id r =? s) eqn:E; simpl.
  - apply Z.eqb_eq in E. rewrite E, Z.eqb_refl. reflexivity.
  - apply andb_false_r.
Qed.

Lemma existsb_filter_nil {A} (f : A -> bool) l :
  existsb f l = false <-> filter f l = [].
Proof.
  induction l as [|x l IH]; simpl; [tauto|].
  destruct (f x); simpl; [split; discriminate|exact IH].
Qed.

Lemma same_but_status_refl r : same_but_status r r.
Proof. repeat split. Qed.

Lemma set_payment_status_same st r : same_but_status r (set_payment_status st r).
Proof. repeat split. Qed.

Lemma Forall2_map_r {A} (P : A -> A -> Prop) (f : A -> A) l :
  (forall x, P x (f x)) -> Forall2 P l (map f l).
Proof. intros H. induction l; simpl; constructor; auto. Qed.

Lemma Forall2_In_l {A B} (P : A -> B -> Prop) l l' x :
  Forall2 P l l' -> In x l -> exists y, In y l' /\ P x y.
Proof.
  induction 1 as [|a b l l' Hab _ IH]; simpl; [tauto|].
  intros [->|Hin].
  - exists b. auto.
  - destruct (IH Hin) as (y & Hy & Hxy). exists y. auto.
Qed.

Lemma Forall2_same {A} (P : A -> A -> Prop) l :
  (forall x, P x x) -> Forall2 P l l.
Proof. intros H. induction l; constructor; auto. Qed.

Lemma own_unlocked_visible s p rs :
  filter (fun r => reservations_policy (Some s) r && same_pair s p r
                   && unlock_granted r) rs
  = filter (fun r => same_pair s p r && unlock_granted r) rs.
Proof.
  apply filter_ext. intros r. unfold reservations_policy, same_pair, uid_is.
  destruct (student_id r =? s) eqn:E; simpl.
  - apply Z.eqb_eq in E. rewrite E, Z.eqb_refl. reflexivity.
  - now rewrite andb_false_r.
Qed.

Lemma maybeSingle_data {R} (rows : list R) x :
  data (maybeSingle rows) = Some x -> In x rows.
Proof.
  destruct rows as [|a [|b rows]]; cbn; try discriminate.
  intros [= ->]. now left.
Qed.

Lemma undisturbed_hd sched : undisturbed sched -> before (hd quiet sched) = [].
Proof. destruct 1; simpl; auto. Qed.

Lemma undisturbed_tl sched : undisturbed sched -> undisturbed (tl sched).
Proof. destruct 1; simpl; auto. constructor. Qed.

Section AnyBackend.
Variable rpc : auth -> uuid -> list Property -> list Property.

(** A statement that fails leaves the database as it was. *)
Lemma failed_statement_changes_nothing {R} who (q : Request R) db e :
  Supabase.error (fst (exec rpc who q db)) = Some e ->
  snd (exec rpc who q db) = db.
Proof.
  destruct q; simpl; try reflexivity.
  - destruct (negb _); [reflexivity|].
    destruct (negb _); [reflexivity|].
    destruct (existsb _ _); [reflexivity|].
    destruct (handle_reservation_insert _ _ _); [reflexivity|discriminate].
  - destruct (update_properties _ _ _ _); [reflexivity|discriminate].
  - destruct (forallb _ _); [discriminate|reflexivity].
  - destruct (fire_update_triggers _ _ _ _); [reflexivity|discriminate].
  - destruct (forallb _ _); [|reflexivity].
    destruct (update_properties _ _ _ _); [reflexivity|discriminate].
  - destruct (apply_data _ _); [|reflexivity].
    destruct (negb _); [reflexivity|].
    destruct (negb _); [reflexivity|discriminate].
  - discriminate.
Qed.

Lemma exec_keeps_ledger {R} who (q : Request R) db :
  keeps_ledger q = true ->
  reservations (snd (exec rpc who q db)) = reservations db.
Proof.
  destruct q; simpl; try discriminate; try reflexivity; intros _.
  - destruct (update_properties _ _ _ _); reflexivity.
  - destruct (forallb _ _); reflexivity.
  - destruct (forallb _ _); [|reflexivity].
    destruct (update_properties _ _ _ _); reflexivity.
  - destruct (apply_data _ _); [|reflexivity].
    destruct (negb _); [reflexivity|].
    destruct (negb _); reflexivity.
Qed.

(** One awaited request in an undisturbed schedule: it either fails to get
    through or is answered by the database. *)
Lemma run_await {A R} (q : Request R) (k : Response R -> Prog A) who sched db
    (P : A * Db -> Prop) :
  undisturbed sched ->
  (forall sched', undisturbed sched' ->
     P (run rpc (k (failed fetch_failed)) who sched' db)) ->
  (forall sched', undisturbed sched' ->
     P (run rpc (k (fst (exec rpc who q db))) who sched'
          (snd (exec rpc who q db)))) ->
  P (run rpc (Await q k) who sched db).
Proof.
  intros Hs Hlost Hdone. cbn [run]. rewrite (undisturbed_hd _ Hs).
  cbn [perform_all fold_left]. apply undisturbed_tl in Hs.
  destruct (delivered _).
  - specialize (Hdone _ Hs). destruct (exec rpc who q db). exact Hdone.
  - now apply Hlost.
Qed.

Lemma run_await_ledger {A R} (q : Request R) (k : Response R -> Prog A) who
    (L : list Reservation) (P : A * Db -> Prop) :
  keeps_ledger q = true ->
  (forall r d sched, reservations d = L -> undisturbed sched ->
     P (run rpc (k r) who sched d)) ->
  forall d sched, reservations d = L -> undisturbed sched ->
    P (run rpc (Await q k) who sched d).
Proof.
  intros Hq Hk d sched Hd Hs. apply run_await; [exact Hs| |]; intros s' Hs'.
  - now apply Hk.
  - apply Hk; [|exact Hs']. now rewrite exec_keeps_ledger.
Qed.

Lemma run_bind_ret {A B} (p : Prog A) (g : A -> B) : forall who sched db,
  run rpc (bind p (fun a => Ret (g a))) who sched db
  = (g (fst (run rpc p who sched db)), snd (run rpc p who sched db)).
Proof.
  induction p as [a|R q k IH]; intros who sched db; cbn [bind run];
    [reflexivity|].
  destruct (delivered _).
  - destruct (exec rpc who q _). apply IH.
  - apply IH.
Qed.

Lemma insert_accepted who s p st un db :
  Supabase.error (fst (exec rpc who (InsertReservation s p st un) db)) = None ->
  exists ps,
    exec rpc who (InsertReservation s p st un) db
    = (ok None,
       mkDb (users db) ps
         (reservations db
          ++ [mkReservation (gen_random_uuid (map r_id (reservations db)))
                s p st un])).
Proof.
  cbn [exec].
  destruct (negb _); [discriminate|].
  destruct (negb _); [discriminate|].
  destruct (existsb _ _); [discriminate|].
  destruct (handle_reservation_insert _ _ _) as [e|ps]; [discriminate|].
  intros _. now exists ps.
Qed.

End AnyBackend.

End LedgerFacts.

(** Step over the next awaited request of an undisturbed run: first the
    case in which it does not get through, then the case in which the
    database answers. *)
Ltac await Hs :=
  match goal with
  | |- context [Supabase.run ?rpc (Supabase.Await ?q ?k) ?who ?sched ?db] =>
      pattern (Supabase.run rpc (Supabase.Await q k) who sched db);
      apply LedgerFacts.run_await;
      [exact Hs | clear Hs; intros ? Hs | clear Hs; intros ? Hs]
  end.

(* ===================================================================== *)
(** * The keys of the ledger hold under every interleaving *)
(* ===================================================================== *)

Module LedgerKeys.
Import Schema Supabase Ledger LedgerFacts.

Lemma gen_random_uuid_above ids x : In x ids -> x < gen_random_uuid ids.
Proof.
  unfold gen_random_uuid.
  induction ids as [|y ids IH]; cbn [fold_right In]; [tauto|].
  intros [->|Hin]; [lia|]. specialize (IH Hin). lia.
Qed.

Lemma gen_random_uuid_fresh ids : ~ In (gen_random_uuid ids) ids.
Proof. intros H. apply gen_random_uuid_above in H. lia. Qed.

Lemma NoDup_snoc {A} (l : list A) x : NoDup l -> ~ In x l -> NoDup (l ++ [x]).
Proof.
  intros Hl Hx. induction Hl as [|a l Ha Hl IH]; cbn.
  - constructor; [tauto|constructor].
  - constructor.
    + rewrite in_app_iff. cbn. intros [H|[H|[]]]; [tauto|].
      subst. apply Hx. now left.
    + apply IH. intros H. apply Hx. now right.
Qed.

Lemma NoDup_map_filter {A B} (g : A -> B) (h : A -> bool) l :
  NoDup (map g l) -> NoDup (map g (filter h l)).
Proof.
  induction l as [|a l IH]; cbn; [auto|].
  intros Hnd. inversion Hnd as [|? ? Hnotin Hrest]; subst.
  destruct (h a); cbn; [|auto]. constructor; [|auto].
  intros Hin. apply Hnotin. apply in_map_iff in Hin.
  destruct Hin as (x & Hx & Hf). apply filter_In in Hf.
  apply in_map_iff. exists x. tauto.
Qed.

Lemma no_row_of_pair s p rs :
  existsb (same_pair s p) rs = false -> ~ In (s, p) (map pair_of rs).
Proof.
  intros Hex Hin. apply in_map_iff in Hin. destruct Hin as (r & Hr & Hin).
  assert (existsb (same_pair s p) rs = true); [|congruence].
  apply existsb_exists. exists r. split; [exact Hin|].
  unfold pair_of in Hr. injection Hr as <- <-. unfold same_pair.
  now rewrite !Z.eqb_refl.
Qed.

Section AnyBackend.
Variable rpc : auth -> uuid -> list Property -> list Property.

Lemma exec_ledger_keys {R} who (q : Request R) db :
  ledger_keys db -> ledger_keys (snd (exec rpc who q db)).
Proof.
  intros [Hid Hpair].
  destruct (keeps_ledger q) eqn:Hq.
  - unfold ledger_keys. now rewrite exec_keeps_ledger.
  - destruct q; try discriminate; cbn [exec]; unfold ledger_keys.
    + destruct (negb _); [easy|].
      destruct (negb _); [easy|].
      destruct (existsb _ _) eqn:Hex; [easy|].
      destruct (handle_reservation_insert _ _ _); [easy|].
      cbn [snd reservations]. rewrite !map_app. cbn [map]. split.
      * apply NoDup_snoc; [exact Hid|]. apply gen_random_uuid_fresh.
      * apply NoDup_snoc; [exact Hpair|]. now apply no_row_of_pair.
    + destruct (fire_update_triggers _ _ _ _); [easy|].
      cbn [snd reservations]. rewrite !map_map.
      split.
      * erewrite map_ext; [exact Hid|]. intros x. now destruct (_ && _).
      * erewrite map_ext; [exact Hpair|]. intros x. now destruct (_ && _).
    + cbn [snd reservations]. split; now apply NoDup_map_filter.
Qed.

Lemma perform_all_ledger_keys acts : forall db,
  ledger_keys db -> ledger_keys (perform_all rpc acts db).
Proof.
  induction acts as [|a acts IH]; simpl; intros db Hdb; [assumption|].
  apply IH. destruct a as [who R q]. now apply exec_ledger_keys.
Qed.

Lemma run_ledger_keys {A} (p : Prog A) : forall who sched db,
  ledger_keys db -> ledger_keys (snd (run rpc p who sched db)).
Proof.
  induction p as [a|R q k IH]; simpl; intros who sched db Hdb; [assumption|].
  pose proof (perform_all_ledger_keys (before (hd quiet sched)) db Hdb) as H1.
  destruct (delivered (hd quiet sched)).
  - pose proof (exec_ledger_keys who q _ H1) as H2.
    destruct (exec rpc who q _) as [r db2]. now apply IH.
  - now apply IH.
Qed.

(** With the pair unique, a student and a property have at most one row,
    whatever the sessions did before. *)
Lemma at_most_one_row s p db :
  ledger_keys db -> (List.length (rows_of s p db) <= 1)%nat.
Proof.
  intros [_ Hpair]. unfold rows_of.
  induction (reservations db) as [|r rs IH]; cbn [filter map] in *; [auto|].
  inversion Hpair as [|? ? Hnotin Hrest]; subst.
  destruct (same_pair s p r) eqn:Hr; [|auto].
  replace (filter (same_pair s p) rs) with (@nil Reservation); [auto|].
  symmetry. apply existsb_filter_nil. apply not_true_is_false. intros Hex.
  apply existsb_exists in Hex. destruct Hex as (x & Hx & Hsp).
  apply Hnotin. apply in_map_iff. exists x. split; [|exact Hx].
  unfold same_pair in Hr, Hsp. apply andb_prop in Hr. apply andb_prop in Hsp.
  destruct Hr as [H1 H2]. destruct Hsp as [H3 H4].
  apply Z.eqb_eq in H1, H2, H3, H4. unfold pair_of. congruence.
Qed.
End AnyBackend.

End LedgerKeys.

(* ===================================================================== *)
(** * Row security: the writes of someone who owns no property *)
(* ===================================================================== *)

Module RowSecurity.
Import Schema Supabase ReactHotToast PropertyDetailPage StudentDashboard.
Import Ledger LedgerFacts.

Lemma map_unchanged {A} (h : A -> bool) (f : A -> A) l :
  Forall (fun x => h x = false) l -> map (fun x => if h x then f x else x) l = l.
Proof.
  induction 1 as [|x l Hx _ IH]; cbn; [reflexivity|]. now rewrite Hx, IH.
Qed.

Lemma forallb_unhit {A} (h g : A -> bool) l :
  Forall (fun x => h x = false) l -> forallb (fun x => negb (h x) || g x) l = true.
Proof.
  induction 1 as [|x l Hx _ IH]; cbn; [reflexivity|]. now rewrite Hx, IH.
Qed.

(** An [UPDATE properties] of someone who owns none of the rows reaches no
    row and reports no error. *)
Lemma stranger_update_reaches_no_row who sel upd ps :
  owns_nothing who ps -> update_properties who sel upd ps = inr ps.
Proof.
  intros Hown. unfold update_properties.
  assert (Hhit : Forall (fun p => sel p && properties_write who p = false) ps).
  { eapply Forall_impl; [|exact Hown]. cbn. intros p ->. apply andb_false_r. }
  rewrite !forallb_unhit by exact Hhit. now rewrite map_unchanged.
Qed.

Lemma stranger_insert_trigger who NEW ps :
  owns_nothing who ps -> handle_reservation_insert who NEW ps = inr ps.
Proof.
  intros Hown. unfold handle_reservation_insert.
  destruct (_ && _); [|reflexivity]. now apply stranger_update_reaches_no_row.
Qed.

Lemma stranger_update_triggers who st olds ps :
  owns_nothing who ps -> fire_update_triggers who st olds ps = inr ps.
Proof.
  intros Hown. induction olds as [|OLD rest IH]; cbn; [reflexivity|].
  unfold handle_reservation_update.
  destruct (_ && _); [|exact IH].
  now rewrite stranger_update_reaches_no_row.
Qed.

(** With no [decrement_rooms] in the database, nothing the unlock or the
    refund sends moves a counter of a property the caller does not own. *)
Lemma stranger_exec {R} who (q : Request R) db :
  owns_nothing who (properties db) ->
  match q with
  | UpdateProperty _ _ | InsertProperty _ | DeleteProperty _ => False
  | _ => True
  end ->
  properties (snd (exec rpc_undefined who q db)) = properties db.
Proof.
  intros Hown. destruct q; cbn [exec]; try tauto; intros _; try reflexivity.
  - destruct (negb _); [reflexivity|].
    destruct (negb _); [reflexivity|].
    destruct (existsb _ _); [reflexivity|].
    now rewrite stranger_insert_trigger.
  - now rewrite stranger_update_reaches_no_row.
  - unfold rpc_undefined. now destruct (forallb _ _).
  - now rewrite stranger_update_triggers.
Qed.

Lemma stranger_request {R} who (q : Request R) db :
  owns_nothing who (properties db) -> student_request q = true ->
  properties (snd (exec rpc_undefined who q db)) = properties db.
Proof.
  intros Hown Hq. apply stranger_exec; [exact Hown|].
  destruct q; try discriminate; exact I.
Qed.

Lemma run_await_counters {A R} (q : Request R) (k : Response R -> Prog A) who
    (ps : list Property) (P : A * Db -> Prop) :
  owns_nothing who ps -> student_request q = true ->
  (forall r d sched, properties d = ps -> undisturbed sched ->
     P (run rpc_undefined (k r) who sched d)) ->
  forall d sched, properties d = ps -> undisturbed sched ->
    P (run rpc_undefined (Await q k) who sched d).
Proof.
  intros Hown Hq Hk d sched Hd Hs. apply run_await; [exact Hs| |]; intros s' Hs'.
  - now apply Hk.
  - apply Hk; [|exact Hs']. rewrite stranger_request; auto. now rewrite Hd.
Qed.

(** [fetchProperty] only reads. *)
Lemma fetchProperty_only_reads rpc c who sched db :
  undisturbed sched ->
  snd (run rpc (fetchProperty c) who sched db) = db.
Proof.
  intros Hs. unfold fetchProperty.
  cbn [user setError setLoading profile id].
  assert (Hlast : forall c' u s', undisturbed s' ->
     snd (run rpc
        (let* r0 := SelectUnlockGranted (uid u) (id c') in
         Ret (setLoading false
                match Supabase.error r0 with
                | Some _ => c'
                | None =>
                    setIsUnlocked
                      match data r0 with Some _ => true | None => false end c'
                end)) who s' db) = db).
  { intros c' u s' Hs'. await Hs'; reflexivity. }
  destruct (user c) as [u|] eqn:Hu; [destruct (profile c) as [pr|]|];
    cbn [bind].
  2: await Hs; cbn [bind exec fst snd].
  all: await Hs; [reflexivity|]; cbn [exec fst snd];
    (destruct (maybeSingle _) as [[propertyData|] [e|]];
     cbn [Supabase.error data]; try reflexivity);
    (await Hs;
     [ cbn [Supabase.error failed user setProperty setError setLoading]
     | cbn [exec fst snd]; destruct (single _) as [d [e|]];
       cbn [Supabase.error data user setProperty setLandlord setError
            setLoading] ]);
    rewrite Hu; try reflexivity; apply Hlast; auto.
Qed.

(** With no [decrement_rooms] in the database, the unlock of a caller who
    owns none of the properties moves no counter: the trigger's update and
    both client writes reach no row. *)
Lemma unlock_of_a_stranger_moves_no_counter c sched db :
  owns_nothing (who c) (properties db) -> undisturbed sched ->
  properties (snd (run rpc_undefined (handlePaymentSuccess c) (who c) sched db))
  = properties db.
Proof.
  intros Hown Hs. unfold handlePaymentSuccess.
  destruct (user c) as [u|] eqn:Hu; [|reflexivity].
  destruct (property c) as [prop|]; [|reflexivity].
  set (P := fun res : State * Db => properties (snd res) = properties db).
  match goal with
  | |- context [run rpc_undefined ?p ?w sched db] =>
      change (P (run rpc_undefined p w sched db))
  end.
  generalize (eq_refl (properties db)). generalize db at 1 3.
  intros d Hd. revert d sched Hd Hs.
  apply (run_await_counters _ _ _ (properties db)); [exact Hown|reflexivity|].
  intros existing. destruct (data existing); [intros ? ? Hd' _; exact Hd'|].
  apply (run_await_counters _ _ _ (properties db)); [exact Hown|reflexivity|].
  intros inserted.
  destruct (Supabase.error inserted); [intros ? ? Hd' _; exact Hd'|].
  apply (run_await_counters _ _ _ (properties db)); [exact Hown|reflexivity|].
  intros _.
  apply (run_await_counters _ _ _ (properties db)); [exact Hown|reflexivity|].
  intros _.
  apply (run_await_counters _ _ _ (properties db)); [exact Hown|reflexivity|].
  intros fresh.
  apply (run_await_counters _ _ _ (properties db)); [exact Hown|reflexivity|].
  intros _ d sched Hd Hs. unfold P. rewrite run_bind_ret. cbn [snd].
  now rewrite fetchProperty_only_reads.
Qed.

Lemma refund_of_a_stranger_moves_no_counter who rid toasts db :
  owns_nothing who (properties db) ->
  properties (snd (run rpc_undefined (requestRefund true rid toasts) who [] db))
  = properties db.
Proof.
  intros Hown. unfold requestRefund.
  cbn [negb run hd tl quiet before delivered perform_all fold_left].
  pose proof (stranger_request who (UpdatePaymentStatus rid refunded) db Hown
                eq_refl) as H.
  destruct (exec rpc_undefined who _ db) as [r db']. cbn [snd] in *.
  now destruct (Supabase.error r).
Qed.

End RowSecurity.

(* ===================================================================== *)
(** * The unlock workflow *)
(* ===================================================================== *)

Module Unlock.
Import Schema Supabase ReactHotToast PropertyDetailPage Ledger LedgerFacts Sample.

Section AnyBackend.
Variable rpc : auth -> uuid -> list Property -> list Property.

(** A callback that finds a reservation row of the pair changes nothing in
    the database: it reports "already unlocked" and sets [isUnlocked]. *)
Lemma duplicate_callback_is_a_read c u prop r db :
  user c = Some u -> property c = Some prop ->
  rows_of (uid u) (p_id prop) db = [r] ->
  run rpc (handlePaymentSuccess c) (Some (uid u)) [] db
  = (setPaymentLoading false
       (setIsUnlocked true
          (show (toast already_unlocked) (setPaymentLoading true c))), db).
Proof.
  intros Hu Hp Hrows. unfold handlePaymentSuccess. rewrite Hu, Hp.
  cbn [run hd tl quiet before delivered perform_all fold_left exec].
  rewrite own_rows_visible. unfold rows_of in Hrows. rewrite Hrows.
  reflexivity.
Qed.

(** C6 (amended): when the insert is rejected by the uniqueness constraint
    -- a row of the pair was written by another session after the existence
    check found none -- the handler stops there: it sends nothing further,
    leaves [isUnlocked] as it was and shows the failure toast. *)
Theorem rejected_insert_is_reported_as_failure c u prop t sched db :
  user c = Some u -> property c = Some prop ->
  rows_of (uid u) (p_id prop) db = [] ->
  delivered t = true ->
  Supabase.error
    (fst (exec rpc (Some (uid u))
            (InsertReservation (uid u) (p_id prop) paid true)
            (perform_all rpc (before t) db))) = Some unique_violation ->
  run rpc (handlePaymentSuccess c) (Some (uid u)) (quiet :: t :: sched) db
  = (setPaymentLoading false
       (show (toast_error unlock_failed) (setPaymentLoading true c)),
     perform_all rpc (before t) db).
Proof.
  intros Hu Hp Hrows Ht Herr. unfold handlePaymentSuccess. rewrite Hu, Hp.
  cbn [run hd tl quiet before delivered perform_all fold_left].
  cbn [exec]. rewrite own_rows_visible. unfold rows_of in Hrows.
  rewrite Hrows. cbn [map maybeSingle data ok run hd tl]. rewrite Ht.
  pose proof (failed_statement_changes_nothing _ _ _ _ _ Herr) as Hsame.
  destruct (exec rpc _ (InsertReservation _ _ _ _) _) as [resp db1].
  simpl in Herr, Hsame. rewrite Herr. subst db1. reflexivity.
Qed.

(** Re-reading the page keeps [isUnlocked] once the ledger holds the
    student's unlocked row for the page's property, whichever of the reads
    fail. *)
Lemma fetchProperty_keeps_unlocked c u r sched db :
  user c = Some u -> isUnlocked c = true ->
  filter (fun x => same_pair (uid u) (id c) x && unlock_granted x)
         (reservations db) = [r] ->
  undisturbed sched ->
  isUnlocked (fst (run rpc (fetchProperty c) (Some (uid u)) sched db)) = true
  /\ snd (run rpc (fetchProperty c) (Some (uid u)) sched db) = db.
Proof.
  intros Hu Hun Hrow Hs. unfold fetchProperty.
  cbn [user setError setLoading profile id].
  rewrite Hu.
  assert (Hcheck :
     fst (exec rpc (Some (uid u)) (SelectUnlockGranted (uid u) (id c)) db)
     = ok (Some (unlock_granted r))).
  { cbn [exec fst]. rewrite own_unlocked_visible, Hrow. reflexivity. }
  assert (Hlast : forall c' s',
     user c' = Some u -> id c' = id c -> isUnlocked c' = true ->
     undisturbed s' ->
     isUnlocked (fst (run rpc
        (let* r0 := SelectUnlockGranted (uid u) (id c') in
         Ret (setLoading false
                match Supabase.error r0 with
                | Some _ => c'
                | None =>
                    setIsUnlocked
                      match data r0 with Some _ => true | None => false end c'
                end)) (Some (uid u)) s' db)) = true
     /\ snd (run rpc
        (let* r0 := SelectUnlockGranted (uid u) (id c') in
         Ret (setLoading false
                match Supabase.error r0 with
                | Some _ => c'
                | None =>
                    setIsUnlocked
                      match data r0 with Some _ => true | None => false end c'
                end)) (Some (uid u)) s' db) = db).
  { intros c' s' Hu' Hid' Hun' Hs'. rewrite Hid'.
    await Hs'; [cbn; auto|]. rewrite Hcheck. cbn. auto. }
  destruct (profile c) as [pr|]; cbn [bind].
  2: await Hs; cbn [bind exec fst snd].
  all: await Hs; [cbn; auto|]; cbn [exec fst snd];
    (destruct (maybeSingle _) as [[propertyData|] [e|]];
     cbn [Supabase.error data]; try (cbn; auto; fail));
    (await Hs;
     [ cbn [Supabase.error failed user setProperty setError setLoading]
     | cbn [exec fst snd]; destruct (single _) as [d [e|]];
       cbn [Supabase.error data user setProperty setLandlord setError
            setLoading] ]);
    rewrite Hu; apply Hlast; auto.
Qed.

(** C7: once the reservation row is written, nothing the rest of the
    handler meets takes the unlock back.  The two counter writes, the
    [decrement_rooms] call and the reads after the insert may each fail to
    get through, be rejected, or reach no row: the ledger still ends with
    the new row, paid and unlocked, exactly as inserted, and the page ends
    with [isUnlocked] set. *)
Theorem granted_unlock_survives_counter_failure c u prop db sched :
  user c = Some u -> property c = Some prop -> id c = p_id prop ->
  rows_of (uid u) (p_id prop) db = [] ->
  Supabase.error
    (fst (exec rpc (Some (uid u))
            (InsertReservation (uid u) (p_id prop) paid true) db)) = None ->
  undisturbed sched ->
  let res := run rpc (handlePaymentSuccess c) (Some (uid u))
               (quiet :: quiet :: sched) db in
  reservations (snd res)
  = reservations db
    ++ [mkReservation (gen_random_uuid (map r_id (reservations db)))
          (uid u) (p_id prop) paid true]
  /\ isUnlocked (fst res) = true.
Proof.
  intros Hu Hp Hid Hrows Hins Hs. cbv zeta.
  assert (Hsel : exec rpc (Some (uid u))
                   (SelectReservationId (uid u) (p_id prop)) db = (ok None, db)).
  { cbn [exec]. rewrite own_rows_visible. unfold rows_of in Hrows.
    rewrite Hrows. reflexivity. }
  destruct (insert_accepted _ _ _ _ _ _ _ Hins) as (ps & Hexec).
  unfold handlePaymentSuccess. rewrite Hu, Hp.
  cbn [run hd tl quiet before delivered perform_all fold_left].
  rewrite Hsel.
  cbn [data ok run hd tl quiet before delivered perform_all fold_left].
  rewrite Hexec. cbn [Supabase.error ok].
  set (NEW := mkReservation _ _ _ _ _).
  set (c1 := show _ (setIsUnlocked true _)).
  assert (Hnew : forall db1, reservations db1 = reservations db ++ [NEW] ->
            filter (fun x => same_pair (uid u) (id c1) x && unlock_granted x)
                   (reservations db1) = [NEW]).
  { intros db1 ->. rewrite filter_app.
    replace (filter _ (reservations db)) with (@nil Reservation).
    - subst c1 NEW. cbn. rewrite Hid. unfold same_pair. cbn.
      now rewrite !Z.eqb_refl.
    - symmetry. apply existsb_filter_nil.
      apply existsb_filter_nil in Hrows. unfold rows_of in Hrows.
      cbn [id show setIsUnlocked setPaymentLoading c1]. rewrite Hid.
      apply not_true_is_false. intros Hex.
      apply existsb_exists in Hex. destruct Hex as (x & Hx & Hpair).
      apply andb_prop in Hpair. destruct Hpair as [Hpair _].
      assert (existsb (same_pair (uid u) (p_id prop)) (reservations db) = true)
        by (apply existsb_exists; eauto).
      congruence. }
  set (P := fun res : State * Db =>
              reservations (snd res) = reservations db ++ [NEW]
              /\ isUnlocked (fst res) = true).
  match goal with
  | |- context [run rpc ?p ?w sched ?d] =>
      change (P (run rpc p w sched d)); revert Hs;
      assert (Hd : reservations d = reservations db ++ [NEW]) by reflexivity;
      revert Hd; generalize d; intros d' Hd Hs; revert d' sched Hd Hs
  end.
  apply run_await_ledger; [reflexivity|intros _].
  apply run_await_ledger; [reflexivity|intros _].
  apply run_await_ledger; [reflexivity|intros fresh].
  apply run_await_ledger; [reflexivity|intros _].
  intros d sched Hd Hs. unfold P. rewrite run_bind_ret. cbn [fst snd].
  destruct (fetchProperty_keeps_unlocked c1 u NEW sched d) as [Hun Hsame];
    auto using Hnew.
  rewrite Hsame. auto.
Qed.

End AnyBackend.

(** C6 (the claim as stated fails): ada pays in two tabs; the second tab's
    insert lands between this tab's check and its own insert.  The insert
    is rejected with [unique_violation], and although the ledger holds
    ada's unlocked row the page reports the generic failure and stays
    locked. *)
Lemma racing_duplicate_is_a_generic_failure :
  let other_tab := mkTick [Act (Some 2) (InsertReservation 2 10 paid true)] true in
  let res := run rpc_undefined (handlePaymentSuccess (opened ada (seeded 3 [])))
               (Some 2) [quiet; other_tab] (seeded 3 []) in
  fst (exec rpc_undefined (Some 2) (InsertReservation 2 10 paid true)
         (perform_all rpc_undefined (before other_tab) (seeded 3 [])))
  = failed unique_violation
  /\ rows_of 2 10 (snd res) = [mkReservation 1 2 10 paid true]
  /\ toasts (fst res) = [toast_error unlock_failed]
  /\ isUnlocked (fst res) = false.
Proof. evaluate. Qed.

Lemma rejected_insert_is_reported_as_failure_witness :
  let c := opened ada (seeded 3 []) in
  let t := mkTick [Act (Some 2) (InsertReservation 2 10 paid true)] true in
  (user c = Some (mkAuthUser 2 "ada@example.com")
   /\ property c = Some (lasu_flat 3)
   /\ rows_of 2 10 (seeded 3 []) = []
   /\ delivered t = true
   /\ Supabase.error
        (fst (exec rpc_undefined (Some 2) (InsertReservation 2 10 paid true)
                (perform_all rpc_undefined (before t) (seeded 3 []))))
      = Some unique_violation)
  /\ run rpc_undefined (handlePaymentSuccess c) (Some 2) [quiet; t]
       (seeded 3 [])
     = (setPaymentLoading false
          (show (toast_error unlock_failed) (setPaymentLoading true c)),
        perform_all rpc_undefined (before t) (seeded 3 [])).
Proof.
  cbv zeta. split.
  - evaluate.
  - apply (rejected_insert_is_reported_as_failure rpc_undefined
             (opened ada (seeded 3 [])) (mkAuthUser 2 "ada@example.com")
             (lasu_flat 3)
             (mkTick [Act (Some 2) (InsertReservation 2 10 paid true)] true)
             [] (seeded 3 []));
      vm_compute; reflexivity.
Defined.

Lemma granted_unlock_survives_counter_failure_witness :
  let c := opened ada (seeded 1 []) in
  let lost := mkTick [] false in
  let sched := [lost; quiet; quiet; lost; quiet; lost] in
  (user c = Some (mkAuthUser 2 "ada@example.com")
   /\ property c = Some (lasu_flat 1)
   /\ id c = 10
   /\ rows_of 2 10 (seeded 0 []) = []
   /\ Supabase.error
        (fst (exec rpc_undefined (Some 2) (InsertReservation 2 10 paid true)
                (seeded 0 []))) = None
   /\ undisturbed sched)
  /\ (let res := run rpc_undefined (handlePaymentSuccess c) (Some 2)
                   (quiet :: quiet :: sched) (seeded 0 []) in
      reservations (snd res) = [mkReservation 1 2 10 paid true]
      /\ isUnlocked (fst res) = true).
Proof.
  cbv zeta. split.
  - repeat split; try (vm_compute; reflexivity).
    repeat constructor.
  - apply (granted_unlock_survives_counter_failure rpc_undefined
             (opened ada (seeded 1 [])) (mkAuthUser 2 "ada@example.com")
             (lasu_flat 1) (seeded 0 [])
             [mkTick [] false; quiet; quiet; mkTick [] false; quiet;
              mkTick [] false]);
      try (vm_compute; reflexivity).
    repeat constructor.
Defined.

(** C1 (the code against the claim): two callbacks in a row for the same
    student and property leave exactly one reservation row, but not
    exactly one decrement.  For a student who is not the landlord the
    properties policy hides the row from every counter write, the
    trigger's included, and the counter of the seeded flat stays 3; for a
    caller the policy admits, the trigger and the client's own writes add
    up and the counter falls from 3 to 1. *)
Theorem duplicate_callback_counts :
  List.length (rows_of 2 10 (snd (unlock_twice rpc_undefined ada (seeded 3 [])))) = 1%nat
  /\ rooms_of (snd (unlock_twice rpc_undefined ada (seeded 3 []))) = [3]
  /\ List.length (rows_of 1 10
               (snd (unlock_twice rpc_undefined sample_landlord (seeded 3 []))))
     = 1%nat
  /\ rooms_of (snd (unlock_once rpc_undefined sample_landlord (seeded 3 []))) = [1]
  /\ rooms_of (snd (unlock_twice rpc_undefined sample_landlord (seeded 3 []))) = [1].
Proof. evaluate. Qed.

(** C2 (the code against the claim): one unlock sends two writes of
    [rooms_available] whose value the client computed from rows it read
    earlier, next to the trigger's conditional update.  With a page that
    was loaded at 3 rooms and a database that has meanwhile come down to 1,
    the trigger takes the counter to 0 and the client's write of
    [max(0, 3 - 1)] puts it back up to 2. *)
Theorem unlock_writes_client_computed_counter :
  filter client_computed_write
    (issued rpc_undefined (handlePaymentSuccess (opened ada (seeded 3 [])))
       (Some 2) [] (seeded 3 []))
  = [Act (Some 2) (UpdateRoomsAvailable 10 2);
     Act (Some 2) (UpdateRoomsAvailable 10 2)]
  /\ (let stale := opened sample_landlord (seeded 3 []) in
      let reqs := issued rpc_undefined (handlePaymentSuccess stale) (Some 1) []
                    (seeded 1 []) in
      rooms_of (replay rpc_undefined 2 reqs (seeded 1 [])) = [0]
      /\ rooms_of (replay rpc_undefined 3 reqs (seeded 1 [])) = [2]
      /\ rooms_of (snd (run rpc_undefined (handlePaymentSuccess stale) (Some 1)
                          [] (seeded 1 []))) = [1]).
Proof. evaluate. Qed.

End Unlock.

(* ===================================================================== *)
(** * The refund transition *)
(* ===================================================================== *)

Module Refund.
Import Schema Supabase ReactHotToast StudentDashboard Ledger LedgerFacts Sample.

Section AnyBackend.
Variable rpc : auth -> uuid -> list Property -> list Property.

(** What [requestRefund] leaves behind is what its one statement does. *)
Lemma requestRefund_db who rid toasts db :
  snd (run rpc (requestRefund true rid toasts) who [] db)
  = snd (exec rpc who (UpdatePaymentStatus rid refunded) db).
Proof.
  unfold requestRefund.
  cbn [negb run hd tl quiet before delivered perform_all fold_left].
  destruct (exec rpc who _ db) as [r db']. cbn [snd].
  destruct (Supabase.error r); reflexivity.
Qed.

Lemma requestRefund_declined who rid toasts sched db :
  run rpc (requestRefund false rid toasts) who sched db = (toasts, db).
Proof. reflexivity. Qed.

Lemma refund_statement who rid st db :
  exec rpc who (UpdatePaymentStatus rid st) db
  = match fire_update_triggers who st
            (filter (refund_hit who rid) (reservations db)) (properties db) with
    | inl e => (failed e, db)
    | inr ps =>
        (ok None,
         mkDb (users db) ps
           (map (fun x => if refund_hit who rid x
                          then set_payment_status st x else x)
                (reservations db)))
    end.
Proof. reflexivity. Qed.

(** C8: a refund changes no column of any reservation row other than
    [payment_status]; in particular the refunded row keeps
    [unlock_granted = true]. *)
Theorem refund_changes_only_the_status who rid confirmed toasts db :
  let db' := snd (run rpc (requestRefund confirmed rid toasts) who [] db) in
  Forall2 same_but_status (reservations db) (reservations db')
  /\ (forall r, In r (reservations db) -> r_id r = rid ->
        payment_status r = paid -> unlock_granted r = true ->
        exists r', In r' (reservations db') /\ same_but_status r r'
                   /\ unlock_granted r' = true).
Proof.
  cbv zeta.
  assert (H : Forall2 same_but_status (reservations db)
                (reservations
                   (snd (run rpc (requestRefund confirmed rid toasts) who []
                           db)))).
  { destruct confirmed.
    - rewrite requestRefund_db, refund_statement.
      destruct (fire_update_triggers _ _ _ _) as [e|ps]; cbn [snd reservations].
      + apply Forall2_same, same_but_status_refl.
      + apply Forall2_map_r. intros x. destruct (refund_hit who rid x).
        * apply set_payment_status_same.
        * apply same_but_status_refl.
    - rewrite requestRefund_declined. apply Forall2_same, same_but_status_refl. }
  split; [exact H|].
  intros r Hin _ _ Hun.
  destruct (Forall2_In_l _ _ _ _ H Hin) as (r' & Hin' & Hsame).
  exists r'. repeat split; try apply Hsame; auto.
  destruct Hsame as (_ & _ & _ & ->). exact Hun.
Qed.

Lemma no_paid_row_no_increment who st olds : forall ps,
  Forall (fun r => payment_status r <> paid) olds ->
  fire_update_triggers who st olds ps = inr ps.
Proof.
  induction olds as [|OLD rest IH]; intros ps Hall; [reflexivity|].
  inversion Hall as [|? ? Hold Hrest]; subst. cbn [fire_update_triggers].
  unfold handle_reservation_update. cbn [payment_status set_payment_status].
  destruct (payment_status OLD); try congruence; cbn; now apply IH.
Qed.

Lemma refunded_rows_not_paid who rid rs :
  Forall (fun r => payment_status r <> paid)
    (filter (refund_hit who rid)
       (map (fun x => if refund_hit who rid x
                      then set_payment_status refunded x else x) rs)).
Proof.
  apply Forall_forall. intros r Hr. apply filter_In in Hr.
  destruct Hr as [Hin Hhit]. apply in_map_iff in Hin.
  destruct Hin as (x & <- & _).
  destruct (refund_hit who rid x) eqn:E.
  - cbn. discriminate.
  - congruence.
Qed.

(** A second refund of the same reservation never moves a counter: after a
    first one that went through, the row is [refunded] and the trigger's
    condition [OLD.payment_status = 'paid'] is false; after a first one
    that was rejected, the second is rejected in the same way. *)
Lemma second_refund_moves_no_counter who rid db :
  let db1 := snd (exec rpc who (UpdatePaymentStatus rid refunded) db) in
  properties (snd (exec rpc who (UpdatePaymentStatus rid refunded) db1))
  = properties db1.
Proof.
  cbv zeta. rewrite (refund_statement who rid refunded db).
  destruct (fire_update_triggers _ _ _ _) as [e|ps] eqn:Hfirst; cbn [snd].
  - rewrite refund_statement, Hfirst. reflexivity.
  - rewrite refund_statement. cbn [reservations properties].
    rewrite no_paid_row_no_increment by apply refunded_rows_not_paid.
    reflexivity.
Qed.

Lemma update_trigger_raises_once who OLD NEW ps ps' :
  handle_reservation_update who OLD NEW ps = inr ps' ->
  Forall2 raised_at_most_once ps ps'.
Proof.
  unfold handle_reservation_update, update_properties.
  destruct (_ && _).
  - destruct (forallb _ ps); [|discriminate].
    destruct (forallb _ ps); [|discriminate].
    intros [= <-]. apply Forall2_map_r. intros p.
    destruct (_ && _); unfold raised_at_most_once; cbn; lia.
  - intros [= <-]. apply Forall2_same. intros p.
    unfold raised_at_most_once. lia.
Qed.

(** With [id] a primary key, the statement reaches at most one row. *)
Lemma primary_key_hits_one who rid rs :
  NoDup (map r_id rs) ->
  filter (refund_hit who rid) rs = []
  \/ exists x, filter (refund_hit who rid) rs = [x].
Proof.
  induction rs as [|r rs IH]; cbn [map filter]; [auto|].
  intros Hnd. inversion Hnd as [|? ? Hnotin Hrest]; subst.
  destruct (refund_hit who rid r) eqn:Hr.
  - right. exists r. f_equal.
    apply existsb_filter_nil. apply not_true_is_false. intros Hex.
    apply existsb_exists in Hex. destruct Hex as (x & Hx & Hhit).
    unfold refund_hit in Hr, Hhit.
    apply andb_prop in Hr. apply andb_prop in Hhit.
    destruct Hr as [Hr _]. destruct Hhit as [Hhit _].
    apply Z.eqb_eq in Hr. apply Z.eqb_eq in Hhit.
    apply Hnotin. rewrite Hr, <- Hhit. now apply in_map.
  - now apply IH.
Qed.

(** C10: two refunds of the same reservation in a row raise no counter by
    more than one: the first raises each counter by at most one, and the
    second leaves the [properties] table as the first left it. *)
Theorem refund_twice_increments_at_most_once who rid t1 t2 db :
  NoDup (map r_id (reservations db)) ->
  let db1 := snd (run rpc (requestRefund true rid t1) who [] db) in
  let db2 := snd (run rpc (requestRefund true rid t2) who [] db1) in
  Forall2 raised_at_most_once (properties db) (properties db1)
  /\ properties db2 = properties db1.
Proof.
  intros Hpk. cbv zeta. rewrite !requestRefund_db. split.
  - rewrite refund_statement.
    destruct (primary_key_hits_one who rid _ Hpk) as [->|[x ->]];
      cbn [fire_update_triggers].
    + apply Forall2_same. intros p. unfold raised_at_most_once. lia.
    + destruct (handle_reservation_update _ _ _ _) as [e|ps] eqn:Ht; cbn [snd].
      * apply Forall2_same. intros p. unfold raised_at_most_once. lia.
      * eapply update_trigger_raises_once; eauto.
  - apply second_refund_moves_no_counter.
Qed.

End AnyBackend.

(** C4 (the code against the claim): ada's refund of her paid reservation
    marks it refunded, but the trigger's [UPDATE properties] runs for ada,
    the properties policies hide the landlord's row from it, and the
    counter of the flat stays at 2 of 4.  For a caller the policies admit,
    the increment happens below the bound (3 becomes 4), and at
    [rooms_available = total_rooms] the trigger's unguarded [+ 1] breaks
    [valid_room_count]: the whole refund is rejected and the reservation
    stays paid. *)
Theorem refund_and_the_counter :
  (reservations (snd (refund_by ada 2))
   = [mkReservation 7 2 10 refunded true]
   /\ rooms_of (snd (refund_by ada 2)) = [2]
   /\ fst (refund_by ada 2) = [toast_success refund_requested])
  /\ (reservations (snd (refund_by sample_landlord 3))
      = [mkReservation 7 1 10 refunded true]
      /\ rooms_of (snd (refund_by sample_landlord 3)) = [4])
  /\ (reservations (snd (refund_by sample_landlord 4))
      = [mkReservation 7 1 10 paid true]
      /\ rooms_of (snd (refund_by sample_landlord 4)) = [4]
      /\ fst (refund_by sample_landlord 4) = [toast_error refund_failed]).
Proof. evaluate. Qed.

Lemma refund_changes_only_the_status_witness :
  let db := seeded 2 [paid_by 7 ada] in
  let db' := snd (run rpc_undefined (requestRefund true 7 []) (Some 2) [] db) in
  Forall2 same_but_status (reservations db) (reservations db')
  /\ (In (paid_by 7 ada) (reservations db) -> r_id (paid_by 7 ada) = 7 ->
      payment_status (paid_by 7 ada) = paid ->
      unlock_granted (paid_by 7 ada) = true ->
      exists r', In r' (reservations db') /\ same_but_status (paid_by 7 ada) r'
                 /\ unlock_granted r' = true).
Proof.
  cbv zeta.
  destruct (refund_changes_only_the_status rpc_undefined (Some 2) 7 true []
              (seeded 2 [paid_by 7 ada])) as [H1 H2].
  split; [exact H1|]. intros Hin Hid Hpaid Hun.
  exact (H2 (paid_by 7 ada) Hin Hid Hpaid Hun).
Defined.

Lemma refund_twice_increments_at_most_once_witness :
  let db := seeded 3 [paid_by 7 sample_landlord] in
  NoDup (map r_id (reservations db))
  /\ (let db1 := snd (run rpc_undefined (requestRefund true 7 []) (Some 1) [] db) in
      let db2 := snd (run rpc_undefined (requestRefund true 7 []) (Some 1) [] db1) in
      Forall2 raised_at_most_once (properties db) (properties db1)
      /\ properties db2 = properties db1).
Proof.
  cbv zeta.
  assert (H : NoDup (map r_id (reservations (seeded 3 [paid_by 7 sample_landlord])))).
  { repeat constructor. intros []. }
  split; [exact H|].
  apply (refund_twice_increments_at_most_once rpc_undefined (Some 1) 7 [] []
           (seeded 3 [paid_by 7 sample_landlord]) H).
Defined.

End Refund.

(* ===================================================================== *)
(** * The visibility gate *)
(* ===================================================================== *)

Module Visibility.
Import Schema Supabase ReactHotToast PropertyDetailPage Ledger LedgerFacts Sample.

Section AnyBackend.
Variable rpc : auth -> uuid -> list Property -> list Property.

(** The page shows a gated field only when [isUnlocked] is set. *)
Lemma render_gate c dl v sb :
  render c = Detail dl v sb ->
  dl <> None \/ v <> None \/ (exists l, sb = LandlordContact l) ->
  isUnlocked c = true.
Proof.
  unfold render. destruct (loading c); [discriminate|].
  destruct (error c); [discriminate|].
  destruct (property c) as [prop|]; [|discriminate].
  destruct (isUnlocked c); [reflexivity|].
  cbn [andb negb]. intros [= <- <- <-]. intros [H|[H|[l H]]].
  - congruence.
  - destruct (video_url prop) as [x|]; [|congruence].
    rewrite andb_false_r in H. congruence.
  - destruct (rooms_available prop =? 0); [discriminate|].
    destruct (_ && _); [discriminate|].
    destruct (user c); discriminate.
Qed.

(** On a freshly mounted page [isUnlocked] is set by the read of the
    student's unlocked reservation row, and by nothing else. *)
Lemma mounted_unlocked_has_row u pf pid db :
  isUnlocked (fst (run rpc (fetchProperty (mount pid (Some u) pf))
                     (Some (uid u)) [] db)) = true ->
  unlocked (uid u) pid db.
Proof.
  unfold fetchProperty.
  cbn [user profile mount setError setLoading id].
  destruct pf as [pr|];
    cbn [bind run hd tl quiet before delivered perform_all fold_left exec];
    (destruct (maybeSingle _) as [[propertyData|] [e|]];
       cbn [Supabase.error data]; try (cbn; discriminate));
    cbn [run hd tl quiet before delivered perform_all fold_left exec];
    (destruct (single _) as [d [e|]];
     cbn [Supabase.error data user setProperty setLandlord setError
          setLoading id mount];
     cbn [run hd tl quiet before delivered perform_all fold_left exec];
     rewrite own_unlocked_visible;
     (destruct (maybeSingle _) as [[g|] [e'|]] eqn:Hm;
      cbn; try discriminate; intros _;
      assert (Hd : data (maybeSingle
                (map unlock_granted
                   (filter (fun r => same_pair (uid u) pid r && unlock_granted r)
                      (reservations db)))) = Some g) by (rewrite Hm; reflexivity);
      apply maybeSingle_data in Hd; apply in_map_iff in Hd;
      destruct Hd as (r & _ & Hr); apply filter_In in Hr;
      destruct Hr as [Hin Hr]; apply andb_prop in Hr; destruct Hr as [Hpair Hg];
      apply andb_prop in Hpair; destruct Hpair as [Hs Hp];
      apply Z.eqb_eq in Hs; apply Z.eqb_eq in Hp;
      exists r; auto)).
Qed.

(** With the student's unlocked row in the ledger, a verified property
    with rooms left and its landlord's profile, the page shows what the
    unlock pays for. *)
Lemma mounted_with_row_shows u pr pid db r prop l :
  role pr = Schema.student ->
  filter (fun x => same_pair (uid u) pid x && unlock_granted x)
         (reservations db) = [r] ->
  filter (fun p => (p_id p =? pid) && is_verified p) (properties db) = [prop] ->
  filter (fun x => u_id x =? landlord_id prop) (users db) = [l] ->
  rooms_available prop <> 0 ->
  render (fst (run rpc (fetchProperty (mount pid (Some u) (Some pr)))
                 (Some (uid u)) [] db))
  = Detail
      (if nonempty (detailed_location prop)
       then Some (detailed_location prop) else None)
      (match video_url prop with
       | Some v => if nonempty v then Some v else None
       | None => None
       end)
      (LandlordContact (landlord_columns l)).
Proof.
  intros Hrole Hrow Hprop Hl Hrooms. unfold fetchProperty.
  cbn [user profile mount setError setLoading id bind is_student].
  rewrite Hrole.
  cbn [run hd tl quiet before delivered perform_all fold_left exec].
  cbn [properties_select negb orb andb].
  rewrite Hprop.
  cbn [maybeSingle ok Supabase.error data
       run hd tl quiet before delivered perform_all fold_left exec].
  cbn [users_select andb]. rewrite Hl.
  cbn [map single ok Supabase.error data user setProperty setLandlord
       setError setLoading id mount
       run hd tl quiet before delivered perform_all fold_left exec].
  rewrite own_unlocked_visible, Hrow.
  cbn [map maybeSingle ok Supabase.error data fst].
  unfold render. cbn.
  apply Z.eqb_neq in Hrooms. rewrite Hrooms.
  destruct (video_url prop) as [v|]; [|reflexivity].
  now rewrite andb_true_r.
Qed.

(** C5 (amended): the gate is in what the page renders.  On the page a
    student opens, after [fetchProperty], the detailed location, the video
    and the landlord's contact are shown only if the ledger holds a row of
    that student and property with [unlock_granted = true]; and with that
    row (the only one of the pair), the verified property and the
    landlord's profile at hand and rooms left, the detailed location (when
    not empty), the video (when there is one) and the contact are shown. *)
Theorem unlock_gates_what_is_rendered u pr pid db :
  role pr = Schema.student ->
  let c := fst (run rpc (fetchProperty (mount pid (Some u) (Some pr)))
                  (Some (uid u)) [] db) in
  (forall dl v sb,
     render c = Detail dl v sb ->
     dl <> None \/ v <> None \/ (exists l, sb = LandlordContact l) ->
     unlocked (uid u) pid db)
  /\ (forall r prop l,
        filter (fun x => same_pair (uid u) pid x && unlock_granted x)
               (reservations db) = [r] ->
        filter (fun p => (p_id p =? pid) && is_verified p) (properties db)
        = [prop] ->
        filter (fun x => u_id x =? landlord_id prop) (users db) = [l] ->
        rooms_available prop <> 0 ->
        render c
        = Detail
            (if nonempty (detailed_location prop)
             then Some (detailed_location prop) else None)
            (match video_url prop with
             | Some v => if nonempty v then Some v else None
             | None => None
             end)
            (LandlordContact (landlord_columns l))).
Proof.
  intros Hrole. cbv zeta. split.
  - intros dl v sb Hrender Hshown.
    eapply mounted_unlocked_has_row, render_gate; eauto.
  - intros r prop l Hrow Hprop Hl Hrooms.
    eapply mounted_with_row_shows; eauto.
Qed.

End AnyBackend.

(** C5 (the claim as stated fails): ada holds no reservation, yet the rows
    her page reads carry the detailed location, the video and the
    landlord's e-mail and phone; the page state holds them, only the
    rendering leaves them out. *)
Lemma locked_student_receives_gated_fields :
  let db := seeded 3 [] in
  rows_of 2 10 db = []
  /\ data (fst (exec rpc_undefined (Some 2) (SelectProperty 10 true) db))
     = Some (lasu_flat 3)
  /\ detailed_location (lasu_flat 3)
     = "No. 15 University Road, Opposite LASU Main Gate, Ojo, Lagos State."%string
  /\ video_url (lasu_flat 3) = Some "https://example.com/tour.mp4"%string
  /\ data (fst (exec rpc_undefined (Some 2) (SelectLandlord 1) db))
     = Some (mkLandlord 1 "Sample Landlord" "landlord@example.com"
               (Some "+2348012345678"%string))
  /\ property (opened ada db) = Some (lasu_flat 3)
  /\ landlord (opened ada db)
     = Some (mkLandlord 1 "Sample Landlord" "landlord@example.com"
               (Some "+2348012345678"%string))
  /\ render (opened ada db)
     = Detail None None
         (UnlockButton (dynamicReservationFee (lasu_flat 3)) false).
Proof. evaluate. Qed.

Lemma unlock_gates_what_is_rendered_witness :
  let db := seeded 3 [paid_by 7 ada] in
  role ada = Schema.student
  /\ (render (opened ada db)
      = Detail
          (Some "No. 15 University Road, Opposite LASU Main Gate, Ojo, Lagos State."%string)
          (Some "https://example.com/tour.mp4"%string)
          (LandlordContact
             (mkLandlord 1 "Sample Landlord" "landlord@example.com"
                (Some "+2348012345678"%string)))
      /\ unlocked 2 10 db).
Proof.
  cbv zeta. split; [reflexivity|].
  destruct (unlock_gates_what_is_rendered rpc_undefined
              (mkAuthUser 2 "ada@example.com") ada 10
              (seeded 3 [paid_by 7 ada]) eq_refl) as [Honly Hif].
  assert (Hr : render (opened ada (seeded 3 [paid_by 7 ada]))
               = Detail
                   (Some "No. 15 University Road, Opposite LASU Main Gate, Ojo, Lagos State."%string)
                   (Some "https://example.com/tour.mp4"%string)
                   (LandlordContact
                      (mkLandlord 1 "Sample Landlord" "landlord@example.com"
                         (Some "+2348012345678"%string)))).
  { apply (Hif (paid_by 7 ada) (lasu_flat 3) sample_landlord);
      try reflexivity. discriminate. }
  split; [exact Hr|].
  apply (Honly _ _ _ Hr). left. discriminate.
Defined.

End Visibility.

(* ===================================================================== *)
(** * Binary64 arithmetic of the fee

    The fee is a division and a multiplication of doubles followed by
    [Math.round].  Both operations round to nearest, ties to even; the
    lemmas below bound the two rounding errors from the definitions of
    [SpecFloat] and show that, for prices and room counts that fit a
    Postgres [integer], the rounded product falls in the same half-open
    unit window as the exact value of [price / (100 * total_rooms)]. *)
(* ===================================================================== *)

Module Binary64.

(** ** Binary digits *)

Lemma digits2_pos_bounds p :
  2 ^ (Zpos (digits2_pos p) - 1) <= Zpos p < 2 ^ Zpos (digits2_pos p).
Proof.
  induction p as [p IH|p IH|]; cbn [digits2_pos].
  - rewrite Pos2Z.inj_succ. replace (Z.succ (Zpos (digits2_pos p)) - 1)
      with (Z.succ (Zpos (digits2_pos p) - 1)) by lia.
    rewrite !Z.pow_succ_r by lia. lia.
  - rewrite Pos2Z.inj_succ. replace (Z.succ (Zpos (digits2_pos p)) - 1)
      with (Z.succ (Zpos (digits2_pos p) - 1)) by lia.
    rewrite !Z.pow_succ_r by lia. lia.
  - cbn. lia.
Qed.

Lemma digits2_pos_unique p d :
  2 ^ (d - 1) <= Zpos p < 2 ^ d -> Zpos (digits2_pos p) = d.
Proof.
  intros [Hlo Hhi]. pose proof (digits2_pos_bounds p) as [Hlo' Hhi'].
  assert (0 < d).
  { destruct (Z_lt_le_dec 0 d); [assumption|].
    assert (2 ^ d <= 1).
    { destruct (Z.eq_dec d 0) as [->|]; [cbn; lia|].
      rewrite Z.pow_neg_r by lia. lia. }
    lia. }
  assert (Zpos (digits2_pos p) - 1 < d).
  { apply (Z.pow_lt_mono_r_iff 2); lia. }
  assert (d - 1 < Zpos (digits2_pos p)).
  { apply (Z.pow_lt_mono_r_iff 2); lia. }
  lia.
Qed.

(** ** Locations *)

Lemma shr_1_m mrs : 0 <= shr_m mrs -> shr_m (shr_1 mrs) = shr_m mrs / 2.
Proof.
  destruct mrs as [m r s]. cbn [shr_m]. intros Hm.
  destruct m as [|[p|p|]|p]; cbn [shr_1 shr_m]; try lia.
  - reflexivity.
  - apply Z.div_unique with 1; lia.
  - apply Z.div_unique with 0; lia.
  - reflexivity.
Qed.

Lemma shr_1_inrec N D mrs :
  0 < D -> 0 <= shr_m mrs -> Fee.inrec N D mrs -> Fee.inrec N (2 * D) (shr_1 mrs).
Proof.
  destruct mrs as [m r s]. unfold Fee.inrec. cbn [shr_m shr_r shr_s].
  intros HD Hm.
  destruct m as [|[p|p|]|p]; try lia;
    try pose proof (Pos2Z.inj_xI p) as Hp;
    try pose proof (Pos2Z.inj_xO p) as Hp';
    destruct r, s; cbn [shr_1 shr_m shr_r shr_s orb]; nia.
Qed.

Lemma iter_pos_shr_1 N (p : positive) : forall D mrs,
  0 < D -> 0 <= shr_m mrs -> Fee.inrec N D mrs ->
  Fee.inrec N (D * 2 ^ Zpos p) (iter_pos shr_1 p mrs)
  /\ shr_m (iter_pos shr_1 p mrs) = shr_m mrs / 2 ^ Zpos p.
Proof.
  induction p as [p IH|p IH|]; intros D mrs HD Hm Hin; cbn [iter_pos].
  - pose proof (shr_1_inrec N D mrs HD Hm Hin) as H1.
    pose proof (shr_1_m mrs Hm) as Hm1.
    assert (Hm1' : 0 <= shr_m (shr_1 mrs)) by (rewrite Hm1; apply Z.div_pos; lia).
    destruct (IH (2 * D) (shr_1 mrs)) as [H2 Hm2]; try lia; auto.
    assert (Hm2' : 0 <= shr_m (iter_pos shr_1 p (shr_1 mrs))).
    { rewrite Hm2. apply Z.div_pos; lia. }
    destruct (IH (2 * D * 2 ^ Zpos p) (iter_pos shr_1 p (shr_1 mrs)))
      as [H3 Hm3]; try nia; auto.
    rewrite (Pos2Z.inj_xI p).
    replace (2 * Zpos p + 1) with (1 + Zpos p + Zpos p) by lia.
    rewrite !Z.pow_add_r by lia. change (2 ^ 1) with 2. split.
    + replace (D * (2 * 2 ^ Zpos p * 2 ^ Zpos p))
        with (2 * D * 2 ^ Zpos p * 2 ^ Zpos p) by ring. exact H3.
    + rewrite Hm3, Hm2, Hm1. rewrite !Z.div_div by lia. f_equal. ring.
  - destruct (IH D mrs) as [H2 Hm2]; auto.
    assert (Hm2' : 0 <= shr_m (iter_pos shr_1 p mrs)).
    { rewrite Hm2. apply Z.div_pos; lia. }
    destruct (IH (D * 2 ^ Zpos p) (iter_pos shr_1 p mrs)) as [H3 Hm3];
      try nia; auto.
    rewrite (Pos2Z.inj_xO p). replace (2 * Zpos p) with (Zpos p + Zpos p) by lia.
    rewrite !Z.pow_add_r by lia. split.
    + replace (D * (2 ^ Zpos p * 2 ^ Zpos p))
        with (D * 2 ^ Zpos p * 2 ^ Zpos p) by ring. exact H3.
    + rewrite Hm3, Hm2. rewrite !Z.div_div by lia. f_equal.
  - change (2 ^ 1) with 2. split.
    + replace (D * 2) with (2 * D) by ring. now apply shr_1_inrec.
    + now apply shr_1_m.
Qed.

Lemma rne_nearest N D mrs :
  0 < D -> Fee.inrec N D mrs ->
  let M := round_nearest_even (shr_m mrs) (loc_of_shr_record mrs) in
  shr_m mrs <= M <= shr_m mrs + 1 /\ Z.abs (2 * (M * D - N)) <= D.
Proof.
  destruct mrs as [m r s]. unfold Fee.inrec. cbn [shr_m shr_r shr_s].
  intros HD. destruct r, s; cbn [loc_of_shr_record round_nearest_even];
    intros Hin; cbv zeta; try destruct (Z.even m); split; try lia; nia.
Qed.

Lemma record_of_loc_m m l : shr_m (shr_record_of_loc m l) = m.
Proof. destruct l as [|[]]; reflexivity. Qed.

Lemma fexp_normal e : -1074 <= e - 53 -> fexp 53 1024 e = e - 53.
Proof. unfold fexp, emin. lia. Qed.

Lemma Zdigits2_pos m d :
  2 ^ (d - 1) <= m < 2 ^ d -> 0 < m -> Zdigits2 m = d.
Proof.
  destruct m as [|p|p]; try lia. intros H _. cbn [Zdigits2].
  now apply digits2_pos_unique.
Qed.

(** [binary_round_aux] on a positive mantissa of at least 53 digits, away
    from the subnormal and the overflow range: the result is a normal
    float whose value is the multiple of [2 ^ (ex + d - 53)] nearest to the
    located value. *)
Lemma bra_nearest mx ex lx N D d :
  0 < D -> Fee.inrec N D (shr_record_of_loc (Zpos mx) lx) ->
  Zpos (digits2_pos mx) = d -> 53 <= d ->
  -1074 <= d + ex - 53 -> d + ex - 53 + 1 <= 971 ->
  exists m e M,
    binary_round_aux 53 1024 false (Zpos mx) ex lx = S754_finite false m e
    /\ 2 ^ 52 <= Zpos m < 2 ^ 53
    /\ ex + (d - 53) <= e
    /\ Zpos m * 2 ^ (e - ex) = M * 2 ^ (d - 53)
    /\ Z.abs (2 * (M * (D * 2 ^ (d - 53)) - N)) <= D * 2 ^ (d - 53).
Proof.
  intros HD Hin Hd Hd53 Hlo Hhi.
  pose proof (digits2_pos_bounds mx) as Hmx. rewrite Hd in Hmx.
  set (n := d - 53) in *.
  assert (Hn : 0 <= n) by (unfold n; lia).
  assert (Hpow : 2 ^ d = 2 ^ 53 * 2 ^ n).
  { unfold n. rewrite <- Z.pow_add_r by lia. f_equal. lia. }
  assert (Hpow' : 2 ^ (d - 1) = 2 ^ 52 * 2 ^ n).
  { unfold n. rewrite <- Z.pow_add_r by lia. f_equal. lia. }
  assert (Hn2 : 0 < 2 ^ n) by (apply Z.pow_pos_nonneg; lia).
  (* the first shift *)
  assert (Hfirst : exists mrs',
     shr_fexp 53 1024 (Zpos mx) ex lx = (mrs', ex + n)
     /\ Fee.inrec N (D * 2 ^ n) mrs' /\ shr_m mrs' = Zpos mx / 2 ^ n).
  { unfold shr_fexp. cbn [Zdigits2]. rewrite Hd.
    rewrite fexp_normal by lia.
    replace (d + ex - 53 - ex) with n by (unfold n; lia).
    destruct n as [|pn|pn] eqn:En; try lia; cbn [shr].
    - eexists. split; [rewrite Z.add_0_r; reflexivity|]. split.
      + now rewrite Z.pow_0_r, Z.mul_1_r.
      + rewrite record_of_loc_m, Z.pow_0_r, Z.div_1_r. reflexivity.
    - eexists. split; [reflexivity|].
      destruct (iter_pos_shr_1 N pn D (shr_record_of_loc (Zpos mx) lx))
        as [H1 H2]; auto.
      + rewrite record_of_loc_m. lia.
      + split; [exact H1|]. now rewrite H2, record_of_loc_m. }
  destruct Hfirst as (mrs' & Hshr & Hin' & Hm').
  assert (Hm1 : 2 ^ 52 <= shr_m mrs' < 2 ^ 53).
  { rewrite Hm'. split.
    - apply Z.div_le_lower_bound; lia.
    - apply Z.div_lt_upper_bound; lia. }
  destruct (rne_nearest N (D * 2 ^ n) mrs') as [HM Hnear]; [nia|exact Hin'|].
  cbv zeta in HM, Hnear.
  set (M := round_nearest_even (shr_m mrs') (loc_of_shr_record mrs')) in *.
  unfold binary_round_aux. rewrite Hshr. fold M.
  assert (HMpos : 0 < M) by lia.
  destruct (Z_lt_le_dec M (2 ^ 53)) as [Hlt|Hge].
  - (* no carry: 53 digits *)
    assert (Hs2 : shr_fexp 53 1024 M (ex + n) loc_Exact
                  = (shr_record_of_loc M loc_Exact, ex + n)).
    { unfold shr_fexp. rewrite (Zdigits2_pos M 53) by (cbn; lia).
      rewrite fexp_normal by (unfold n; lia).
      replace (53 + (ex + n) - 53 - (ex + n)) with 0 by ring.
      reflexivity. }
    rewrite Hs2. cbn [shr_record_of_loc shr_m].
    destruct M as [|pm|pm] eqn:EM; try lia.
    assert (Hle : (ex + n <=? 1024 - 53) = true) by (apply Z.leb_le; unfold n; lia).
    rewrite Hle. exists pm, (ex + n), (Zpos pm).
    repeat split; try lia.
    + replace (ex + n - ex) with n by lia. reflexivity.
  - (* carry: the mantissa is 2^53 *)
    assert (HM53 : M = 2 ^ 53) by lia.
    assert (Hs2 : shr_fexp 53 1024 M (ex + n) loc_Exact
                  = (Build_shr_record (2 ^ 52) false false, ex + n + 1)).
    { unfold shr_fexp.
      assert (Hdig : Zdigits2 M = 54).
      { apply Zdigits2_pos; rewrite HM53;
          [split; [vm_compute; discriminate|reflexivity]|reflexivity]. }
      rewrite Hdig.
      assert (Hfe : -1074 <= 54 + (ex + n) - 53) by (unfold n; lia).
      rewrite (fexp_normal _ Hfe).
      replace (54 + (ex + n) - 53 - (ex + n)) with 1 by ring.
      rewrite HM53. reflexivity. }
    rewrite Hs2. cbn [shr_m].
    assert (Hle : (ex + n + 1 <=? 1024 - 53) = true) by (apply Z.leb_le; unfold n; lia).
    change (2 ^ 52) with (Zpos (4503599627370496)).
    rewrite Hle. exists 4503599627370496%positive, (ex + n + 1), M.
    repeat split; try lia.
    + replace (ex + n + 1 - ex) with (1 + n) by lia.
      rewrite Z.pow_add_r by lia. rewrite HM53.
      change (2 ^ 1) with 2. change (2 ^ 53) with 9007199254740992. lia.
Qed.

Lemma Pos_iter_xO p k : Zpos (Pos.iter xO p k) = Zpos p * 2 ^ Zpos k.
Proof.
  induction k as [|k IH] using Pos.peano_ind.
  - cbn [Pos.iter]. rewrite (Pos2Z.inj_xO p). change (2 ^ 1) with 2. lia.
  - rewrite Pos.iter_succ, (Pos2Z.inj_xO (Pos.iter xO p k)), IH.
    rewrite Pos2Z.inj_succ, Z.pow_succ_r by lia. ring.
Qed.

Lemma exact_inrec m : Fee.inrec (Zpos m) 1 (shr_record_of_loc (Zpos m) loc_Exact).
Proof. unfold Fee.inrec. cbn. lia. Qed.

(** A positive integer below [2^53] is represented exactly, with a
    mantissa of 53 digits. *)
Lemma normalize_exact p d :
  Zpos (digits2_pos p) = d -> d <= 53 ->
  exists m,
    binary_normalize 53 1024 (Zpos p) 0 false = S754_finite false m (d - 53)
    /\ Zpos m = Zpos p * 2 ^ (53 - d)
    /\ 2 ^ 52 <= Zpos m < 2 ^ 53.
Proof.
  intros Hd Hd53. pose proof (digits2_pos_bounds p) as Hp. rewrite Hd in Hp.
  assert (Hd0 : 0 < d) by (rewrite <- Hd; lia).
  cbn [binary_normalize]. unfold binary_round.
  rewrite Hd, Z.add_0_r, fexp_normal by lia.
  assert (Hal : exists mz, shl_align p 0 (d - 53) = (mz, d - 53)
                           /\ Zpos mz = Zpos p * 2 ^ (53 - d)).
  { unfold shl_align. rewrite Z.sub_0_r.
    destruct (d - 53) as [|q|q] eqn:E; try lia.
    - exists p. split; [reflexivity|].
      replace (53 - d) with 0 by lia. lia.
    - exists (Pos.iter xO p q). split; [reflexivity|].
      rewrite Pos_iter_xO. do 2 f_equal. lia. }
  destruct Hal as (mz & -> & Hmz).
  assert (Hmz53 : 2 ^ 52 <= Zpos mz < 2 ^ 53).
  { rewrite Hmz.
    replace (2 ^ 52) with (2 ^ (d - 1) * 2 ^ (53 - d))
      by (rewrite <- Z.pow_add_r by lia; f_equal; lia).
    replace (2 ^ 53) with (2 ^ d * 2 ^ (53 - d))
      by (rewrite <- Z.pow_add_r by lia; f_equal; lia).
    assert (0 < 2 ^ (53 - d)) by (apply Z.pow_pos_nonneg; lia). nia. }
  assert (Hdz : Zpos (digits2_pos mz) = 53) by now apply digits2_pos_unique.
  destruct (bra_nearest mz (d - 53) loc_Exact (Zpos mz) 1 53
              ltac:(lia) (exact_inrec mz) Hdz ltac:(lia) ltac:(lia) ltac:(lia))
    as (m & e & M & Heq & Hm & He & Hval & Hnear).
  rewrite Heq. clear Heq.
  assert (E0 : 53 - 53 = 0) by reflexivity.
  rewrite E0 in Hval. rewrite E0 in Hnear. rewrite E0 in He.
  rewrite Z.pow_0_r, !Z.mul_1_r in Hval.
  rewrite Z.pow_0_r, !Z.mul_1_r in Hnear.
  assert (HM : M = Zpos mz) by lia. rewrite HM in Hval. clear HM Hnear.
  assert (He' : e = d - 53).
  { destruct (Z.eq_dec e (d - 53)) as [|Hne]; [assumption|exfalso].
    assert (2 <= 2 ^ (e - (d - 53))).
    { change 2 with (2 ^ 1) at 1. apply Z.pow_le_mono_r; lia. }
    nia. }
  rewrite He', Z.sub_diag, Z.pow_0_r, Z.mul_1_r in Hval. rewrite He'.
  exists m. repeat split; try lia.
Qed.

(** The location of a remainder. *)
Lemma new_location_inrec q m2 r :
  0 < m2 -> 0 <= r < m2 ->
  Fee.inrec (q * m2 + r) m2 (shr_record_of_loc q (new_location m2 r)).
Proof.
  intros Hm2 Hr. unfold new_location, new_location_even, new_location_odd.
  destruct (Z.even m2) eqn:Hev.
  - destruct (Z.eqb_spec r 0) as [->|Hr0];
      [unfold Fee.inrec; cbn [shr_record_of_loc shr_m shr_r shr_s]; lia|].
    destruct (Z.compare_spec (2 * r) m2); unfold Fee.inrec;
      cbn [shr_record_of_loc shr_m shr_r shr_s]; lia.
  - destruct (Z.eqb_spec r 0) as [->|Hr0];
      [unfold Fee.inrec; cbn [shr_record_of_loc shr_m shr_r shr_s]; lia|].
    assert (Hodd : Z.odd m2 = true)
      by (rewrite <- Z.negb_even, Hev; reflexivity).
    apply Z.odd_spec in Hodd. destruct Hodd as [h Hh].
    destruct (Z.compare_spec (2 * r + 1) m2); unfold Fee.inrec;
      cbn [shr_record_of_loc shr_m shr_r shr_s]; lia.
Qed.

Lemma digits_53_or_54 q :
  2 ^ 52 <= Zpos q < 2 ^ 54 ->
  exists n, 0 <= n <= 1 /\ Zpos (digits2_pos q) = 53 + n
            /\ 2 ^ 52 * 2 ^ n <= Zpos q.
Proof.
  intros Hq. destruct (Z_lt_le_dec (Zpos q) (2 ^ 53)) as [Hlt|Hge].
  - exists 0. split; [lia|]. split.
    + apply digits2_pos_unique.
      change (53 + 0 - 1) with 52. change (53 + 0) with 53. lia.
    + change (2 ^ 52 * 2 ^ 0) with (2 ^ 52). lia.
  - exists 1. split; [lia|]. split.
    + apply digits2_pos_unique.
      change (53 + 1 - 1) with 53. change (53 + 1) with 54. lia.
    + change (2 ^ 52 * 2 ^ 1) with (2 ^ 53). lia.
Qed.

(** Division of two normal positive floats: the nearest multiple of the
    unit in the last place to the exact quotient. *)
Lemma div_nearest mx ex my ey :
  2 ^ 52 <= Zpos mx < 2 ^ 53 -> 2 ^ 52 <= Zpos my < 2 ^ 53 ->
  -900 <= ex - ey <= 900 ->
  exists m e M n,
    SFdiv 53 1024 (S754_finite false mx ex) (S754_finite false my ey)
    = S754_finite false m e
    /\ 2 ^ 52 <= Zpos m < 2 ^ 53
    /\ 0 <= n <= 1
    /\ ex - ey - 53 + n <= e
    /\ Zpos m * 2 ^ (e - (ex - ey - 53)) = M * 2 ^ n
    /\ Z.abs (2 * (M * (Zpos my * 2 ^ n) - Zpos mx * 2 ^ 53))
       <= Zpos my * 2 ^ n
    /\ 2 ^ 52 * 2 ^ n * Zpos my <= Zpos mx * 2 ^ 53.
Proof.
  intros Hmx Hmy He.
  assert (Hdx : Zpos (digits2_pos mx) = 53) by now apply digits2_pos_unique.
  assert (Hdy : Zpos (digits2_pos my) = 53) by now apply digits2_pos_unique.
  cbn [SFdiv xorb]. unfold SFdiv_core_binary. cbn [Zdigits2].
  rewrite Hdx, Hdy.
  replace (53 + ex - (53 + ey)) with (ex - ey) by ring.
  rewrite fexp_normal by lia.
  rewrite Z.min_l by lia.
  replace (ex - ey - (ex - ey - 53)) with 53 by ring.
  rewrite Z.shiftl_mul_pow2 by lia.
  pose proof (Z_div_mod (Zpos mx * 2 ^ 53) (Zpos my) ltac:(lia)) as Hdm.
  destruct (Z.div_eucl (Zpos mx * 2 ^ 53) (Zpos my)) as [q r].
  destruct Hdm as [Hq Hr].
  assert (Hqlo : 2 ^ 52 <= q).
  { change (2 ^ 53) with 9007199254740992 in *.
    change (2 ^ 52) with 4503599627370496 in *. nia. }
  assert (Hqhi : q < 2 ^ 54).
  { change (2 ^ 53) with 9007199254740992 in *.
    change (2 ^ 52) with 4503599627370496 in *.
    change (2 ^ 54) with 18014398509481984. nia. }
  destruct q as [|pq|pq]; try (change (2 ^ 52) with 4503599627370496 in Hqlo; lia).
  destruct (digits_53_or_54 pq ltac:(lia)) as (n & Hn & Hdq & Hnlo).
  assert (Hloc : Fee.inrec (Zpos mx * 2 ^ 53) (Zpos my)
                   (shr_record_of_loc (Zpos pq) (new_location (Zpos my) r))).
  { rewrite Hq. replace (Zpos my * Zpos pq + r) with (Zpos pq * Zpos my + r)
      by ring. apply new_location_inrec; lia. }
  destruct (bra_nearest pq (ex - ey - 53) (new_location (Zpos my) r)
              (Zpos mx * 2 ^ 53) (Zpos my) (53 + n)
              ltac:(lia) Hloc Hdq ltac:(lia) ltac:(lia) ltac:(lia))
    as (m & e & M & Heq & Hm & Hee & Hval & Hnear).
  replace (53 + n - 53) with n in * by ring.
  exists m, e, M, n. rewrite Heq. repeat split; try lia.
  assert (0 < 2 ^ n) by (apply Z.pow_pos_nonneg; lia). nia.
Qed.

(** Multiplication of two normal positive floats. *)
Lemma mul_nearest mx ex my ey :
  2 ^ 52 <= Zpos mx < 2 ^ 53 -> 2 ^ 52 <= Zpos my < 2 ^ 53 ->
  -900 <= ex + ey <= 800 ->
  exists m e M n,
    SFmul 53 1024 (S754_finite false mx ex) (S754_finite false my ey)
    = S754_finite false m e
    /\ 2 ^ 52 <= Zpos m < 2 ^ 53
    /\ 52 <= n <= 53
    /\ ex + ey + n <= e
    /\ Zpos m * 2 ^ (e - (ex + ey)) = M * 2 ^ n
    /\ Z.abs (2 * (M * 2 ^ n - Zpos mx * Zpos my)) <= 2 ^ n
    /\ 2 ^ 52 * 2 ^ n <= Zpos mx * Zpos my.
Proof.
  intros Hmx Hmy He. cbn [SFmul xorb].
  assert (Hprod : 2 ^ 104 <= Zpos (mx * my) < 2 ^ 106).
  { rewrite Pos2Z.inj_mul.
    change (2 ^ 104) with (2 ^ 52 * 2 ^ 52).
    change (2 ^ 106) with (2 ^ 53 * 2 ^ 53). nia. }
  assert (Hdig : exists n, 52 <= n <= 53
            /\ Zpos (digits2_pos (mx * my)) = 53 + n
            /\ 2 ^ 52 * 2 ^ n <= Zpos (mx * my)).
  { destruct (Z_lt_le_dec (Zpos (mx * my)) (2 ^ 105)) as [Hlt|Hge].
    - exists 52. split; [lia|]. split.
      + apply digits2_pos_unique. change (53 + 52 - 1) with 104.
        change (53 + 52) with 105. lia.
      + change (2 ^ 52 * 2 ^ 52) with (2 ^ 104). lia.
    - exists 53. split; [lia|]. split.
      + apply digits2_pos_unique. change (53 + 53 - 1) with 105.
        change (53 + 53) with 106. lia.
      + change (2 ^ 52 * 2 ^ 53) with (2 ^ 105). lia. }
  destruct Hdig as (n & Hn & Hdq & Hnlo).
  destruct (bra_nearest (mx * my) (ex + ey) loc_Exact (Zpos (mx * my)) 1
              (53 + n) ltac:(lia) (exact_inrec (mx * my)) Hdq
              ltac:(lia) ltac:(lia) ltac:(lia))
    as (m & e & M & Heq & Hm & Hee & Hval & Hnear).
  replace (53 + n - 53) with n in * by ring.
  rewrite Pos2Z.inj_mul in *. rewrite Z.mul_1_l in Hnear.
  exists m, e, M, n. rewrite Heq. repeat split; lia.
Qed.

Lemma abs_scaled u x y :
  0 < u -> u * Z.abs x <= y -> u * x <= y /\ u * (- x) <= y.
Proof.
  intros Hu H.
  assert (u * x <= u * Z.abs x) by (apply Z.mul_le_mono_nonneg_l; lia).
  assert (u * (- x) <= u * Z.abs x) by (apply Z.mul_le_mono_nonneg_l; lia).
  lia.
Qed.

(** ** The rounding window, as integer arithmetic

    [U] stands for [2^53], [C] for the mantissa of the double [0.01]
    (the double is [C / 2^59]) and [S] for [2^112]. *)
Section Window.
Variables U2 C S : Z.
Hypothesis HU2 : 0 < U2.
Local Notation U := (2 * U2).
Hypothesis HC : 0 < C.
Hypothesis HS : 0 < S.
(** [0.01 <= C / 2^59], scaled *)
Hypothesis C_lower : S <= 100 * U * C.
Variable p : Z.
Hypothesis Hp : 0 < p.
Hypothesis NU : 100 * (U + 1) * (U + 1) * C * p < U * S * (p + 1).
Hypothesis NL : U * S * (p - 1) < 100 * (U - 1) * (U - 1) * C * p.

Variables r k : Z.
Hypothesis Hr : 0 < r.
Hypothesis Hk0 : 0 <= k.
Hypothesis Hk1 : 100 * r * k <= p + 50 * r.
Hypothesis Hk2 : p + 50 * r < 100 * r * (k + 1).

(** What the two roundings give (see [div_nearest] and [mul_nearest]):
    [A = 2^a] and [B = 2^b] normalise [p] and [r]; the quotient's mantissa
    [mq], scaled by [G], is the multiple [Mq * NQ] of its unit nearest to
    [p A U / (r B)]; the product's mantissa [mP], scaled by [H], is the
    multiple [MP * NP] of its unit nearest to [mq * C]. *)
Variables A B NQ T3 Mq mq G NP MP mP H R Zd : Z.
Hypothesis HA : 0 < A.
Hypothesis HB : 0 < B.
Hypothesis HNQ : 0 < NQ.
Hypothesis HG : 0 < G.
Hypothesis HNP : 0 < NP.
Hypothesis HH : 0 < H.
Hypothesis HZd : 0 < Zd.
Hypothesis Hq_eq : mq * G = Mq * NQ.
Hypothesis Hq_near :
  Z.abs (2 * (Mq * (r * B * NQ) - p * A * U)) <= r * B * NQ.
Hypothesis Hq_low : U2 * NQ * (r * B) <= p * A * U.
Hypothesis Hunit_q : A * U = B * NQ * T3.
Hypothesis HP_eq : mP * H = MP * NP.
Hypothesis HP_near : Z.abs (2 * (MP * NP - mq * C)) <= NP.
Hypothesis HP_low : U2 * NP <= mq * C.
Hypothesis Hunit_P : S * A = 2 * R * NP * G * B.
Hypothesis Hscale : S * A = Zd * H * G * B.

Local Notation Qs := (Mq * NQ).
Local Notation W := (MP * NP * G).

Lemma Q_rel : U * Z.abs (Qs * (r * B) - p * A * U) <= p * A * U.
Proof.
  clear NU NL C_lower Hk1 Hk2 Hq_eq Hunit_q HP_eq HP_near HP_low Hunit_P Hscale.
  replace (Mq * (r * B * NQ)) with (Qs * (r * B)) in Hq_near by ring.
  set (x := Qs * (r * B) - p * A * U) in *.
  assert (H1 : U2 * (2 * Z.abs x) <= U2 * (r * B * NQ)).
  { apply Z.mul_le_mono_nonneg_l; lia. }
  lia.
Qed.

Lemma Q_exact :
  p = 50 * r * (2 * k - 1) -> Qs * B = 50 * (2 * k - 1) * (A * U).
Proof.
  clear NU NL C_lower Hk1 Hk2 Hq_eq Hq_low HP_eq HP_near HP_low Hunit_P Hscale.
  intros Htie. set (y := Mq - 50 * (2 * k - 1) * T3).
  assert (HV : 0 < r * B * NQ).
  { apply Z.mul_pos_pos; [apply Z.mul_pos_pos|]; lia. }
  assert (Hy : Z.abs (2 * (r * B * NQ * y)) <= r * B * NQ).
  { replace (2 * (r * B * NQ * y))
      with (2 * (Mq * (r * B * NQ) - p * A * U)); [assumption|].
    unfold y. rewrite Htie.
    replace (50 * r * (2 * k - 1) * A * U)
      with (50 * r * (2 * k - 1) * (A * U)) by ring.
    rewrite Hunit_q. ring. }
  assert (y = 0) as Hy0.
  { destruct (Z.eq_dec y 0) as [|Hn]; [assumption|exfalso].
    rewrite Z.abs_mul, Z.abs_mul in Hy.
    assert (r * B * NQ * 1 <= Z.abs (r * B * NQ) * Z.abs y).
    { rewrite (Z.abs_eq (r * B * NQ)) by lia.
      apply Z.mul_le_mono_nonneg_l; lia. }
    lia. }
  rewrite Hunit_q. unfold y in Hy0.
  replace Mq with (50 * (2 * k - 1) * T3) by lia. ring.
Qed.

Lemma W_rel : U * Z.abs (W - Qs * C) <= Qs * C.
Proof.
  clear NU NL C_lower Hk1 Hk2 Hq_near Hq_low Hunit_q HP_eq Hunit_P Hscale.
  rewrite <- Hq_eq. set (z := MP * NP - mq * C) in *.
  replace (MP * NP * G - mq * G * C) with (G * z) by (unfold z; ring).
  rewrite Z.abs_mul, (Z.abs_eq G) by lia.
  assert (H1 : U2 * (2 * Z.abs z) <= U2 * NP).
  { apply Z.mul_le_mono_nonneg_l; lia. }
  assert (H2 : G * (U * Z.abs z) <= G * (mq * C)).
  { apply Z.mul_le_mono_nonneg_l; lia. }
  lia.
Qed.

Lemma W_mono :
  (2 * k - 1) * S * A <= 2 * (Qs * C) * B -> (2 * k - 1) * S * A <= 2 * W * B.
Proof.
  clear NU NL C_lower Hk1 Hk2 Hq_near Hq_low Hunit_q HP_eq HP_low Hscale.
  intros Hle. rewrite <- Hq_eq in Hle.
  assert (HV : 0 < 2 * G * B).
  { apply Z.mul_pos_pos; [|lia]. lia. }
  assert (H1 : (2 * k - 1) * R * NP <= mq * C).
  { apply Z.mul_le_mono_pos_r with (2 * G * B); [assumption|].
    replace ((2 * k - 1) * R * NP * (2 * G * B))
      with ((2 * k - 1) * (2 * R * NP * G * B)) by ring.
    rewrite <- Hunit_P. lia. }
  assert (H2 : (2 * ((2 * k - 1) * R) - 1) * NP <= 2 * MP * NP) by lia.
  assert (H3 : 2 * ((2 * k - 1) * R) - 1 <= 2 * MP).
  { apply Z.mul_le_mono_pos_r with NP; assumption. }
  assert (H4 : (2 * k - 1) * R * NP <= MP * NP).
  { apply Z.mul_le_mono_nonneg_r; lia. }
  replace ((2 * k - 1) * S * A) with ((2 * k - 1) * (S * A)) by ring.
  rewrite Hunit_P.
  replace ((2 * k - 1) * (2 * R * NP * G * B))
    with ((2 * k - 1) * R * NP * (2 * G * B)) by ring.
  replace (2 * W * B) with (MP * NP * (2 * G * B)) by ring.
  apply Z.mul_le_mono_nonneg_r; lia.
Qed.

Lemma Qs_nonneg : 0 <= Qs.
Proof.
  destruct (Z_lt_le_dec Qs 0) as [Hneg|]; [exfalso|assumption].
  pose proof Q_rel as HQ.
  assert (Hrb : 0 < r * B) by (apply Z.mul_pos_pos; assumption).
  assert (Hn : Qs * (r * B) <= 0).
  { apply Z.mul_nonpos_nonneg; [|clear - Hrb; lia]. clear - Hneg. lia. }
  assert (Hpa : 0 < p * A) by (apply Z.mul_pos_pos; assumption).
  assert (HU : 0 < U) by (clear - HU2; lia).
  destruct (abs_scaled U _ _ HU HQ) as [_ Hx].
  assert (HX : 0 < p * A * U) by (apply Z.mul_pos_pos; assumption).
  set (X := p * A * U) in *. set (Y := Qs * (r * B)) in *.
  assert (H1 : U * X <= U * - (Y - X)).
  { apply Z.mul_le_mono_nonneg_l; [clear - HU; lia|clear - Hn; lia]. }
  assert (H2 : 2 * X <= U * X).
  { apply Z.mul_le_mono_nonneg_r; [clear - HX; lia|clear - HU2; lia]. }
  clear - H1 H2 Hx HX. lia.
Qed.

Lemma Qs_upper : Qs * (r * B) <= p * A * (U + 1).
Proof.
  pose proof Q_rel as HQrel.
  clear NU NL C_lower Hk1 Hk2 Hq_eq Hq_near Hq_low Hunit_q HP_eq HP_near HP_low Hunit_P Hscale.
  destruct (abs_scaled U _ _ ltac:(lia) HQrel) as [Hs _].
  assert (Qs * (r * B) - p * A * U <= p * A).
  { apply Z.mul_le_mono_pos_l with U; [lia|]. lia. }
  lia.
Qed.

Lemma Qs_lower : p * A * (U - 1) <= Qs * (r * B).
Proof.
  pose proof Q_rel as HQrel.
  clear NU NL C_lower Hk1 Hk2 Hq_eq Hq_near Hq_low Hunit_q HP_eq HP_near HP_low Hunit_P Hscale.
  destruct (abs_scaled U _ _ ltac:(lia) HQrel) as [_ Hs].
  assert (- (Qs * (r * B) - p * A * U) <= p * A).
  { apply Z.mul_le_mono_pos_l with U; [lia|]. lia. }
  lia.
Qed.

Lemma W_upper : U * W <= (U + 1) * (Qs * C).
Proof.
  pose proof W_rel as HWrel.
  clear NU NL C_lower Hk1 Hk2 Hq_eq Hq_near Hq_low Hunit_q HP_eq HP_near HP_low Hunit_P Hscale.
  destruct (abs_scaled U _ _ ltac:(lia) HWrel) as [Hs _]. lia. Qed.

Lemma W_lower : (U - 1) * (Qs * C) <= U * W.
Proof.
  pose proof W_rel as HWrel.
  clear NU NL C_lower Hk1 Hk2 Hq_eq Hq_near Hq_low Hunit_q HP_eq HP_near HP_low Hunit_P Hscale.
  destruct (abs_scaled U _ _ ltac:(lia) HWrel) as [_ Hs]. lia. Qed.

Lemma window_upper : 2 * W * B < (2 * k + 1) * S * A.
Proof.
  pose proof Qs_nonneg as HQ0. pose proof Qs_upper as HQu.
  pose proof W_upper as HWu.
  clear NL C_lower Hk1 Hq_eq Hq_near Hq_low Hunit_q HP_eq HP_near HP_low Hunit_P Hscale.
  destruct (Z_lt_le_dec (2 * W * B) ((2 * k + 1) * S * A)) as [|Hge];
    [assumption|exfalso].
  assert (H1 : U * W * (r * B) <= (U + 1) * C * (Qs * (r * B))).
  { assert (0 <= r * B) by nia.
    replace ((U + 1) * C * (Qs * (r * B))) with ((U + 1) * (Qs * C) * (r * B))
      by ring. apply Z.mul_le_mono_nonneg_r; assumption. }
  assert (H2 : (U + 1) * C * (Qs * (r * B))
               <= (U + 1) * C * (p * A * (U + 1))).
  { apply Z.mul_le_mono_nonneg_l; [nia|assumption]. }
  assert (H3 : U * r * ((2 * k + 1) * S * A) <= U * r * (2 * W * B)).
  { apply Z.mul_le_mono_nonneg_l; [nia|assumption]. }
  assert (H4 : U * r * (2 * k + 1) * S * A
               <= 2 * ((U + 1) * (U + 1) * C * p) * A).
  { replace (U * r * (2 * k + 1) * S * A)
      with (U * r * ((2 * k + 1) * S * A)) by ring.
    replace (2 * ((U + 1) * (U + 1) * C * p) * A)
      with (2 * ((U + 1) * C * (p * A * (U + 1)))) by ring.
    replace (U * r * (2 * W * B)) with (2 * (U * W * (r * B))) in H3 by ring.
    lia. }
  assert (H5 : U * r * (2 * k + 1) * S <= 2 * ((U + 1) * (U + 1) * C * p)).
  { apply Z.mul_le_mono_pos_r with A; assumption. }
  assert (H6 : U * S * (p + 1) <= 50 * (U * r * (2 * k + 1) * S)).
  { replace (50 * (U * r * (2 * k + 1) * S))
      with (U * S * (50 * r * (2 * k + 1))) by ring.
    apply Z.mul_le_mono_nonneg_l; [nia|lia]. }
  lia.
Qed.

Lemma window_lower : (2 * k - 1) * S * A <= 2 * W * B.
Proof.
  pose proof Qs_nonneg as HQ0. pose proof Qs_lower as HQl.
  pose proof W_lower as HWl. pose proof W_mono as HWm.
  pose proof Q_exact as HQe.
  clear NU Hk2 Hq_eq Hq_near Hq_low Hunit_q HP_eq HP_near HP_low Hunit_P Hscale.
  assert (HW0 : 0 <= W).
  { assert (Ha : 0 <= Qs * C)
      by (apply Z.mul_nonneg_nonneg; [exact HQ0|clear - HC; lia]).
    assert (Hb : 0 <= (U - 1) * (Qs * C))
      by (apply Z.mul_nonneg_nonneg; [clear - HU2; lia|assumption]).
    assert (Hc : 0 <= U * W) by (clear - Hb HWl; lia).
    apply Z.mul_le_mono_pos_l with U; [clear - HU2; lia|].
    rewrite Z.mul_0_r. exact Hc. }
  destruct (Z.eq_dec k 0) as [->|Hk].
  { assert (Ha : 0 <= W * B)
      by (apply Z.mul_nonneg_nonneg; [exact HW0|clear - HB; lia]).
    assert (Hb : 0 <= S * A)
      by (apply Z.mul_nonneg_nonneg; [clear - HS; lia|clear - HA; lia]).
    clear - Ha Hb. lia. }
  destruct (Z.eq_dec p (50 * r * (2 * k - 1))) as [Htie|Hne].
  - (* a tie: the quotient is exact, the product does not fall below it *)
    apply HWm.
    replace (2 * (Qs * C) * B) with (2 * C * (Qs * B)) by ring.
    rewrite (HQe Htie).
    assert (0 < 2 * k - 1) by lia.
    assert (S * A <= 100 * U * C * A)
      by (apply Z.mul_le_mono_nonneg_r; [clear - HA; lia|exact C_lower]).
    replace (2 * C * (50 * (2 * k - 1) * (A * U)))
      with ((2 * k - 1) * (100 * U * C * A)) by ring.
    replace ((2 * k - 1) * S * A) with ((2 * k - 1) * (S * A)) by ring.
    apply Z.mul_le_mono_nonneg_l; lia.
  - destruct (Z_lt_le_dec (2 * W * B) ((2 * k - 1) * S * A)) as [Hlt|];
      [exfalso|assumption].
    assert (Hp1 : 50 * r * (2 * k - 1) <= p - 1) by lia.
    assert (H1 : (U - 1) * C * (Qs * (r * B)) <= U * W * (r * B)).
    { assert (0 <= r * B) by nia.
      replace ((U - 1) * C * (Qs * (r * B))) with ((U - 1) * (Qs * C) * (r * B))
        by ring. apply Z.mul_le_mono_nonneg_r; assumption. }
    assert (H2 : (U - 1) * C * (p * A * (U - 1))
                 <= (U - 1) * C * (Qs * (r * B))).
    { apply Z.mul_le_mono_nonneg_l; [nia|assumption]. }
    assert (H3 : U * r * (2 * W * B) < U * r * ((2 * k - 1) * S * A)).
    { apply Z.mul_lt_mono_pos_l; [nia|assumption]. }
    assert (H4 : 2 * ((U - 1) * (U - 1) * C * p) * A
                 < U * r * (2 * k - 1) * S * A).
    { replace (U * r * (2 * k - 1) * S * A)
        with (U * r * ((2 * k - 1) * S * A)) by ring.
      replace (2 * ((U - 1) * (U - 1) * C * p) * A)
        with (2 * ((U - 1) * C * (p * A * (U - 1)))) by ring.
      replace (U * r * (2 * W * B)) with (2 * (U * W * (r * B))) in H3 by ring.
      lia. }
    assert (H5 : 2 * ((U - 1) * (U - 1) * C * p) < U * r * (2 * k - 1) * S).
    { apply Z.mul_lt_mono_pos_r with A; assumption. }
    assert (H6 : 50 * (U * r * (2 * k - 1) * S) <= U * S * (p - 1)).
    { replace (50 * (U * r * (2 * k - 1) * S))
        with (U * S * (50 * r * (2 * k - 1))) by ring.
      apply Z.mul_le_mono_nonneg_l; [nia|lia]. }
    lia.
Qed.

(** The mantissa of the product lies in the half-open window around [k]. *)
Lemma window : (2 * k - 1) * Zd <= 2 * mP < (2 * k + 1) * Zd.
Proof.
  pose proof window_lower as Hl. pose proof window_upper as Hu.
  clear NU NL C_lower Hk1 Hk2 Hq_eq Hq_near Hq_low Hunit_q HP_near HP_low Hunit_P.

  assert (HV : 0 < H * G * B).
  { apply Z.mul_pos_pos; [apply Z.mul_pos_pos|]; lia. }
  replace (2 * W * B) with (2 * (mP * H) * G * B) in Hl, Hu
    by (rewrite HP_eq; ring).
  replace ((2 * k - 1) * S * A) with ((2 * k - 1) * (S * A)) in Hl by ring.
  replace ((2 * k + 1) * S * A) with ((2 * k + 1) * (S * A)) in Hu by ring.
  rewrite Hscale in Hl, Hu. split.
  - apply Z.mul_le_mono_pos_r with (H * G * B); [assumption|].
    replace ((2 * k - 1) * Zd * (H * G * B))
      with ((2 * k - 1) * (Zd * H * G * B)) by ring.
    replace (2 * mP * (H * G * B)) with (2 * (mP * H) * G * B) by ring.
    assumption.
  - apply Z.mul_lt_mono_pos_r with (H * G * B); [assumption|].
    replace ((2 * k + 1) * Zd * (H * G * B))
      with ((2 * k + 1) * (Zd * H * G * B)) by ring.
    replace (2 * mP * (H * G * B)) with (2 * (mP * H) * G * B) by ring.
    assumption.
Qed.

End Window.

Lemma digits_small p : Zpos p < 2 ^ 31 -> 1 <= Zpos (digits2_pos p) <= 31.
Proof.
  intros Hp. pose proof (digits2_pos_bounds p) as Hb. split; [lia|].
  destruct (Z_le_gt_dec (Zpos (digits2_pos p)) 31) as [|Hgt]; [assumption|].
  exfalso.
  assert (2 ^ 31 <= 2 ^ (Zpos (digits2_pos p) - 1))
    by (apply Z.pow_le_mono_r; lia).
  lia.
Qed.

Lemma pow2_small n c : 0 <= c -> 2 ^ n < 2 ^ (c + 1) -> n <= c.
Proof.
  intros Hc Hlt. destruct (Z_le_gt_dec n c) as [|Hgt]; [assumption|exfalso].
  assert (2 ^ (c + 1) <= 2 ^ n) by (apply Z.pow_le_mono_r; lia). lia.
Qed.

Ltac pow_eq :=
  rewrite <- ?Z.pow_add_r by lia; f_equal; lia.

(** The product [m * 2^e] computed on doubles lies in
    [[k - 1/2, k + 1/2)] for [k] the exact fee, and [e] is negative. *)
Lemma sf_fee_window p r :
  Zpos p < 2 ^ 31 -> Zpos r < 2 ^ 31 ->
  exists m e,
    Fee.sf_fee p r = S754_finite false m e /\ e < 0 /\
    (2 * ((Zpos p + 50 * Zpos r) / (100 * Zpos r)) - 1) * 2 ^ (- e)
      <= 2 * Zpos m
      < (2 * ((Zpos p + 50 * Zpos r) / (100 * Zpos r)) + 1) * 2 ^ (- e).
Proof.
  intros Hp Hr. unfold Fee.sf_fee.
  pose proof (digits_small p Hp) as Hdp. pose proof (digits_small r Hr) as Hdr.
  set (dp := Zpos (digits2_pos p)) in *. set (dr := Zpos (digits2_pos r)) in *.
  destruct (normalize_exact p dp eq_refl ltac:(lia)) as (mp & Hnp & Hmp & Hmpb).
  destruct (normalize_exact r dr eq_refl ltac:(lia)) as (mr & Hnr & Hmr & Hmrb).
  rewrite Hnp, Hnr.
  destruct (div_nearest mp (dp - 53) mr (dr - 53) Hmpb Hmrb ltac:(lia))
    as (mq & eq & Mq & nq & Hdiv & Hmqb & Hnq & Heq & Hqeq & Hqnear & Hqlow).
  rewrite Hdiv.
  set (g := eq - (dp - 53 - (dr - 53) - 53)) in *.
  assert (Hg0 : 0 <= g) by lia.
  assert (Hg : g <= 2).
  { apply pow2_small; [lia|]. change (2 ^ (2 + 1)) with 8.
    assert (HG : 0 < 2 ^ g) by (apply Z.pow_pos_nonneg; lia).
    set (Gq := 2 ^ g) in *.
    change (2 ^ 52) with 4503599627370496 in *.
    change (2 ^ 53) with 9007199254740992 in *.
    assert (H1 : 4503599627370496 * Gq <= Zpos mq * Gq)
      by (apply Z.mul_le_mono_nonneg_r; lia).
    assert (H2 : Zpos mq * Gq * 4503599627370496 <= Zpos mq * Gq * Zpos mr)
      by (apply Z.mul_le_mono_nonneg_l; lia).
    assert (H3 : Zpos mq * Gq * Zpos mr
                 <= Zpos mp * 9007199254740992 + Zpos mr).
    { rewrite Hqeq.
      assert (Hc : nq = 0 \/ nq = 1) by lia.
      destruct Hc as [-> | ->].
      - change (2 ^ 0) with 1 in *. lia.
      - change (2 ^ 1) with 2 in *. lia. }
    lia. }
  assert (Hmc : 2 ^ 52 <= Zpos 5764607523034235 < 2 ^ 53)
    by (split; [discriminate|reflexivity]).
  destruct (mul_nearest mq eq 5764607523034235 (-59) Hmqb Hmc ltac:(lia))
    as (mP & eP & MP & nP & Hmul & HmPb & HnP & HeP & HPeq & HPnear & HPlow).
  rewrite Hmul. exists mP, eP. split; [reflexivity|].
  set (h := eP - (eq + -59)) in *.
  assert (Hh0 : 52 <= h) by lia.
  assert (Hh : h <= 54).
  { apply pow2_small; [lia|].
    change (2 ^ (54 + 1)) with 36028797018963968.
    assert (HH : 0 < 2 ^ h) by (apply Z.pow_pos_nonneg; lia).
    set (Hh := 2 ^ h) in *.
    change (2 ^ 52) with 4503599627370496 in *.
    change (2 ^ 53) with 9007199254740992 in *.
    assert (H1 : 4503599627370496 * Hh <= Zpos mP * Hh)
      by (apply Z.mul_le_mono_nonneg_r; lia).
    assert (H3 : Zpos mP * Hh
                 <= Zpos mq * 5764607523034235 + 4503599627370496).
    { rewrite HPeq.
      assert (Hc : nP = 52 \/ nP = 53) by lia.
      destruct Hc as [-> | ->].
      - change (2 ^ 52) with 4503599627370496 in *. lia.
      - change (2 ^ 53) with 9007199254740992 in *. lia. }
    lia. }
  split; [lia|].
  pose proof (Pos2Z.is_pos p) as Hp0. pose proof (Pos2Z.is_pos r) as Hr0.
  apply (window (2 ^ 52) 5764607523034235 (2 ^ 112)
           ltac:(reflexivity) ltac:(reflexivity) ltac:(reflexivity)
           ltac:(discriminate)
           (Zpos p) Hp0) with
    (r := Zpos r) (A := 2 ^ (53 - dp)) (B := 2 ^ (53 - dr)) (NQ := 2 ^ nq)
    (T3 := 2 ^ (53 - dp + dr - nq)) (Mq := Mq) (mq := Zpos mq) (G := 2 ^ g)
    (NP := 2 ^ nP) (MP := MP) (H := 2 ^ h)
    (R := 2 ^ (111 + (53 - dp) - g - (53 - dr) - nP)).
  all: try (apply Z.pow_pos_nonneg; lia).
  - change (2 ^ 52) with 4503599627370496.
    change (2 ^ 112) with 5192296858534827628530496329220096.
    change (2 ^ 31) with 2147483648 in Hp. lia.
  - change (2 ^ 52) with 4503599627370496.
    change (2 ^ 112) with 5192296858534827628530496329220096.
    change (2 ^ 31) with 2147483648 in Hp. lia.
  - assumption.
  - apply Z.div_pos; lia.
  - pose proof (Z.mul_div_le (Zpos p + 50 * Zpos r) (100 * Zpos r)
                  ltac:(lia)) as Hs.
    set (k := (Zpos p + 50 * Zpos r) / (100 * Zpos r)) in *. lia.
  - pose proof (Z.mul_succ_div_gt (Zpos p + 50 * Zpos r) (100 * Zpos r)
                  ltac:(lia)) as Hs.
    set (k := (Zpos p + 50 * Zpos r) / (100 * Zpos r)) in *. lia.
  - exact Hqeq.
  - rewrite Hmp, Hmr in Hqnear. change (2 ^ 53) with (2 * 2 ^ 52) in Hqnear.
    replace (Zpos r * 2 ^ (53 - dr) * 2 ^ nq)
      with (Zpos r * 2 ^ (53 - dr) * 2 ^ nq) by ring.
    exact Hqnear.
  - rewrite Hmp, Hmr in Hqlow. change (2 ^ 53) with (2 * 2 ^ 52) in Hqlow.
    exact Hqlow.
  - change (2 * 2 ^ 52) with (2 ^ 53). pow_eq.
  - exact HPeq.
  - exact HPnear.
  - exact HPlow.
  - change 2 with (2 ^ 1) at 3. pow_eq.
  - pow_eq.
Qed.

(** ** The primitive operations and their specification *)

Lemma Prim2SF_Z2float z :
  0 <= z < 2 ^ 63 ->
  Prim2SF (Fee.Z2float z) = binary_normalize 53 1024 z 0 false.
Proof.
  intros Hz. unfold Fee.Z2float.
  destruct (z <? 0) eqn:Hneg; [apply Z.ltb_lt in Hneg; lia|].
  rewrite of_uint63_spec, Uint63.of_Z_spec.
  rewrite Z.mod_small; [reflexivity|].
  change wB with (2 ^ 63). lia.
Qed.

Lemma Prim2SF_fee p r :
  Zpos p < 2 ^ 31 -> Zpos r < 2 ^ 31 ->
  Prim2SF (PrimFloat.mul (PrimFloat.div (Fee.Z2float (Zpos p))
                                        (Fee.Z2float (Zpos r)))
                         Fee.one_percent)
  = Fee.sf_fee p r.
Proof.
  intros Hp Hr.
  assert (2 ^ 31 < 2 ^ 63) by reflexivity.
  rewrite FloatAxioms.mul_spec, FloatAxioms.div_spec.
  rewrite !Prim2SF_Z2float by lia.
  reflexivity.
Qed.

(** For every positive price and room count below [2^31] the double
    computation [Math.round (price / total_rooms * 0.01)] is the exact
    [floor (price / (100 * total_rooms) + 1/2)]. *)
Theorem fee_formula_rounds_exactly p r :
  0 < p < 2 ^ 31 -> 0 < r < 2 ^ 31 ->
  Fee.fee_formula p r = Fee.Z2float (Fee.fee_exact p r).
Proof.
  intros Hp Hr.
  destruct p as [|p|p]; try lia. destruct r as [|r|r]; try lia.
  destruct (sf_fee_window p r ltac:(lia) ltac:(lia))
    as (m & e & Hsf & He & Hlo & Hhi).
  unfold Fee.fee_formula, Fee.Math_round.
  rewrite (Prim2SF_fee p r) by lia. rewrite Hsf.
  destruct (0 <=? e) eqn:He0; [apply Z.leb_le in He0; lia|].
  cbv zeta. unfold Fee.fee_exact.
  set (k := (Zpos p + 50 * Zpos r) / (100 * Zpos r)) in *.
  assert (Hd : 0 < 2 ^ (- e)) by (apply Z.pow_pos_nonneg; lia).
  set (d := 2 ^ (- e)) in *.
  replace ((2 * Zpos m + d) / (2 * d)) with k.
  - destruct (k =? 0) eqn:Hk; [|reflexivity].
    apply Z.eqb_eq in Hk. rewrite Hk. reflexivity.
  - apply Z.div_unique with (2 * Zpos m + d - 2 * d * k); lia.
Qed.

End Binary64.

(* ===================================================================== *)
(** * The fee *)
(* ===================================================================== *)

Module FeeFacts.
Import Schema Fee.

(** C3: on integer price and room count the fee is
    [round((price / total_rooms) * 0.01)], computed on doubles with
    [Math.round]; the listing card and the unlock page charge the same
    amount for the same property, and the landlord's form shows it too
    whenever both of its inputs are non-zero numbers; for every positive
    price and room count that fit a Postgres [integer] the two roundings
    of the double computation lose nothing: the fee is exactly one per
    cent of the per-room rent rounded to the nearest integer, halves up;
    180000 over 4 rooms gives 450. *)
Theorem reservation_fee_formula (price total_rooms : Z) :
  calculateReservationFee (Z2float price) (Z2float total_rooms)
  = fee_formula price total_rooms
  /\ (forall p : Property,
        Schema.price p = price -> Schema.total_rooms p = total_rooms ->
        PropertyCard.dynamicReservationFee p = fee_formula price total_rooms
        /\ PropertyDetailPage.dynamicReservationFee p
           = PropertyCard.dynamicReservationFee p)
  /\ (truthy (Z2float price) = true -> truthy (Z2float total_rooms) = true ->
      calcReservationFee (Z2float price) (Z2float total_rooms)
      = fee_formula price total_rooms)
  /\ (0 < price < 2 ^ 31 -> 0 < total_rooms < 2 ^ 31 ->
      fee_formula price total_rooms
      = Z2float (fee_exact price total_rooms))
  /\ calculateReservationFee 180000 4 = 450%float.
Proof.
  split; [reflexivity|]. split; [|split; [|split; [|reflexivity]]].
  - intros p <- <-. split; reflexivity.
  - intros Hp Hr. unfold calcReservationFee. rewrite Hp, Hr. reflexivity.
  - apply Binary64.fee_formula_rounds_exactly.
Qed.

Lemma reservation_fee_formula_witness :
  truthy (Z2float 180000) = true /\ truthy (Z2float 4) = true
  /\ 0 < 180000 < 2 ^ 31 /\ 0 < 4 < 2 ^ 31
  /\ calcReservationFee (Z2float 180000) (Z2float 4) = 450%float
  /\ PropertyDetailPage.dynamicReservationFee (Sample.lasu_flat 3) = 450%float
  /\ fee_formula 180000 4 = Z2float (fee_exact 180000 4).
Proof.
  destruct (reservation_fee_formula 180000 4)
    as (_ & Hsites & Hform & Hexact & _).
  assert (Hp : 0 < 180000 < 2 ^ 31) by (split; reflexivity).
  assert (Hr : 0 < 4 < 2 ^ 31) by (split; reflexivity).
  split; [reflexivity|]. split; [reflexivity|].
  split; [exact Hp|]. split; [exact Hr|]. split; [|split].
  - rewrite (Hform eq_refl eq_refl). reflexivity.
  - destruct (Hsites (Sample.lasu_flat 3) eq_refl eq_refl) as [H1 H2].
    rewrite H2, H1. reflexivity.
  - exact (Hexact Hp Hr).
Defined.

(** The seeded listings, every price up to 1000 with up to 8 rooms, and the
    prices on which the exact fee is a tie (multiples of 50 per room): the
    double computation gives the exact one per cent of the per-room rent,
    rounded half up. *)
Lemma fee_is_exact_on_samples :
  agrees 180000 4 = true /\ agrees 250000 3 = true /\ agrees 80000 6 = true
  /\ agree_on (upto 1000) (upto 8) = true
  /\ agree_on (map (fun k => 50 * k) (upto 400)) (upto 8) = true.
Proof. evaluate. Qed.

End FeeFacts.

(* ===================================================================== *)
(** * Unverified listings on the detail page *)
(* ===================================================================== *)

Module ListingPage.
Import Schema Supabase ReactHotToast PropertyDetailPage Ledger LedgerFacts.

Lemma filter_filter_and {A} (f g : A -> bool) l :
  filter g (filter f l) = filter (fun x => f x && g x) l.
Proof.
  induction l as [|x l IH]; cbn; [reflexivity|].
  destruct (f x); cbn; [destruct (g x)|]; now rewrite IH.
Qed.

Section AnyBackend.
Variable rpc : auth -> uuid -> list Property -> list Property.

Lemma select_property who pid vo db :
  exec rpc who (SelectProperty pid vo) db
  = (maybeSingle (filter (fun p => negb vo || is_verified p)
                    (filter (fun p => p_id p =? pid) (properties db))), db).
Proof.
  cbn [exec]. f_equal. f_equal. rewrite filter_filter_and.
  apply filter_ext. intros p. reflexivity.
Qed.

(** X1: A listing that is not verified is shown to no visitor and to no
    student: the detail page ends on the message 'Property not found or
    not available'. Every account with the landlord role, the owner or
    not, and a signed-in user whose profile has not loaded, get the
    listing itself and no error. *)
Theorem unverified_listing_visibility pid prop db :
  filter (fun p => p_id p =? pid) (properties db) = [prop] ->
  is_verified prop = false ->
  let opened u pf :=
    fst (run rpc (fetchProperty (mount pid u pf)) (option_map uid u) [] db) in
  render (opened None None)
  = ErrorScreen "Property not found or not available"
  /\ (forall u pr, role pr = Schema.student ->
        render (opened (Some u) (Some pr))
        = ErrorScreen "Property not found or not available")
  /\ (forall u pr, role pr = Schema.landlord ->
        property (opened (Some u) (Some pr)) = Some prop
        /\ error (opened (Some u) (Some pr)) = None)
  /\ (forall u,
        property (opened (Some u) None) = Some prop
        /\ error (opened (Some u) None) = None).
Proof.
  intros Hrow Hunv opened. subst opened. cbv beta.
  split; [|split; [|split]].
  - unfold fetchProperty, mount.
    cbn [user profile id setError setLoading bind run hd tl quiet before
         delivered perform_all fold_left option_map is_student].
    rewrite select_property, Hrow. cbn [negb orb filter]. rewrite Hunv.
    reflexivity.
  - intros u pr Hrole. unfold fetchProperty, mount.
    cbn [user profile id setError setLoading bind run hd tl quiet before
         delivered perform_all fold_left option_map is_student].
    rewrite Hrole.
    rewrite select_property, Hrow. cbn [negb orb filter]. rewrite Hunv.
    reflexivity.
  - intros u pr Hrole. unfold fetchProperty, mount.
    cbn [user profile id setError setLoading bind run hd tl quiet before
         delivered perform_all fold_left option_map is_student].
    rewrite Hrole.
    rewrite select_property, Hrow.
    cbn [negb orb filter maybeSingle ok data Supabase.error run hd tl quiet
         before delivered perform_all fold_left].
    destruct (exec rpc _ (SelectLandlord _) db) as [l db1].
    destruct (Supabase.error l);
      cbn [user setProperty setLandlord setError setLoading run hd tl quiet
           before delivered perform_all fold_left];
      destruct (exec rpc _ (SelectUnlockGranted _ _) db1) as [r db2];
      destruct (Supabase.error r); split; reflexivity.
  - intros u. unfold fetchProperty, mount.
    cbn [user profile id setError setLoading bind run hd tl quiet before
         delivered perform_all fold_left option_map is_student].
    change (exec rpc (Some (uid u)) RefreshAuth db) with (@ok unit None, db).
    cbn [run hd tl quiet before delivered perform_all fold_left].
    rewrite select_property, Hrow.
    cbn [negb orb filter maybeSingle ok data Supabase.error run hd tl quiet
         before delivered perform_all fold_left].
    destruct (exec rpc _ (SelectLandlord _) db) as [l db1].
    destruct (Supabase.error l);
      cbn [user setProperty setLandlord setError setLoading run hd tl quiet
           before delivered perform_all fold_left];
      destruct (exec rpc _ (SelectUnlockGranted _ _) db1) as [r db2];
      destruct (Supabase.error r); split; reflexivity.
Qed.

End AnyBackend.
End ListingPage.

(* ===================================================================== *)
(** * What a refund leaves behind *)
(* ===================================================================== *)

Module AfterRefund.
Import Schema Supabase ReactHotToast PropertyDetailPage StudentDashboard.
Import Ledger LedgerFacts LedgerKeys ListingPage.

(** What a listing is found by: its id and whether it is verified. *)
Lemma update_keeps_listing who sel f ps ps' :
  update_properties who sel (fun p => set_rooms_available (f p) p) ps = inr ps' ->
  map (fun p => (p_id p, is_verified p)) ps'
  = map (fun p => (p_id p, is_verified p)) ps.
Proof.
  unfold update_properties. intros H.
  destruct (forallb _ ps); [|discriminate].
  destruct (forallb _ ps); [|discriminate].
  injection H as <-. rewrite map_map. apply map_ext. intros p.
  now destruct (sel p && properties_write who p).
Qed.

Lemma triggers_keep_listing who st olds : forall ps ps',
  fire_update_triggers who st olds ps = inr ps' ->
  map (fun p => (p_id p, is_verified p)) ps'
  = map (fun p => (p_id p, is_verified p)) ps.
Proof.
  induction olds as [|o olds IH]; intros ps ps' H; cbn in H.
  - now injection H as <-.
  - destruct (handle_reservation_update who o (set_payment_status st o) ps)
      as [e|ps1] eqn:H1; [discriminate|].
    rewrite (IH _ _ H). unfold handle_reservation_update in H1.
    destruct (_ && _) in H1.
    + exact (update_keeps_listing _ _ _ _ _ H1).
    + now injection H1 as <-.
Qed.

Lemma filter_by_key {A K} (key : A -> K) (h : K -> bool) l l' :
  map key l' = map key l ->
  map key (filter (fun x => h (key x)) l')
  = map key (filter (fun x => h (key x)) l).
Proof.
  revert l'. induction l as [|x l IH]; intros [|y l'] H; try discriminate;
    [reflexivity|].
  cbn in H. injection H as Hk Hl. cbn. rewrite Hk.
  destruct (h (key x)); cbn; [rewrite Hk|]; now rewrite (IH _ Hl).
Qed.

Lemma filter_same_but_status (h : Reservation -> bool) l l' :
  (forall r r', same_but_status r r' -> h r' = h r) ->
  Forall2 same_but_status l l' ->
  Forall2 same_but_status (filter h l) (filter h l').
Proof.
  intros Hh. induction 1 as [|r r' l l' Hr _ IH]; cbn; [constructor|].
  rewrite (Hh _ _ Hr). destruct (h r); [constructor|]; assumption.
Qed.

Section AnyBackend.
Variable rpc : auth -> uuid -> list Property -> list Property.

(** The database after [requestRefund]: the same reservations up to their
    status, the same listings up to their counters. *)
Lemma refund_leaves who rid toasts db :
  let db' := snd (run rpc (requestRefund true rid toasts) who [] db) in
  Forall2 same_but_status (reservations db) (reservations db')
  /\ map (fun p => (p_id p, is_verified p)) (properties db')
     = map (fun p => (p_id p, is_verified p)) (properties db)
  /\ users db' = users db.
Proof.
  cbv zeta. unfold requestRefund.
  cbn [negb run hd tl quiet before delivered perform_all fold_left].
  rewrite (Refund.refund_statement rpc).
  destruct (fire_update_triggers _ _ _ _) as [e|ps] eqn:Ht; cbn.
  - split; [apply Forall2_same, same_but_status_refl|]. split; reflexivity.
  - split; [|split; [exact (triggers_keep_listing _ _ _ _ _ Ht)|reflexivity]].
    apply Forall2_map_r. intros x.
    destruct (refund_hit who rid x);
      [apply set_payment_status_same|apply same_but_status_refl].
Qed.

Lemma only_row s p r db :
  ledger_keys db -> In r (reservations db) ->
  student_id r = s -> property_id r = p ->
  rows_of s p db = [r].
Proof.
  intros Hk Hin Hs Hp. pose proof (at_most_one_row s p db Hk) as Hlen.
  assert (Hr : In r (rows_of s p db)).
  { apply filter_In. split; [exact Hin|]. unfold same_pair.
    now rewrite Hs, Hp, !Z.eqb_refl. }
  destruct (rows_of s p db) as [|x [|y l]]; cbn in Hlen, Hr;
    [contradiction| |lia].
  destruct Hr as [->|[]]. reflexivity.
Qed.

Lemma mounted_row_unlocks u pf pid db r prop :
  filter (fun x => same_pair (uid u) pid x && unlock_granted x)
         (reservations db) = [r] ->
  filter (fun p => p_id p =? pid) (properties db) = [prop] ->
  is_verified prop = true ->
  isUnlocked (fst (run rpc (fetchProperty (mount pid (Some u) pf))
                     (Some (uid u)) [] db)) = true.
Proof.
  intros Hres Hrow Hv. unfold fetchProperty, mount.
  cbn [user profile id setError setLoading].
  assert (Hgo : forall vo,
    isUnlocked
      (fst (run rpc
         (let* fetched := SelectProperty pid vo in
          match Supabase.error fetched with
          | Some _ =>
              Ret (setLoading false
                     (setError (Some "Failed to load property details"%string)
                        (mkState pid (Some u) pf None None true false false
                           None [])))
          | None =>
              match data fetched with
              | None =>
                  Ret (setLoading false
                         (setError
                            (Some "Property not found or not available"%string)
                            (mkState pid (Some u) pf None None true false false
                               None [])))
              | Some propertyData =>
                  let c := setProperty propertyData
                             (mkState pid (Some u) pf None None true false
                                false None []) in
                  let* l := SelectLandlord (landlord_id propertyData) in
                  let c := match Supabase.error l with
                           | Some _ => c
                           | None => setLandlord (data l) c
                           end in
                  match user c with
                  | Some u =>
                      let* r := SelectUnlockGranted (uid u) (id c) in
                      let c := match Supabase.error r with
                               | Some _ => c
                               | None =>
                                   setIsUnlocked
                                     (match data r with
                                      | Some _ => true | None => false end)
                                     c
                               end in
                      Ret (setLoading false c)
                  | None => Ret (setLoading false c)
                  end
              end
          end)%prog (Some (uid u)) [] db)) = true).
  { intros vo.
    cbn [run hd tl quiet before delivered perform_all fold_left].
    rewrite select_property, Hrow. cbn [filter]. rewrite Hv, orb_true_r.
    cbn [maybeSingle ok data Supabase.error run hd tl quiet before delivered
         perform_all fold_left exec].
    destruct (Supabase.error (single _));
      cbn [user id setProperty setLandlord run hd tl quiet before delivered
           perform_all fold_left exec];
      rewrite own_unlocked_visible, Hres; reflexivity. }
  destruct pf as [pr|].
  - cbn [bind run]. apply Hgo.
  - cbn [bind run hd tl quiet before delivered perform_all fold_left].
    change (exec rpc (Some (uid u)) RefreshAuth db) with (@ok unit None, db).
    cbn [run hd tl quiet before delivered perform_all fold_left].
    apply Hgo.
Qed.

(** X2: A student's refund request on a reservation that granted an unlock
    keeps the reservation (when the request succeeds the row is there with
    payment_status refunded), and the property's detail page, loaded
    afterwards, still opens unlocked: a refund does not take the access
    back. *)
Theorem refund_keeps_the_unlock u pf pid rid r prop toasts db :
  ledger_keys db ->
  In r (reservations db) -> r_id r = rid ->
  student_id r = uid u -> property_id r = pid -> unlock_granted r = true ->
  filter (fun p => p_id p =? pid) (properties db) = [prop] ->
  is_verified prop = true ->
  let refund := run rpc (requestRefund true rid toasts) (Some (uid u)) [] db in
  (fst refund = toasts ++ [toast_success refund_requested] ->
   In (set_payment_status refunded r) (reservations (snd refund)))
  /\ isUnlocked
       (fst (run rpc (fetchProperty (mount pid (Some u) pf)) (Some (uid u)) []
               (snd refund))) = true.
Proof.
  intros Hk Hin Hid Hs Hp Hu Hrow Hv refund. split.
  - subst refund. unfold requestRefund.
    cbn [negb run hd tl quiet before delivered perform_all fold_left].
    rewrite (Refund.refund_statement rpc).
    destruct (fire_update_triggers _ _ _ _) as [e|ps]; cbn.
    + intros Habs. apply app_inv_head in Habs. discriminate.
    + intros _. apply in_map_iff. exists r. split; [|exact Hin].
      unfold refund_hit, reservations_policy, uid_is.
      now rewrite Hid, Hs, !Z.eqb_refl.
  - destruct (refund_leaves (Some (uid u)) rid toasts db)
      as (Hres & Hprops & _).
    fold refund in Hres, Hprops.
    pose proof (only_row _ _ _ _ Hk Hin Hs Hp) as Hone. unfold rows_of in Hone.
    assert (Hone' : filter (fun x => same_pair (uid u) pid x && unlock_granted x)
                      (reservations db) = [r]).
    { rewrite <- filter_filter_and, Hone. cbn. now rewrite Hu. }
    pose proof (filter_same_but_status
                  (fun x => same_pair (uid u) pid x && unlock_granted x) _ _
                  ltac:(intros a b (? & Ha & Hb & Hc); unfold same_pair;
                        now rewrite Ha, Hb, Hc) Hres) as Hf.
    rewrite Hone' in Hf.
    destruct (filter _ (reservations (snd refund))) as [|r' [|? ?]] eqn:Hf';
      [inversion Hf| |inversion Hf as [|? ? ? ? _ Hnil]; inversion Hnil].
    pose proof (filter_by_key (fun p => (p_id p, is_verified p))
                  (fun k => fst k =? pid) _ _ Hprops) as Hp1.
    cbn [fst] in Hp1. rewrite Hrow in Hp1.
    destruct (filter (fun p => p_id p =? pid) (properties (snd refund)))
      as [|prop' [|? ?]] eqn:Hrow'; try discriminate.
    cbn in Hp1. injection Hp1 as _ Hv'.
    eapply mounted_row_unlocks; [exact Hf'|exact Hrow'|congruence].
Qed.

(** X3: Once a student holds a reservation on a property, refunded or not,
    a further payment callback for that property writes nothing:
    handlePaymentSuccess finds the row, reports that the property is
    already unlocked, sets isUnlocked and leaves the database as it is. *)
Theorem paying_again_after_a_refund c u prop rid r toasts db :
  ledger_keys db ->
  user c = Some u -> property c = Some prop ->
  In r (reservations db) ->
  student_id r = uid u -> property_id r = p_id prop ->
  let db' := snd (run rpc (requestRefund true rid toasts) (Some (uid u)) [] db) in
  run rpc (handlePaymentSuccess c) (Some (uid u)) [] db'
  = (setPaymentLoading false
       (setIsUnlocked true
          (show (toast already_unlocked) (setPaymentLoading true c))), db').
Proof.
  intros Hk Hu Hprop Hin Hs Hp db'.
  destruct (refund_leaves (Some (uid u)) rid toasts db) as (Hres & _ & _).
  fold db' in Hres.
  pose proof (only_row _ _ _ _ Hk Hin Hs Hp) as Hone. unfold rows_of in Hone.
  pose proof (filter_same_but_status (same_pair (uid u) (p_id prop)) _ _
                ltac:(intros a b (? & Ha & Hb & Hc); unfold same_pair;
                      now rewrite Ha, Hb) Hres) as Hf.
  rewrite Hone in Hf.
  destruct (filter _ (reservations db')) as [|r' [|? ?]] eqn:Hf';
    [inversion Hf| |inversion Hf as [|? ? ? ? _ Hnil]; inversion Hnil].
  eapply (Unlock.duplicate_callback_is_a_read rpc); eauto.
Qed.

End AnyBackend.
End AfterRefund.

(* ===================================================================== *)
(** * An unlock without rooms left *)
(* ===================================================================== *)

Module FullyBooked.
Import Schema Supabase ReactHotToast PropertyDetailPage.
Import Ledger LedgerFacts LedgerKeys RowSecurity ListingPage.




Lemma the_row pid prop ps p :
  filter (fun x => p_id x =? pid) ps = [prop] ->
  In p ps -> (p_id p =? pid) = true -> p = prop.
Proof.
  intros Hrow Hp Hid.
  assert (Hin : In p (filter (fun x => p_id x =? pid) ps))
    by (apply filter_In; auto).
  rewrite Hrow in Hin. now destruct Hin as [->|[]].
Qed.


End FullyBooked.

(* ===================================================================== *)
(** * The landlord's form *)
(* ===================================================================== *)

Module ListingForm.
Import Schema Supabase ReactHotToast LandlordDashboard.
Import Ledger LedgerFacts Fee.

Lemma apply_data_keeps d old y :
  apply_data d old = Some y ->
  p_id y = p_id old /\ is_verified y = is_verified old
  /\ landlord_id y = d_landlord_id d.
Proof.
  unfold apply_data.
  destruct (d_rooms_available d), (d_total_rooms d), (d_price d),
    (d_reservation_fee d); try discriminate.
  intros H. injection H as <-. repeat split; reflexivity.
Qed.

Section AnyBackend.
Variable rpc : auth -> uuid -> list Property -> list Property.

(** X5: Saving the landlord's form, as a new listing or over the one being
    edited, leaves users and reservations untouched, keeps the id and the
    verification flag of every existing property, changes no property of
    another landlord, and adds at most one row, which is unverified and
    belongs to the caller. *)
Theorem saving_a_listing_touches_only_own_rows u formData editing toasts db :
  let db' := snd (run rpc (handleSubmit (Some u) formData editing toasts)
                    (Some u) [] db) in
  let saved_over p p' :=
    p_id p' = p_id p /\ is_verified p' = is_verified p
    /\ (landlord_id p <> u -> p' = p) in
  users db' = users db /\ reservations db' = reservations db
  /\ exists old' added,
       properties db' = old' ++ added
       /\ Forall2 saved_over (properties db) old'
       /\ (added = [] \/ exists row, added = [row] /\ is_verified row = false
                                     /\ landlord_id row = u).
Proof.
  cbv zeta. unfold handleSubmit.
  assert (Hd : d_landlord_id (propertyData u formData) = u) by reflexivity.
  revert Hd. generalize (propertyData u formData). intros d Hd.
  assert (Hrefl : Forall2 (fun p p' => p_id p' = p_id p
                     /\ is_verified p' = is_verified p
                     /\ (landlord_id p <> u -> p' = p))
                    (properties db) (properties db)).
  { apply Forall2_same. intros p. repeat split; reflexivity. }
  destruct editing as [editing|];
    cbn [run hd tl quiet before delivered perform_all fold_left].
  - cbn [exec]. destruct (forallb _ (properties db));
      [|cbn; split; [reflexivity|]; split; [reflexivity|];
        exists (properties db), []; rewrite app_nil_r; auto].
    unfold update_properties.
    destruct (forallb _ (properties db));
      [|cbn; split; [reflexivity|]; split; [reflexivity|];
        exists (properties db), []; rewrite app_nil_r; auto].
    destruct (forallb _ (properties db));
      [|cbn; split; [reflexivity|]; split; [reflexivity|];
        exists (properties db), []; rewrite app_nil_r; auto].
    cbn. split; [reflexivity|]. split; [reflexivity|].
    eexists. exists []. rewrite app_nil_r. split; [reflexivity|].
    split; [|now left].
    apply Forall2_map_r. intros p.
    destruct (p_id p =? p_id editing); cbn [andb];
      [|repeat split; reflexivity].
    unfold properties_write, uid_is.
    destruct (u =? landlord_id p) eqn:Hown; [|repeat split; reflexivity].
    apply Z.eqb_eq in Hown.
    destruct (apply_data d p) as [y|] eqn:Ha; [|repeat split; reflexivity].
    destruct (apply_data_keeps _ _ _ Ha) as (H1 & H2 & _).
    repeat split; try assumption. intros Hne. congruence.
  - cbn [exec].
    match goal with
    | |- context [apply_data d ?b] => set (blank := b)
    end.
    destruct (apply_data d blank) as [row0|] eqn:Ha;
      [|cbn; split; [reflexivity|]; split; [reflexivity|];
        exists (properties db), []; rewrite app_nil_r; auto].
    destruct (apply_data_keeps _ _ _ Ha) as (_ & Hv & Hl).
    destruct (properties_write (Some u) row0);
      [|cbn; split; [reflexivity|]; split; [reflexivity|];
        exists (properties db), []; rewrite app_nil_r; auto].
    destruct (properties_checks row0);
      [|cbn; split; [reflexivity|]; split; [reflexivity|];
        exists (properties db), []; rewrite app_nil_r; auto].
    cbn. split; [reflexivity|]. split; [reflexivity|].
    exists (properties db), [row0]. split; [reflexivity|].
    split; [exact Hrefl|]. right. exists row0.
    split; [reflexivity|]. split; [exact Hv|congruence].
Qed.

(** An integer that fits a Postgres [integer] survives the trip through a
    JavaScript number. *)
Lemma to_integer_Z2float v :
  0 <= v < 2 ^ 31 -> to_integer (Z2float v) = Some v.
Proof.
  intros Hv. unfold to_integer.
  rewrite Binary64.Prim2SF_Z2float
    by (split; [lia|]; apply Z.lt_trans with (2 ^ 31); [lia|reflexivity]).
  destruct v as [|p|p]; [reflexivity| |lia].
  pose proof (Binary64.digits_small p ltac:(lia)) as Hd.
  destruct (Binary64.normalize_exact p _ eq_refl ltac:(lia))
    as (m & -> & Hm & _).
  set (d := Zpos (digits2_pos p)) in *.
  destruct (0 <=? d - 53) eqn:He; [apply Z.leb_le in He; lia|].
  replace (- (d - 53)) with (53 - d) by lia. rewrite Hm.
  rewrite Z.mod_mul by (apply Z.pow_nonzero; lia). cbn [Z.eqb].
  rewrite Z.div_mul by (apply Z.pow_nonzero; lia).
  change (2 ^ 31) with 2147483648 in Hv.
  assert (H1 : (-2147483648 <=? Zpos p) = true) by (apply Z.leb_le; lia).
  assert (H2 : (Zpos p <=? 2147483647) = true) by (apply Z.leb_le; lia).
  now rewrite H1, H2.
Qed.

Lemma fee_exact_bounds pr tr :
  0 < pr -> 0 < tr -> 0 <= fee_exact pr tr <= pr.
Proof.
  intros Hp Ht. unfold fee_exact. split.
  - apply Z.div_pos; lia.
  - apply Z.div_le_upper_bound; [lia|]. nia.
Qed.

Lemma fee_exact_zero pr tr :
  0 < pr -> 0 < tr -> (fee_exact pr tr = 0 <-> pr < 50 * tr).
Proof.
  intros Hp Ht. unfold fee_exact. split.
  - intros H0.
    pose proof (Z.mul_succ_div_gt (pr + 50 * tr) (100 * tr) ltac:(lia)) as H.
    rewrite H0 in H. lia.
  - intros Hlt. apply Z.div_small. lia.
Qed.


End AnyBackend.
End ListingForm.

(* ===================================================================== *)
(** * Deleting a listing *)
(* ===================================================================== *)

Module Deleting.
Import Schema Supabase ReactHotToast LandlordListings Ledger LedgerFacts.

Section AnyBackend.
Variable rpc : auth -> uuid -> list Property -> list Property.

Lemma filter_all {A} (f : A -> bool) l :
  (forall x, In x l -> f x = true) -> filter f l = l.
Proof.
  induction l as [|x l IH]; intros H; cbn; [reflexivity|].
  rewrite (H x (or_introl eq_refl)), IH; [reflexivity|].
  intros y Hy. apply H. now right.
Qed.

Lemma filter_none {A} (f : A -> bool) l :
  (forall x, In x l -> f x = false) -> filter f l = [].
Proof.
  induction l as [|x l IH]; intros H; cbn; [reflexivity|].
  rewrite (H x (or_introl eq_refl)), IH; [reflexivity|].
  intros y Hy. apply H. now right.
Qed.

(** X7: Deleting a listing the caller does not own, or an id that no
    listing has, removes nothing, and the handler still reports 'Property
    deleted successfully!': the policy hides the row and the DELETE
    succeeds on no row. *)
Theorem delete_of_a_listing_one_does_not_own who id toasts db :
  (forall p, In p (properties db) -> p_id p = id ->
     properties_write who p = false) ->
  run rpc (handleDelete true id toasts) who [] db
  = (toasts ++ [toast_success "Property deleted successfully!"], db).
Proof.
  intros Hnot. unfold handleDelete.
  cbn [negb run hd tl quiet before delivered perform_all fold_left exec].
  assert (Hhit : forall x, In x (properties db) ->
            (p_id x =? id) && properties_write who x = false).
  { intros x Hx. destruct (p_id x =? id) eqn:Hid; [|reflexivity].
    apply Z.eqb_eq in Hid. now rewrite (Hnot x Hx Hid). }
  rewrite (filter_none _ _ Hhit). cbn [map existsb negb].
  rewrite (filter_all (fun x => negb ((p_id x =? id) && properties_write who x)))
    by (intros x Hx; now rewrite (Hhit x Hx)).
  rewrite (filter_all (fun _ => true)) by reflexivity.
  cbn. now destruct db.
Qed.

(** X8: Deleting an own listing removes that row and, through ON DELETE
    CASCADE, every reservation on it, of whichever student; the other
    properties, the other reservations and the users stay as they are. *)
Theorem delete_of_an_own_listing u id prop toasts db :
  filter (fun p => p_id p =? id) (properties db) = [prop] ->
  landlord_id prop = u ->
  let res := run rpc (handleDelete true id toasts) (Some u) [] db in
  fst res = toasts ++ [toast_success "Property deleted successfully!"]
  /\ properties (snd res)
     = filter (fun p => negb (p_id p =? id)) (properties db)
  /\ reservations (snd res)
     = filter (fun r => negb (property_id r =? id)) (reservations db)
  /\ users (snd res) = users db.
Proof.
  intros Hrow Hown res. subst res. unfold handleDelete.
  cbn [negb run hd tl quiet before delivered perform_all fold_left exec].
  assert (Hhit : forall x, In x (properties db) ->
            (p_id x =? id) && properties_write (Some u) x = (p_id x =? id)).
  { intros x Hx. destruct (p_id x =? id) eqn:Hid; [|reflexivity].
    rewrite (FullyBooked.the_row _ _ _ _ Hrow Hx Hid).
    unfold properties_write, uid_is. rewrite Hown. apply Z.eqb_refl. }
  rewrite (filter_ext_in _ (fun x => p_id x =? id) _ Hhit), Hrow.
  rewrite (filter_ext_in
             (fun x => negb ((p_id x =? id) && properties_write (Some u) x))
             (fun x => negb (p_id x =? id)))
    by (intros x Hx; now rewrite (Hhit x Hx)).
  assert (Hid : p_id prop = id).
  { assert (Hin : In prop (filter (fun p => p_id p =? id) (properties db)))
      by (rewrite Hrow; now left).
    apply filter_In in Hin. now apply Z.eqb_eq. }
  cbn. rewrite Hid. repeat split; try reflexivity.
  apply filter_ext. intros r. now rewrite orb_false_r.
Qed.

End AnyBackend.
End Deleting.

(* ===================================================================== *)
(** * The WhatsApp link *)
(* ===================================================================== *)

Module Links.
Import Schema Supabase JsString WhatsApp.
Open Scope string_scope.

Lemma chars_app a b :
  list_ascii_of_string (a ++ b)
  = (list_ascii_of_string a ++ list_ascii_of_string b)%list.
Proof. induction a as [|c a IH]; cbn; [reflexivity|]. now rewrite IH. Qed.

Lemma digits_only_are_digits s :
  forallb is_digit (list_ascii_of_string (digits_only s)) = true.
Proof.
  induction s as [|c s IH]; cbn; [reflexivity|].
  destruct (is_digit c) eqn:Hc; cbn; [rewrite Hc|]; exact IH.
Qed.

Lemma hex_digit_unreserved k : (k < 16)%nat -> unreserved (hex_digit k) = true.
Proof.
  intros Hk.
  do 16 (destruct k as [|k]; [reflexivity|]). lia.
Qed.


Lemma byte_below_256 c : (nat_of_ascii c < 256)%nat.
Proof. apply nat_ascii_bounded. Qed.

Lemma encoded_chars s :
  forallb (fun c => unreserved c || Ascii.eqb c "%")
    (list_ascii_of_string (encodeURIComponent s)) = true.
Proof.
  induction s as [|c s IH]; cbn [encodeURIComponent]; [reflexivity|].
  rewrite chars_app, forallb_app, IH, andb_true_r.
  destruct (unreserved c) eqn:Hc;
    [cbn [list_ascii_of_string forallb]; now rewrite Hc|].
  pose proof (byte_below_256 c) as Hb.
  unfold percent. cbn [list_ascii_of_string forallb].
  rewrite (hex_digit_unreserved (nat_of_ascii c / 16))
    by (apply Nat.Div0.div_lt_upper_bound; exact Hb).
  rewrite (hex_digit_unreserved (nat_of_ascii c mod 16))
    by (apply Nat.mod_upper_bound; lia).
  reflexivity.
Qed.

(** X9: generateWhatsAppLink returns '#' when there is no landlord or no
    property; for a landlord with a phone the link is https://wa.me/
    followed by decimal digits only, then ?text= followed only by
    unreserved URI characters and percent signs, whatever the title and
    the phone contain. *)
Theorem whatsapp_link_is_clean l prop phone :
  l_phone l = Some phone -> PropertyDetailPage.nonempty phone = true ->
  generateWhatsAppLink None (Some prop) = "#"
  /\ generateWhatsAppLink (Some l) None = "#"
  /\ exists number text,
       generateWhatsAppLink (Some l) (Some prop)
       = "https://wa.me/" ++ number ++ "?text=" ++ text
       /\ forallb is_digit (list_ascii_of_string number) = true
       /\ forallb (fun c => unreserved c || Ascii.eqb c "%")
            (list_ascii_of_string text) = true.
Proof.
  intros Hphone Hne. split; [reflexivity|]. split; [reflexivity|].
  exists (digits_only phone), (encodeURIComponent (message prop)).
  unfold generateWhatsAppLink. rewrite Hphone, Hne.
  split; [reflexivity|]. split; [apply digits_only_are_digits|].
  apply encoded_chars.
Qed.




End Links.

(* ===================================================================== *)
(** * Media upload *)
(* ===================================================================== *)

Module Uploads.
Import ReactHotToast JsString Upload Links.
Open Scope string_scope.

Lemma replaced_is_safe c :
  forallb safe (list_ascii_of_string (replaced c)) = true.
Proof.
  unfold replaced. destruct (safe c) eqn:Hc; [cbn; now rewrite Hc|].
  destruct (nat_of_ascii c <? 128)%nat; [reflexivity|].
  destruct (nat_of_ascii c <? 192)%nat; [reflexivity|].
  destruct (nat_of_ascii c <? 240)%nat; reflexivity.
Qed.

(** X11: The sanitised file name of an upload holds only letters, digits,
    dots, hyphens and underscores; a name that is already of this form is
    kept as it is; sanitising twice gives the same as once. *)
Theorem safeName_is_safe name :
  forallb safe (list_ascii_of_string (safeName name)) = true
  /\ (forallb safe (list_ascii_of_string name) = true -> safeName name = name)
  /\ safeName (safeName name) = safeName name.
Proof.
  assert (H1 : forall s, forallb safe (list_ascii_of_string (safeName s)) = true).
  { induction s as [|c s IH]; cbn [safeName]; [reflexivity|].
    now rewrite chars_app, forallb_app, replaced_is_safe, IH. }
  assert (H2 : forall s, forallb safe (list_ascii_of_string s) = true ->
                         safeName s = s).
  { induction s as [|c s IH]; cbn [safeName list_ascii_of_string forallb];
      [reflexivity|].
    intros H. apply andb_prop in H. destruct H as [Hc Hs].
    unfold replaced. rewrite Hc. cbn. now rewrite (IH Hs). }
  split; [apply H1|]. split; [apply H2|]. apply H2, H1.
Qed.

Lemma safe_is_no_slash c : safe c = true -> Ascii.eqb c "/" = false.
Proof.
  intros Hc. destruct (Ascii.eqb_spec c "/") as [->|]; [|reflexivity].
  discriminate.
Qed.

Lemma safeName_has_no_slash name :
  forallb (fun c => negb (Ascii.eqb c "/"))
    (list_ascii_of_string (safeName name)) = true.
Proof.
  destruct (safeName_is_safe name) as [H _].
  apply forallb_forall. intros c Hc.
  rewrite forallb_forall in H. now rewrite (safe_is_no_slash c (H c Hc)).
Qed.

Lemma uint_has_no_slash d :
  forallb (fun c => negb (Ascii.eqb c "/"))
    (list_ascii_of_string (NilEmpty.string_of_uint d)) = true.
Proof. induction d; cbn; auto. Qed.

Lemma Number_toString_has_no_slash n :
  forallb (fun c => negb (Ascii.eqb c "/"))
    (list_ascii_of_string (Number_toString n)) = true.
Proof.
  unfold Number_toString, NilZero.string_of_int.
  destruct (Z.to_int n) as [d|d]; unfold NilZero.string_of_uint;
    destruct d; cbn [list_ascii_of_string forallb]; try reflexivity;
    cbn [NilEmpty.string_of_uint list_ascii_of_string forallb];
    rewrite ?uint_has_no_slash; reflexivity.
Qed.

Lemma filePath_in_folder folder now name :
  exists rest,
    filePath folder now name = folder ++ "/" ++ rest
    /\ forallb (fun c => negb (Ascii.eqb c "/")) (list_ascii_of_string rest)
       = true.
Proof.
  exists (Number_toString now ++ "-" ++ safeName name).
  split; [reflexivity|].
  rewrite !chars_app, !forallb_app, Number_toString_has_no_slash,
    safeName_has_no_slash. reflexivity.
Qed.

Section Storage.
Variable getPublicUrl : string -> option string.

Lemma fold_upload_invariant (P : Loop -> list Turn -> Prop) :
  (forall l done t, P l done -> P (upload_one getPublicUrl l t) (done ++ [t])%list) ->
  forall files l done, P l done ->
    P (fold_left (upload_one getPublicUrl) files l) (done ++ files)%list.
Proof.
  intros Hstep. induction files as [|t files IH]; intros l done Hl; cbn.
  - now rewrite app_nil_r.
  - replace (done ++ t :: files)%list with ((done ++ [t]) ++ files)%list
      by (rewrite <- app_assoc; reflexivity).
    apply IH, Hstep, Hl.
Qed.

(** X12: Every path handleMediaUpload sends to the storage is images/ or
    videos/ followed by a name without any further slash, whatever the
    file is called; and one upload is sent for each selected file whose
    type starts with image/ or video/, none for the others. *)
Theorem uploads_stay_in_their_folders files prev shown :
  let l := snd (handleMediaUpload getPublicUrl (Some files) prev shown) in
  let media t := String.prefix "image/" (file_type (file t))
                 || String.prefix "video/" (file_type (file t)) in
  Forall (fun path =>
            exists rest,
              (path = "images/" ++ rest \/ path = "videos/" ++ rest)
              /\ forallb (fun c => negb (Ascii.eqb c "/"))
                   (list_ascii_of_string rest) = true)
         (sent l)
  /\ List.length (sent l) = List.length (filter media files).
Proof.
  cbv zeta. cbn [handleMediaUpload snd].
  apply (fold_upload_invariant
           (fun l done =>
              Forall (fun path =>
                exists rest,
                  (path = "images/" ++ rest \/ path = "videos/" ++ rest)
                  /\ forallb (fun c => negb (Ascii.eqb c "/"))
                       (list_ascii_of_string rest) = true) (sent l)
              /\ List.length (sent l)
                 = List.length
                     (filter (fun t =>
                        String.prefix "image/" (file_type (file t))
                        || String.prefix "video/" (file_type (file t))) done))
           ) with (done := @nil Turn) (l := mkLoop [] None [] shown).
  - intros l done t [Hall Hlen]. unfold upload_one. rewrite filter_app.
    cbn [filter].
    destruct (String.prefix "image/" (file_type (file t))) eqn:Hi;
      [|destruct (String.prefix "video/" (file_type (file t))) eqn:Hv];
      cbn [negb andb orb].
    + assert (Hnew : Forall (fun path =>
                exists rest,
                  (path = "images/" ++ rest \/ path = "videos/" ++ rest)
                  /\ forallb (fun c => negb (Ascii.eqb c "/"))
                       (list_ascii_of_string rest) = true)
               (sent l ++ [filePath "images" (now t) (file_name (file t))])).
      { apply Forall_app. split; [exact Hall|]. constructor; [|constructor].
        destruct (filePath_in_folder "images" (now t) (file_name (file t)))
          as (rest & -> & Hrest). exists rest. split; [now left|exact Hrest]. }
      assert (Hl : List.length
                     (sent l ++ [filePath "images" (now t) (file_name (file t))])
                   = List.length
                       (filter (fun t => String.prefix "image/" (file_type (file t))
                                  || String.prefix "video/" (file_type (file t)))
                          done ++ [t])).
      { rewrite !length_app. cbn. now rewrite Hlen. }
      destruct (accepted t); cbn [negb];
        [destruct (getPublicUrl _) as [url|];
         [destruct (PropertyDetailPage.nonempty url)|]|];
        cbn [sent]; split; assumption.
    + assert (Hnew : Forall (fun path =>
                exists rest,
                  (path = "images/" ++ rest \/ path = "videos/" ++ rest)
                  /\ forallb (fun c => negb (Ascii.eqb c "/"))
                       (list_ascii_of_string rest) = true)
               (sent l ++ [filePath "videos" (now t) (file_name (file t))])).
      { apply Forall_app. split; [exact Hall|]. constructor; [|constructor].
        destruct (filePath_in_folder "videos" (now t) (file_name (file t)))
          as (rest & -> & Hrest). exists rest. split; [now right|exact Hrest]. }
      assert (Hl : List.length
                     (sent l ++ [filePath "videos" (now t) (file_name (file t))])
                   = List.length
                       (filter (fun t => String.prefix "image/" (file_type (file t))
                                  || String.prefix "video/" (file_type (file t)))
                          done ++ [t])).
      { rewrite !length_app. cbn. now rewrite Hlen. }
      destruct (accepted t); cbn [negb];
        [destruct (getPublicUrl _) as [url|];
         [destruct (PropertyDetailPage.nonempty url)|]|];
        cbn [sent]; split; assumption.
    + rewrite app_nil_r. split; assumption.
  - split; [constructor|reflexivity].
Qed.

(** X13: handleMediaUpload only appends to the images the form holds, at
    most one URL per image file the storage accepted, and keeps the form's
    video URL when no video file was accepted. *)
Theorem media_upload_keeps_what_the_form_holds files prev shown :
  let m := fst (handleMediaUpload getPublicUrl files prev shown) in
  let good_image t := String.prefix "image/" (file_type (file t)) && accepted t in
  let good_video t := String.prefix "video/" (file_type (file t)) && accepted t in
  (exists added,
     images m = (images prev ++ added)%list
     /\ (List.length added
         <= List.length (filter good_image
                           (match files with Some l => l | None => [] end)))%nat)
  /\ (Forall (fun t => good_video t = false)
        (match files with Some l => l | None => [] end) ->
      video_url m = video_url prev).
Proof.
  cbv zeta. destruct files as [files|];
    [|cbn; split; [exists []; now rewrite app_nil_r|reflexivity]].
  cbn [handleMediaUpload fst images video_url].
  assert (Hinv :
    (List.length (uploadedImageUrls
                    (fold_left (upload_one getPublicUrl) files
                       (mkLoop [] None [] shown)))
     <= List.length
          (filter (fun t => String.prefix "image/" (file_type (file t))
                            && accepted t) ([] ++ files)))%nat
    /\ (Forall (fun t => String.prefix "video/" (file_type (file t))
                         && accepted t = false) ([] ++ files)%list ->
        uploadedVideoUrl
          (fold_left (upload_one getPublicUrl) files (mkLoop [] None [] shown))
        = None)).
  { apply (fold_upload_invariant
             (fun l done =>
                (List.length (uploadedImageUrls l)
                 <= List.length
                      (filter (fun t =>
                         String.prefix "image/" (file_type (file t))
                         && accepted t) done))%nat
                /\ (Forall (fun t =>
                       String.prefix "video/" (file_type (file t))
                       && accepted t = false) done ->
                    uploadedVideoUrl l = None)));
      [|split; [cbn; lia|reflexivity]].
    intros l done t [Hlen Hvid]. rewrite filter_app, length_app.
    unfold upload_one. cbn [filter].
    destruct (String.prefix "image/" (file_type (file t))) eqn:Hi;
      destruct (String.prefix "video/" (file_type (file t))) eqn:Hv;
      cbn [negb andb];
      destruct (accepted t) eqn:Ha; cbn [negb uploadedImageUrls uploadedVideoUrl
                                         List.length];
      try (destruct (getPublicUrl _) as [url|];
           [destruct (PropertyDetailPage.nonempty url)|]);
      cbn [uploadedImageUrls uploadedVideoUrl List.length];
      rewrite ?length_app; cbn [List.length];
      (split; [lia|]); intros Hall; apply Forall_app in Hall;
      destruct Hall as [Hd Ht]; inversion Ht as [|? ? Hgood _]; subst;
      try (rewrite ?Hv, ?Ha in Hgood; discriminate); auto. }
  cbn [app] in Hinv. destruct Hinv as [Hlen Hvid]. split.
  - eexists. split; [reflexivity|exact Hlen].
  - intros Hall. now rewrite (Hvid Hall).
Qed.

End Storage.

End Uploads.

(* ===================================================================== *)
(** * The amount handed to Paystack *)
(* ===================================================================== *)

Module Kobo.
Import Schema Fee PaystackButton.

(** Two normal mantissas with the same value have the same exponent. *)
Lemma same_mantissa m m' g t :
  2 ^ 52 <= m < 2 ^ 53 -> 2 ^ 52 <= m' < 2 ^ 53 -> 0 <= g -> 0 <= t ->
  m * 2 ^ g = m' * 2 ^ t -> g = t /\ m = m'.
Proof.
  intros Hm Hm' Hg Ht Heq.
  assert (Hpg : 0 < 2 ^ g) by (apply Z.pow_pos_nonneg; lia).
  assert (Hpt : 0 < 2 ^ t) by (apply Z.pow_pos_nonneg; lia).
  change (2 ^ 52) with 4503599627370496 in *.
  change (2 ^ 53) with 9007199254740992 in *.
  destruct (Z.lt_trichotomy g t) as [Hlt|[->|Hgt]].
  - exfalso. replace t with (g + (t - g)) in Heq by lia.
    rewrite Z.pow_add_r in Heq by lia.
    assert (H2 : 2 ^ 1 <= 2 ^ (t - g)) by (apply Z.pow_le_mono_r; lia).
    change (2 ^ 1) with 2 in H2.
    assert (Hm2 : m = m' * 2 ^ (t - g)).
    { apply Z.mul_cancel_r with (2 ^ g); [lia|]. rewrite Heq. ring. }
    assert (m' * 2 <= m' * 2 ^ (t - g))
      by (apply Z.mul_le_mono_nonneg_l; lia).
    lia.
  - split; [reflexivity|]. apply Z.mul_cancel_r with (2 ^ t); [lia|exact Heq].
  - exfalso. replace g with (t + (g - t)) in Heq by lia.
    rewrite Z.pow_add_r in Heq by lia.
    assert (H2 : 2 ^ 1 <= 2 ^ (g - t)) by (apply Z.pow_le_mono_r; lia).
    change (2 ^ 1) with 2 in H2.
    assert (Hm2 : m' = m * 2 ^ (g - t)).
    { apply Z.mul_cancel_r with (2 ^ t); [lia|]. rewrite <- Heq. ring. }
    assert (m * 2 <= m * 2 ^ (g - t))
      by (apply Z.mul_le_mono_nonneg_l; lia).
    lia.
Qed.

Lemma times_100_exact k :
  0 <= k < 2 ^ 31 -> PrimFloat.mul (Z2float k) 100 = Z2float (100 * k).
Proof.
  intros Hk. apply FloatAxioms.Prim2SF_inj.
  assert (H31 : 2 ^ 31 = 2147483648) by reflexivity.
  assert (H63 : 2 ^ 63 = 9223372036854775808) by reflexivity.
  rewrite FloatAxioms.mul_spec, !Binary64.Prim2SF_Z2float by lia.
  change (Prim2SF 100) with (S754_finite false 7036874417766400 (-46)).
  unfold SF64mul. change FloatOps.prec with 53.
  change FloatOps.emax with 1024.
  destruct k as [|p|p]; [reflexivity| |lia].
  change (100 * Zpos p) with (Zpos (100 * p)).
  pose proof (Binary64.digits_small p ltac:(lia)) as Hdp.
  destruct (Binary64.normalize_exact p _ eq_refl ltac:(lia))
    as (mk & -> & Hmk & Hmkb).
  set (dp := Zpos (digits2_pos p)) in *.
  assert (Hd' : Zpos (digits2_pos (100 * p)) <= 53).
  { pose proof (Binary64.digits2_pos_bounds (100 * p)) as Hb.
    destruct (Z_le_gt_dec (Zpos (digits2_pos (100 * p))) 53) as [|Hgt];
      [assumption|exfalso].
    assert (2 ^ 53 <= 2 ^ (Zpos (digits2_pos (100 * p)) - 1))
      by (apply Z.pow_le_mono_r; lia).
    change (2 ^ 53) with 9007199254740992 in *. lia. }
  destruct (Binary64.normalize_exact (100 * p) _ eq_refl Hd')
    as (m' & -> & Hm' & Hm'b).
  set (d' := Zpos (digits2_pos (100 * p))) in *.
  assert (Hd'0 : 0 < d') by (unfold d'; lia).
  assert (Hm100 : 2 ^ 52 <= Zpos 7036874417766400 < 2 ^ 53)
    by (split; [discriminate|reflexivity]).
  destruct (Binary64.mul_nearest mk (dp - 53) 7036874417766400 (-46)
              Hmkb Hm100 ltac:(lia))
    as (m & e & M & n & -> & Hmb & Hn & He & Hval & Hnear & _).
  set (g := e - (dp - 53 + -46)) in *.
  (* the product is a multiple of the unit of the result *)
  assert (Hprod : Zpos mk * 7036874417766400
                  = Zpos (100 * p) * 2 ^ (53 - dp + 46 - n) * 2 ^ n).
  { assert (Hpw : 2 ^ (53 - dp + 46 - n) * 2 ^ n = 2 ^ (53 - dp) * 2 ^ 46)
      by (rewrite <- !Z.pow_add_r by lia; f_equal; lia).
    rewrite <- Z.mul_assoc, Hpw, Hmk.
    change 7036874417766400 with (100 * 2 ^ 46).
    change (Zpos (100 * p)) with (100 * Zpos p). ring. }
  assert (Hn0 : 0 < 2 ^ n) by (apply Z.pow_pos_nonneg; lia).
  assert (HM : M = Zpos (100 * p) * 2 ^ (53 - dp + 46 - n)).
  { rewrite Hprod in Hnear.
    set (X := Zpos (100 * p) * 2 ^ (53 - dp + 46 - n)) in *.
    replace (2 * (M * 2 ^ n - X * 2 ^ n)) with (2 ^ n * (2 * (M - X)))
      in Hnear by ring.
    rewrite Z.abs_mul, (Z.abs_eq (2 ^ n)) in Hnear by lia.
    destruct (Z.eq_dec M X) as [|Hne]; [assumption|exfalso].
    assert (2 ^ n * 2 <= 2 ^ n * Z.abs (2 * (M - X)))
      by (apply Z.mul_le_mono_nonneg_l; lia).
    lia. }
  assert (Ht : 0 <= d' - dp + 46) by lia.
  assert (Hsame : Zpos m * 2 ^ g = Zpos m' * 2 ^ (d' - dp + 46)).
  { assert (Hpw : 2 ^ (53 - d') * 2 ^ (d' - dp + 46) = 2 ^ (53 - dp) * 2 ^ 46)
      by (rewrite <- !Z.pow_add_r by lia; f_equal; lia).
    rewrite Hval, HM, <- Hprod, Hmk, Hm', <- (Z.mul_assoc (Zpos (100 * p))),
      Hpw.
    change 7036874417766400 with (100 * 2 ^ 46).
    change (Zpos (100 * p)) with (100 * Zpos p). ring. }
  assert (Hg0 : 0 <= g) by (unfold g; lia).
  destruct (same_mantissa _ _ _ _ Hmb Hm'b Hg0 Ht Hsame) as [Hg Hmm].
  f_equal; [now apply Pos2Z.inj|]. lia.
Qed.

End Kobo.

Module KoboFacts.
Import Schema Fee PaystackButton.

(** X14: For a listing with 0 < price < 2^31 and 0 < total_rooms < 2^31
    the amount handed to Paystack is exactly 100 * floor(price / (100 *
    total_rooms) + 1/2), the reservation fee in kobo with no rounding
    error, in NGN and for the user's email; when the Paystack script is
    not loaded no payment is set up and the button stops loading. *)
Theorem paystack_is_asked_for_the_fee_in_kobo u prop :
  0 < price prop < 2 ^ 31 -> 0 < total_rooms prop < 2 ^ 31 ->
  pay_for true u prop
  = (true,
     Some (mkSetup (PropertyDetailPage.user_email u)
             (Z2float (100 * fee_exact (price prop) (total_rooms prop)))
             "NGN"))
  /\ pay_for false u prop = (false, None).
Proof.
  intros Hp Ht. split; [|reflexivity].
  unfold pay_for, handlePayment, PropertyDetailPage.dynamicReservationFee.
  cbn [negb].
  change (calculateReservationFee (Z2float (price prop))
            (Z2float (total_rooms prop)))
    with (fee_formula (price prop) (total_rooms prop)).
  rewrite Binary64.fee_formula_rounds_exactly by assumption.
  pose proof (ListingForm.fee_exact_bounds (price prop) (total_rooms prop)
                ltac:(lia) ltac:(lia)).
  rewrite Kobo.times_100_exact by lia. reflexivity.
Qed.

End KoboFacts.

(* ===================================================================== *)
(** * The form's stepper *)
(* ===================================================================== *)

Module Stepper.
Import MultiStepPropertyForm.

(** X15: Whatever sequence of Next and Back clicks the landlord makes, the
    step of the listing form stays between 0 and 5 and names one of its
    six steps. *)
Theorem stepper_stays_on_its_steps clicks :
  0 <= step_after clicks < Z.of_nat (List.length steps)
  /\ (exists label, nth_error steps (Z.to_nat (step_after clicks)) = Some label).
Proof.
  assert (H : forall s, 0 <= s <= 5 -> 0 <= fold_left click clicks s <= 5).
  { induction clicks as [|c clicks IH]; intros s Hs; cbn [fold_left];
      [exact Hs|].
    apply IH. destruct c; unfold click, handleNext, handleBack; cbn; lia. }
  specialize (H 0 ltac:(lia)). fold (step_after clicks) in H.
  split; [cbn; lia|].
  destruct (nth_error steps (Z.to_nat (step_after clicks))) as [l|] eqn:Hn;
    [now exists l|].
  apply nth_error_None in Hn. cbn in Hn. lia.
Qed.

End Stepper.

(* ===================================================================== *)
(** * Editing a listing *)
(* ===================================================================== *)

Module Editing.
Import Schema Supabase ReactHotToast LandlordDashboard LandlordListings.
Import Ledger LedgerFacts Fee.

Section AnyBackend.
Variable rpc : auth -> uuid -> list Property -> list Property.

(** X16: Opening an own listing for editing and saving the form unchanged
    succeeds and writes the row back with the same columns, except
    reservation_fee, which becomes floor(price / (100 * total_rooms) +
    1/2) whatever it was; the other rows and the reservations are
    untouched. (For a listing with images, 0 <= rooms_available <=
    total_rooms and price >= 50 * total_rooms, integers below 2^31.) *)
Theorem saving_an_unchanged_form u prop toasts db :
  filter (fun p => p_id p =? p_id prop) (properties db) = [prop] ->
  landlord_id prop = u ->
  0 < price prop < 2 ^ 31 -> 0 < total_rooms prop < 2 ^ 31 ->
  0 <= rooms_available prop <= total_rooms prop ->
  50 * total_rooms prop <= price prop ->
  images prop <> [] -> video_url prop <> Some EmptyString ->
  let res := run rpc (handleSubmit (Some u) (startEdit prop) (Some prop) toasts)
               (Some u) [] db in
  let row :=
    mkProperty (p_id prop) (title prop) (description prop) (location prop)
      (detailed_location prop) (rooms_available prop) (total_rooms prop)
      (price prop) (tier prop)
      (fee_exact (price prop) (total_rooms prop))
      (is_verified prop) (images prop) (video_url prop) (landlord_id prop) in
  fst res = toasts ++ [toast_success "Property updated successfully!"]
  /\ properties (snd res)
     = map (fun p => if p_id p =? p_id prop then row else p) (properties db)
  /\ reservations (snd res) = reservations db.
Proof.
  intros Hrow Hown Hp Ht Hr Hfee Himg Hvid res row.
  pose proof (ListingForm.fee_exact_bounds (price prop) (total_rooms prop)
                ltac:(lia) ltac:(lia)) as Hfb.
  pose proof (ListingForm.fee_exact_zero (price prop) (total_rooms prop)
                ltac:(lia) ltac:(lia)) as Hfz.
  assert (Hpos : 1 <= fee_exact (price prop) (total_rooms prop)).
  { destruct (Z.eq_dec (fee_exact (price prop) (total_rooms prop)) 0) as [H0|];
      [|lia]. apply Hfz in H0. lia. }
  assert (Hdata : forall x,
            apply_data (propertyData u (startEdit prop)) x
            = Some (mkProperty (p_id x) (title prop) (description prop)
                      (location prop) (detailed_location prop)
                      (rooms_available prop) (total_rooms prop) (price prop)
                      (tier prop) (fee_exact (price prop) (total_rooms prop))
                      (is_verified x) (images prop) (video_url prop) u)).
  { intros x. unfold apply_data, propertyData, startEdit.
    cbn [d_rooms_available d_total_rooms d_price d_reservation_fee d_title
         d_description d_location d_detailed_location d_tier d_images
         d_video_url d_landlord_id f_title f_description f_location
         f_detailed_location f_rooms_available f_total_rooms f_price f_tier
         f_images f_video_url].
    change (calculateReservationFee (Z2float (price prop))
              (Z2float (total_rooms prop)))
      with (fee_formula (price prop) (total_rooms prop)).
    rewrite Binary64.fee_formula_rounds_exactly by assumption.
    rewrite !ListingForm.to_integer_Z2float by lia.
    f_equal. f_equal.
    - destruct (images prop); [contradiction|reflexivity].
    - destruct (video_url prop) as [[|c v]|]; [contradiction|reflexivity..]. }
  assert (Hhit : forall x, In x (properties db) ->
            (p_id x =? p_id prop) && properties_write (Some u) x
            = (p_id x =? p_id prop)).
  { intros x Hx. destruct (p_id x =? p_id prop) eqn:Hid; [|reflexivity].
    rewrite (FullyBooked.the_row _ _ _ _ Hrow Hx Hid).
    unfold properties_write, uid_is. rewrite Hown. apply Z.eqb_refl. }
  subst res. unfold handleSubmit.
  cbn [run hd tl quiet before delivered perform_all fold_left exec].
  assert (H1 : forallb
                 (fun x => negb ((p_id x =? p_id prop)
                                 && properties_write (Some u) x)
                           || match apply_data (propertyData u (startEdit prop)) x
                              with Some _ => true | None => false end)
                 (properties db) = true).
  { apply forallb_forall. intros x _. rewrite Hdata. apply orb_true_r. }
  rewrite H1. unfold update_properties.
  assert (H2 : forallb
                 (fun p => negb ((p_id p =? p_id prop)
                                 && properties_write (Some u) p)
                           || properties_write (Some u)
                                match apply_data (propertyData u (startEdit prop)) p
                                with Some y => y | None => p end)
                 (properties db) = true).
  { apply forallb_forall. intros x _. rewrite Hdata.
    unfold properties_write at 2. cbn [landlord_id uid_is].
    rewrite Z.eqb_refl. apply orb_true_r. }
  rewrite H2.
  assert (H3 : forallb
                 (fun p => negb ((p_id p =? p_id prop)
                                 && properties_write (Some u) p)
                           || properties_checks
                                match apply_data (propertyData u (startEdit prop)) p
                                with Some y => y | None => p end)
                 (properties db) = true).
  { apply forallb_forall. intros x _. rewrite Hdata.
    unfold properties_checks, valid_room_count, valid_price,
      valid_reservation_fee.
    cbn [rooms_available total_rooms price reservation_fee].
    assert (E1 : (rooms_available prop <=? total_rooms prop) = true)
      by (apply Z.leb_le; lia).
    assert (E2 : (rooms_available prop >=? 0) = true) by (apply Z.geb_le; lia).
    assert (E3 : (price prop >? 0) = true) by (apply Z.gtb_lt; lia).
    assert (E4 : (fee_exact (price prop) (total_rooms prop) >? 0) = true)
      by (apply Z.gtb_lt; lia).
    rewrite E1, E2, E3, E4. apply orb_true_r. }
  rewrite H3. cbn [Supabase.error ok fst snd set_properties properties
                   reservations].
  split; [reflexivity|]. split; [|reflexivity].
  apply map_ext_in. intros x Hx. rewrite (Hhit x Hx), Hdata.
  destruct (p_id x =? p_id prop) eqn:Hid; [|reflexivity].
  rewrite (FullyBooked.the_row _ _ _ _ Hrow Hx Hid). unfold row.
  now rewrite Hown.
Qed.

End AnyBackend.
End Editing.

(* ===================================================================== *)
(** * The retry loops *)
(* ===================================================================== *)

Module Retrying.
Import Schema Supabase Queries Connection.


Section AnyBackend.
Variable rpc : auth -> uuid -> list Property -> list Property.

Lemma exec_keeps_users {R} who (q : Request R) db :
  users (snd (exec rpc who q db)) = users db.
Proof.
  destruct q; cbn [exec]; try reflexivity.
  - destruct (negb _); [reflexivity|]. destruct (negb _); [reflexivity|].
    destruct (existsb _ _); [reflexivity|].
    destruct (handle_reservation_insert _ _ _); reflexivity.
  - destruct (update_properties _ _ _ _); reflexivity.
  - destruct (forallb _ _); reflexivity.
  - destruct (fire_update_triggers _ _ _ _); reflexivity.
  - destruct (forallb _ _); [|reflexivity].
    destruct (update_properties _ _ _ _); reflexivity.
  - destruct (apply_data _ _); [|reflexivity].
    destruct (negb _); [reflexivity|]. destruct (negb _); reflexivity.
Qed.

Lemma perform_all_keeps_users acts : forall db,
  users (perform_all rpc acts db) = users db.
Proof.
  induction acts as [|[w R q] acts IH]; intros db; cbn; [reflexivity|].
  unfold perform_all in IH. rewrite IH. apply exec_keeps_users.
Qed.

(** X18: fetchProfileWithRetry always ends with loading false and after at
    most three requests, whichever of them fail and whatever other
    sessions write meanwhile; a profile it sets is a row of users with the
    requested id. *)
Theorem profile_fetch_gives_up_after_three_tries userId a who sched db :
  let fetch := AuthContext.fetchProfileWithRetry userId a in
  let res := run_script rpc fetch who sched db in
  AuthContext.loading (fst res) = false
  /\ (asked rpc fetch who sched db <= 3)%nat
  /\ (forall row, AuthContext.profile (fst res) = Some row ->
        u_id row = userId /\ In row (users db)).
Proof.
  cbv zeta. unfold AuthContext.fetchProfileWithRetry.
  change (Z.to_nat AuthContext.maxRetries) with 3%nat.
  assert (Hans : forall d row, users d = users db ->
            data (answer who (SelectProfile userId) d) = Some row ->
            u_id row = userId /\ In row (users db)).
  { intros d row Hd Hrow. cbn [answer] in Hrow. rewrite Hd in Hrow.
    destruct (filter _ (users db)) as [|x [|y l]] eqn:Hf; cbn in Hrow;
      try discriminate.
    injection Hrow as <-.
    assert (Hin : In x (filter (fun u => users_select who u && (u_id u =? userId))
                          (users db))) by (rewrite Hf; now left).
    apply filter_In in Hin. destruct Hin as [Hin Hc].
    apply andb_prop in Hc. destruct Hc as [_ Hid]. apply Z.eqb_eq in Hid.
    now split. }
  assert (Hone : forall i rest d s,
            users d = users db ->
            ((i =? AuthContext.maxRetries - 1) = false ->
             forall d' s', users d' = users db ->
               AuthContext.loading (fst (run_script rpc rest who s' d')) = false
               /\ (forall row,
                     AuthContext.profile (fst (run_script rpc rest who s' d')) = Some row ->
                     u_id row = userId /\ In row (users db))) ->
            let p := (ask fetched := SelectProfile userId in
                      match Supabase.error fetched with
                      | Some not_a_single_row => Done (AuthContext.mkAuth None false)
                      | Some _ =>
                          if i =? AuthContext.maxRetries - 1
                          then Done (AuthContext.mkAuth None false)
                          else Sleep (1000 * (i + 1)) rest
                      | None => Done (AuthContext.mkAuth (data fetched) false)
                      end)%script in
            AuthContext.loading (fst (run_script rpc p who s d)) = false
            /\ (forall row,
                  AuthContext.profile (fst (run_script rpc p who s d)) = Some row ->
                  u_id row = userId /\ In row (users db))).
  { intros i rest d s Hd Hrest p. subst p. cbn [run_script].
    set (d1 := perform_all rpc (before (hd quiet s)) d).
    assert (Hd1 : users d1 = users db)
      by (unfold d1; now rewrite perform_all_keeps_users).
    destruct (delivered (hd quiet s)).
    - destruct (Supabase.error (answer who (SelectProfile userId) d1))
        as [e|] eqn:He.
      + destruct e; try (split; [reflexivity|discriminate]);
          (destruct (i =? AuthContext.maxRetries - 1);
           [split; [reflexivity|discriminate]
           |cbn [run_script]; now apply (Hrest eq_refl)]).
      + cbn [run_script fst AuthContext.loading AuthContext.profile]. split; [reflexivity|].
        intros row. now apply Hans.
    - cbn [Supabase.error failed].
      destruct (i =? AuthContext.maxRetries - 1);
        [split; [reflexivity|discriminate]
        |cbn [run_script]; now apply (Hrest eq_refl)]. }
  split; [|split].
  - cbn [AuthContext.fetchProfile_from]. change (0 <? AuthContext.maxRetries) with true.
    change (0 + 1 <? AuthContext.maxRetries) with true.
    change (0 + 1 + 1 <? AuthContext.maxRetries) with true. cbv iota.
    apply (Hone 0); [reflexivity|]. intros _ d1 s1 Hd1.
    apply (Hone (0 + 1)); [exact Hd1|]. intros _ d2 s2 Hd2.
    apply (Hone (0 + 1 + 1)); [exact Hd2|]. intros Habs. discriminate.
  - cbn [AuthContext.fetchProfile_from]. change (0 <? AuthContext.maxRetries) with true.
    change (0 + 1 <? AuthContext.maxRetries) with true.
    change (0 + 1 + 1 <? AuthContext.maxRetries) with true. cbv iota.
    change (0 =? AuthContext.maxRetries - 1) with false.
    change (0 + 1 =? AuthContext.maxRetries - 1) with false.
    change (0 + 1 + 1 =? AuthContext.maxRetries - 1) with true. cbv iota.
    repeat (cbn [asked Supabase.error failed];
            match goal with
            | |- context [if delivered ?t then _ else _] =>
                destruct (delivered t)
            | |- context [match Supabase.error ?r with _ => _ end] =>
                destruct (Supabase.error r) as [[]|]
            end); cbn [asked Supabase.error failed]; lia.
  - cbn [AuthContext.fetchProfile_from]. change (0 <? AuthContext.maxRetries) with true.
    change (0 + 1 <? AuthContext.maxRetries) with true.
    change (0 + 1 + 1 <? AuthContext.maxRetries) with true. cbv iota.
    apply (Hone 0); [reflexivity|]. intros _ d1 s1 Hd1.
    apply (Hone (0 + 1)); [exact Hd1|]. intros _ d2 s2 Hd2.
    apply (Hone (0 + 1 + 1)); [exact Hd2|]. intros Habs. discriminate.
Qed.

End AnyBackend.
End Retrying.

(* ===================================================================== *)
(** * The Explore page *)
(* ===================================================================== *)

Module Exploring.
Import Schema Supabase ReactHotToast Queries.

Lemma has_Set_of ids : forall seen x,
  ExplorePage.has (ExplorePage.Set_of ids seen) x
  = existsb (Z.eqb x) ids && negb (existsb (Z.eqb x) seen).
Proof.
  unfold ExplorePage.has.
  induction ids as [|y ids IH]; intros seen x; cbn [ExplorePage.Set_of existsb];
    [reflexivity|].
  destruct (existsb (Z.eqb y) seen) eqn:Hy.
  - rewrite IH. destruct (x =? y) eqn:Hxy; [|reflexivity].
    apply Z.eqb_eq in Hxy. subst y. rewrite Hy.
    cbn. now rewrite andb_false_r.
  - cbn [existsb]. rewrite IH. cbn [existsb].
    destruct (x =? y) eqn:Hxy.
    + apply Z.eqb_eq in Hxy. subst y. rewrite Hy. reflexivity.
    + cbn [orb]. reflexivity.
Qed.

Lemma Set_of_NoDup ids : forall seen,
  NoDup (ExplorePage.Set_of ids seen)
  /\ forall x, In x (ExplorePage.Set_of ids seen) -> existsb (Z.eqb x) seen = false.
Proof.
  induction ids as [|y ids IH]; intros seen; cbn [ExplorePage.Set_of].
  - split; [constructor|]. intros x [].
  - destruct (existsb (Z.eqb y) seen) eqn:Hy; [apply IH|].
    destruct (IH (y :: seen)) as [Hnd Hout]. split.
    + constructor; [|exact Hnd]. intros Hin. apply Hout in Hin.
      cbn [existsb] in Hin. now rewrite Z.eqb_refl in Hin.
    + intros x [<-|Hin]; [exact Hy|]. apply Hout in Hin.
      cbn [existsb] in Hin. apply orb_false_iff in Hin. apply Hin.
Qed.

Section AnyBackend.
Variable rpc : auth -> uuid -> list Property -> list Property.
Variable message : PgError -> string.
Variable toLowerCase : string -> string.
Variable parseInt : string -> float.

(** X19: fetchProperties of the Explore page always ends with loading
    false, whichever requests fail and whatever other sessions write
    meanwhile; when it ends without an error message the list is not empty
    and holds only verified properties with rooms available; when it ends
    with one, the list is empty or the one the page had. *)
Theorem explore_lists_only_what_can_be_booked who sched db c :
  let res := fst (run_script rpc (ExplorePage.fetchProperties message c)
                    who sched db) in
  ExplorePage.loading res = false
  /\ (ExplorePage.error res = None ->
        ExplorePage.properties res <> []
        /\ forall p, In p (ExplorePage.properties res) ->
             is_verified p = true /\ 0 < rooms_available p)
  /\ (ExplorePage.error res <> None ->
        ExplorePage.properties res = []
        \/ ExplorePage.properties res = ExplorePage.properties c).
Proof.
  cbv zeta. unfold ExplorePage.fetchProperties. cbn [run_script].
  set (d1 := perform_all rpc (before (hd quiet sched)) db).
  destruct (delivered (hd quiet sched));
    [|cbn; repeat split; try discriminate; auto].
  cbn [answer Supabase.error Supabase.data ok].
  destruct (newest_first (filter (properties_select who) (properties d1)))
    as [|p0 all]; [cbn; repeat split; try discriminate; auto|].
  cbn [run_script].
  set (d2 := perform_all rpc (before (hd quiet (tl sched))) d1).
  destruct (delivered (hd quiet (tl sched)));
    [|cbn; repeat split; try discriminate; auto].
  cbn [answer Supabase.error Supabase.data ok].
  destruct (newest_first _) as [|q0 shown] eqn:Hshown;
    [cbn; repeat split; try discriminate; auto|].
  cbn [run_script fst ExplorePage.setLoading ExplorePage.setError ExplorePage.setProperties ExplorePage.loading
         ExplorePage.error ExplorePage.properties].
  split; [reflexivity|]. split; [|intros H; now elim H].
  intros _. split; [discriminate|]. intros p Hp. rewrite <- Hshown in Hp.
  unfold newest_first in Hp. apply in_rev in Hp. apply filter_In in Hp.
  destruct Hp as [_ Hp]. apply andb_prop in Hp. destruct Hp as [Hp Hr].
  apply andb_prop in Hp. destruct Hp as [_ Hv]. split; [exact Hv|].
  apply Z.gtb_lt in Hr. lia.
Qed.

(** X20: When its request is answered, fetchUnlockedProperties marks
    exactly the properties on which the signed-in student holds a
    reservation with unlock_granted, each once; when the request fails the
    marks stay as they were. *)
Theorem unlock_badges_match_the_ledger u sched db c :
  let res := run_script rpc (ExplorePage.fetchUnlockedProperties (Some u) c)
               (Some (PropertyDetailPage.uid u)) sched db in
  if delivered (hd quiet sched)
  then NoDup (ExplorePage.unlockedProperties (fst res))
       /\ forall pid,
            ExplorePage.has (ExplorePage.unlockedProperties (fst res)) pid
            = existsb (fun r => (student_id r =? PropertyDetailPage.uid u)
                                && (property_id r =? pid) && unlock_granted r)
                (reservations (snd res))
  else ExplorePage.unlockedProperties (fst res)
       = ExplorePage.unlockedProperties c.
Proof.
  cbv zeta. unfold ExplorePage.fetchUnlockedProperties. cbn [run_script].
  set (d1 := perform_all rpc (before (hd quiet sched)) db).
  destruct (delivered (hd quiet sched)); [|reflexivity].
  cbn [answer Supabase.error Supabase.data ok run_script fst snd
         ExplorePage.setUnlockedProperties ExplorePage.unlockedProperties].
  split; [apply Set_of_NoDup|].
  intros pid. rewrite has_Set_of. cbn [existsb negb]. rewrite andb_true_r.
  induction (reservations d1) as [|r rs IH]; [reflexivity|].
  cbn [filter existsb].
  change (reservations_policy (Some (PropertyDetailPage.uid u)) r)
    with (PropertyDetailPage.uid u =? student_id r).
  rewrite (Z.eqb_sym (PropertyDetailPage.uid u) (student_id r)).
  destruct (student_id r =? PropertyDetailPage.uid u); cbn [andb];
    [|exact IH].
  destruct (unlock_granted r); cbn [andb map existsb].
  - rewrite IH. rewrite (Z.eqb_sym pid). rewrite andb_true_r. reflexivity.
  - rewrite IH. now rewrite andb_false_r.
Qed.

(** X21: After clearAllFilters every loaded property passes
    filteredProperties, no filter counts as active and the filter panel is
    closed (toLowerCase is only assumed to keep the empty string). *)
Theorem clearing_the_filters_shows_everything c :
  toLowerCase EmptyString = EmptyString ->
  ExplorePage.filteredProperties toLowerCase parseInt
    (ExplorePage.clearAllFilters c)
  = ExplorePage.properties c
  /\ ExplorePage.activeFiltersCount (ExplorePage.clearAllFilters c) = 0%nat
  /\ ExplorePage.showFilters (ExplorePage.clearAllFilters c) = false.
Proof.
  intros Hlow. split; [|split; reflexivity].
  assert (Hinc : forall s, JsString.includes s EmptyString = true).
  { intros s. unfold JsString.includes. destruct s; reflexivity. }
  assert (Hall : forall p,
            ExplorePage.matches toLowerCase parseInt (ExplorePage.clearAllFilters c) p = true).
  { intros p. unfold ExplorePage.matches, ExplorePage.clearAllFilters.
    cbn [ExplorePage.searchTerm ExplorePage.selectedLocation ExplorePage.selectedTier ExplorePage.priceRange_min
           ExplorePage.priceRange_max PropertyDetailPage.nonempty negb orb andb].
    rewrite Hlow, Hinc. reflexivity. }
  unfold ExplorePage.filteredProperties.
  change (ExplorePage.properties (ExplorePage.clearAllFilters c)) with (ExplorePage.properties c).
  induction (ExplorePage.properties c) as [|p ps IH]; [reflexivity|].
  cbn [filter]. now rewrite Hall, IH.
Qed.

End AnyBackend.
End Exploring.

(* ===================================================================== *)
(** * The lists of the two dashboards *)
(* ===================================================================== *)

Module Dashboards.
Import Schema Supabase ReactHotToast Queries.

Lemma apply_data_title d old y :
  apply_data d old = Some y -> title y = d_title d.
Proof.
  unfold apply_data.
  destruct (d_rooms_available d), (d_total_rooms d), (d_price d),
    (d_reservation_fee d); try discriminate.
  intros H. injection H as <-. reflexivity.
Qed.

Section AnyBackend.
Variable rpc : auth -> uuid -> list Property -> list Property.

Lemma contact_answer who id d db contact :
  users d = users db ->
  data (answer who (SelectContact id) d) = Some contact ->
  exists l, In l (users db) /\ u_id l = id /\ contact = contact_columns l.
Proof.
  intros Hd Hrow. cbn [answer] in Hrow. rewrite Hd in Hrow.
  destruct (filter _ (users db)) as [|x [|y l]] eqn:Hf; cbn in Hrow;
    try discriminate.
  injection Hrow as <-.
  assert (Hin : In x (filter (fun u => users_select who u && (u_id u =? id))
                        (users db))) by (rewrite Hf; now left).
  apply filter_In in Hin. destruct Hin as [Hin Hc].
  apply andb_prop in Hc. destruct Hc as [_ Hid]. apply Z.eqb_eq in Hid.
  exists x. auto.
Qed.

Lemma with_landlords_run {A} who db0 data : forall (k : list StudentReservations.Row -> Script A)
    sched db,
  users db = users db0 ->
  exists rows sched' db',
    run_script rpc (StudentReservations.with_landlords data k) who sched db
    = run_script rpc (k rows) who sched' db'
    /\ users db' = users db0
    /\ map StudentReservations.booking rows = data
    /\ Forall (StudentReservations.contact_of_landlord db0) rows
    /\ (sched = [] -> sched' = [] /\ db' = db).
Proof.
  induction data as [|b data IH]; intros k sched db Hd; cbn [StudentReservations.with_landlords].
  - exists [], sched, db. repeat split; auto.
  - destruct (b_properties b) as [p|] eqn:Hp.
    + cbn [run_script].
      set (d1 := perform_all rpc (before (hd quiet sched)) db).
      assert (Hd1 : users d1 = users db0)
        by (unfold d1; rewrite Retrying.perform_all_keeps_users; exact Hd).
      set (r := if delivered (hd quiet sched)
                then answer who (SelectContact (li_landlord_id p)) d1
                else failed fetch_failed).
      assert (Hr : StudentReservations.contact_of_landlord db0 (StudentReservations.mkRow b (Supabase.data r))).
      { intros contact Hc. cbn [StudentReservations.landlords StudentReservations.booking] in *.
        exists p. unfold r in Hc. destruct (delivered (hd quiet sched)).
        - destruct (contact_answer _ _ _ _ _ Hd1 Hc) as (l & Hl & Hid & ->).
          exists l. auto.
        - discriminate. }
      destruct (IH (fun rows => k (StudentReservations.mkRow b (Supabase.data r) :: rows))
                  (tl sched) d1 Hd1)
        as (rows & sched' & db' & Hrun & Hu & Hmap & Hall & Hq).
      exists (StudentReservations.mkRow b (Supabase.data r) :: rows), sched', db'.
      split; [|split; [exact Hu|split; [|split]]].
      * unfold r. destruct (delivered (hd quiet sched)); exact Hrun.
      * cbn [map StudentReservations.booking]. now rewrite Hmap.
      * constructor; assumption.
      * intros ->. destruct (Hq eq_refl) as [-> ->]. split; reflexivity.
    + destruct (IH (fun rows => k (StudentReservations.mkRow b None :: rows)) sched db Hd)
        as (rows & sched' & db' & Hrun & Hu & Hmap & Hall & Hq).
      exists (StudentReservations.mkRow b None :: rows), sched', db'.
      split; [exact Hrun|]. split; [exact Hu|]. split; [|split].
      * cbn [map StudentReservations.booking]. now rewrite Hmap.
      * constructor; [|assumption]. intros contact Hc. discriminate.
      * exact Hq.
Qed.

(** X22: fetchReservations always ends with loading false; the rows it
    shows are those the page had (the request failed) or reservations of
    the signed-in student, and a landlord contact on a row is the name,
    email and phone of the user who owns the reserved property; when
    nothing fails and no other session writes, the rows are all of the
    student's reservations, newest first. *)
Theorem student_dashboard_lists_own_reservations u sched db c :
  let who := Some (PropertyDetailPage.uid u) in
  let shown s :=
    fst (run_script rpc (StudentReservations.fetchReservations (Some u) c)
           who s db) in
  StudentReservations.loading (shown sched) = false
  /\ (StudentReservations.reservations (shown sched)
      = StudentReservations.reservations c
      \/ Forall (fun row =>
                   student_id (b_reservation (StudentReservations.booking row))
                   = PropertyDetailPage.uid u
                   /\ StudentReservations.contact_of_landlord db row)
           (StudentReservations.reservations (shown sched)))
  /\ map (fun row => b_reservation (StudentReservations.booking row))
       (StudentReservations.reservations (shown []))
     = rev (filter (fun r => student_id r =? PropertyDetailPage.uid u)
              (reservations db)).
Proof.
  cbv zeta. unfold StudentReservations.fetchReservations.
  assert (Hmine : forall d,
            filter (fun r => reservations_policy
                               (Some (PropertyDetailPage.uid u)) r
                             && (student_id r =? PropertyDetailPage.uid u))
              (reservations d)
            = filter (fun r => student_id r =? PropertyDetailPage.uid u)
                (reservations d)).
  { intros d. apply filter_ext. intros r. unfold reservations_policy, uid_is.
    rewrite (Z.eqb_sym (PropertyDetailPage.uid u)). apply andb_diag. }
  split; [|split].
  - cbn [run_script].
    set (d1 := perform_all rpc (before (hd quiet sched)) db).
    destruct (delivered (hd quiet sched)); [|reflexivity].
    cbn [answer Supabase.error Supabase.data ok].
    match goal with
    | |- context [StudentReservations.with_landlords ?data ?k] =>
        destruct (with_landlords_run (Some (PropertyDetailPage.uid u)) db
                    data k (tl sched) d1)
          as (rows & sched' & db' & -> & _)
    end.
    + unfold d1. now rewrite Retrying.perform_all_keeps_users.
    + reflexivity.
  - cbn [run_script].
    set (d1 := perform_all rpc (before (hd quiet sched)) db).
    destruct (delivered (hd quiet sched)); [|left; reflexivity].
    cbn [answer Supabase.error Supabase.data ok]. right.
    match goal with
    | |- context [StudentReservations.with_landlords ?data ?k] =>
        destruct (with_landlords_run (Some (PropertyDetailPage.uid u)) db
                    data k (tl sched) d1)
          as (rows & sched' & db' & -> & _ & Hmap & Hall & _)
    end.
    + unfold d1. now rewrite Retrying.perform_all_keeps_users.
    + cbn [run_script fst StudentReservations.reservations].
      apply Forall_forall. intros row Hrow. split.
      * assert (Hin : In (StudentReservations.booking row) (map StudentReservations.booking rows))
          by now apply in_map.
        rewrite Hmap in Hin. unfold newest_first in Hin.
        apply in_rev in Hin. apply in_map_iff in Hin.
        destruct Hin as (r & <- & Hr). cbn [b_reservation].
        rewrite Hmine in Hr. apply filter_In in Hr.
        now apply Z.eqb_eq.
      * rewrite Forall_forall in Hall. now apply Hall.
  - cbn [run_script hd tl quiet before delivered perform_all fold_left].
    cbn [answer Supabase.error Supabase.data ok].
    match goal with
    | |- context [StudentReservations.with_landlords ?data ?k] =>
        destruct (with_landlords_run (Some (PropertyDetailPage.uid u)) db
                    data k [] db eq_refl)
          as (rows & sched' & db' & -> & _ & Hmap & _ & _)
    end.
    cbn [run_script fst StudentReservations.reservations].
    rewrite <- (map_map StudentReservations.booking b_reservation), Hmap.
    unfold newest_first. rewrite map_rev, map_map. cbn [b_reservation].
    rewrite map_id, Hmine. reflexivity.
Qed.

Lemma listed_is_own u c db :
  LandlordProperties.listed rpc u c db = rev (filter (fun p => landlord_id p =? u) (properties db)).
Proof.
  unfold LandlordProperties.listed, LandlordProperties.fetchProperties.
  cbn [run_script hd tl quiet before delivered perform_all fold_left].
  cbn. reflexivity.
Qed.

(** X23: Saving a new listing either fails with 'Failed to save property'
    and the landlord's reloaded list is as before, or succeeds and the
    reloaded list is the former one with the new row on top, which carries
    the form's title, is unverified and has an id no other property had.
    *)
Theorem a_saved_listing_tops_the_dashboard u formData toasts db c :
  let saved := run rpc (LandlordDashboard.handleSubmit (Some u) formData None
                          toasts) (Some u) [] db in
  (fst saved = toasts ++ [toast_error "Failed to save property"]
   /\ LandlordProperties.listed rpc u c (snd saved)
      = LandlordProperties.listed rpc u c db)
  \/ (fst saved
      = toasts ++ [toast_success
                     "Property added successfully! It will be reviewed for verification."]
      /\ exists row,
           LandlordProperties.listed rpc u c (snd saved)
           = row :: LandlordProperties.listed rpc u c db
           /\ title row = LandlordDashboard.f_title formData
           /\ is_verified row = false
           /\ ~ In (p_id row) (map p_id (properties db))).
Proof.
  cbv zeta. rewrite !listed_is_own. unfold LandlordDashboard.handleSubmit.
  cbn [run hd tl quiet before delivered perform_all fold_left exec].
  match goal with
  | |- context [apply_data ?d ?b] =>
      destruct (apply_data d b) as [row|] eqn:Ha
  end; [|left; split; reflexivity].
  destruct (properties_write (Some u) row) eqn:Hw;
    [|left; split; reflexivity].
  destruct (properties_checks row); [|left; split; reflexivity].
  right. split; [reflexivity|]. exists row.
  cbn [negb snd set_properties properties Supabase.error ok run].
  destruct (ListingForm.apply_data_keeps _ _ _ Ha) as (Hid & Hv & Hl).
  assert (Ht : title row = LandlordDashboard.f_title formData)
    by exact (apply_data_title _ _ _ Ha).
  cbn [p_id is_verified LandlordDashboard.propertyData d_landlord_id]
    in Hid, Hv, Hl.
  split; [|split; [|split]].
  - rewrite filter_app, rev_app_distr. cbn [filter].
    rewrite Hl, Z.eqb_refl. reflexivity.
  - exact Ht.
  - exact Hv.
  - rewrite Hid. apply LedgerKeys.gen_random_uuid_fresh.
Qed.

(** X24: After handleDeleteProperty the landlord's reloaded list is the
    former list without the listing of that id, and every property of
    another landlord is still in the table. *)
Theorem a_deleted_listing_leaves_the_dashboard u id toasts db c :
  let deleted := run rpc (LandlordListings.handleDelete true id toasts)
                   (Some u) [] db in
  LandlordProperties.listed rpc u c (snd deleted)
  = filter (fun p => negb (p_id p =? id))
      (LandlordProperties.listed rpc u c db)
  /\ forall p, In p (properties db) -> landlord_id p <> u ->
       In p (properties (snd deleted)).
Proof.
  cbv zeta. rewrite !listed_is_own. unfold LandlordListings.handleDelete.
  cbn [negb run hd tl quiet before delivered perform_all fold_left exec
         Supabase.error ok snd properties]. split.
  - rewrite filter_rev. f_equal.
    induction (properties db) as [|p ps IH]; [reflexivity|].
    cbn [filter].
    change (properties_write (Some u) p) with (u =? landlord_id p).
    rewrite (Z.eqb_sym u (landlord_id p)).
    destruct (p_id p =? id) eqn:Hi, (landlord_id p =? u) eqn:Hl;
      cbn [andb negb filter]; rewrite ?Hi, ?Hl; cbn [negb filter];
      rewrite ?Hi, ?Hl; cbn [negb]; rewrite IH; reflexivity.
  - intros p Hp Hne. apply filter_In. split; [exact Hp|].
    unfold properties_write, uid_is.
    destruct (u =? landlord_id p) eqn:Hl;
      [apply Z.eqb_eq in Hl; congruence|].
    now rewrite andb_false_r.
Qed.

End AnyBackend.
End Dashboards.

(* ===================================================================== *)
(** * Listings nobody reviewed *)
(* ===================================================================== *)

Module Unreviewed.
Import Schema Supabase ReactHotToast Queries.

Section AnyBackend.
Variable rpc : auth -> uuid -> list Property -> list Property.
Variable message : PgError -> string.

(** X25: Any signed-in account that has a profile row, a student's
    included, can publish a listing that is verified without any review:
    when nothing fails, createSampleProperty inserts its sample row with
    is_verified true for the caller, and the Explore page it reloads shows
    that row first, without an error message. *)
Theorem any_account_can_publish_a_verified_listing u c db :
  existsb (fun x => u_id x =? PropertyDetailPage.uid u) (users db) = true ->
  let res := ExplorePage.createSampleProperty rpc message (Some u) c
               (Some (PropertyDetailPage.uid u)) [] db in
  let row := ExplorePage.sampleProperty (PropertyDetailPage.uid u)
               (gen_random_uuid (map p_id (properties db))) in
  snd res = set_properties (properties db ++ [row]) db
  /\ is_verified row = true
  /\ ExplorePage.properties (fst res)
     = row :: rev (filter (fun p => is_verified p && (rooms_available p >? 0))
                     (properties db))
  /\ ExplorePage.error (fst res) = None
  /\ ExplorePage.loading (fst res) = false
  /\ In (toast_success "Sample property created successfully!")
        (ExplorePage.toasts (fst res)).
Proof.
  intros Hprofile. cbv zeta. unfold ExplorePage.createSampleProperty.
  cbn [hd tl quiet before delivered perform_all fold_left].
  unfold ExplorePage.insert_sampleProperty.
  set (row := ExplorePage.sampleProperty (PropertyDetailPage.uid u)
                (gen_random_uuid (map p_id (properties db)))).
  change (properties_write (Some (PropertyDetailPage.uid u)) row)
    with (PropertyDetailPage.uid u =? PropertyDetailPage.uid u).
  rewrite Z.eqb_refl, Hprofile.
  change (properties_checks row) with true.
  cbn [negb Supabase.error ok].
  unfold ExplorePage.fetchProperties.
  cbn [run_script hd tl quiet before delivered perform_all fold_left answer
         Supabase.error Supabase.data ok set_properties properties].
  unfold newest_first.
  rewrite (filter_app (properties_select _)), rev_app_distr.
  cbn [filter properties_select rev app].
  cbn [run_script hd tl quiet before delivered perform_all fold_left answer
         Supabase.error Supabase.data ok set_properties properties].
  unfold newest_first. rewrite filter_app, rev_app_distr.
  cbn [filter properties_select rev app andb].
  change (is_verified row) with true.
  change (rooms_available row >? 0) with true.
  cbn [andb rev app run_script fst snd ExplorePage.setLoading
         ExplorePage.setError ExplorePage.setProperties ExplorePage.show
         ExplorePage.properties ExplorePage.error ExplorePage.loading
         ExplorePage.toasts].
  repeat split.
  apply in_or_app. right. now left.
Qed.

End AnyBackend.
End Unreviewed.

(* ===================================================================== *)
(** * The theorems above on the sample data *)
(* ===================================================================== *)

Module Instances.
Import Schema Supabase ReactHotToast PropertyDetailPage Sample Cases Ledger.

Lemma unverified_listing_visibility_witness :
  (filter (fun p => p_id p =? 11) (properties (with_annex [])) = [annex]
   /\ is_verified annex = false)
  /\ render (fst (run rpc_undefined (fetchProperty (mount 11 None None))
                    None [] (with_annex [])))
     = ErrorScreen "Property not found or not available".
Proof.
  split; [split; reflexivity|].
  apply (ListingPage.unverified_listing_visibility rpc_undefined 11 annex
           (with_annex [])); reflexivity.
Defined.

Lemma refund_keeps_the_unlock_witness :
  let db := seeded 3 [paid_by 7 ada] in
  (ledger_keys db
   /\ In (paid_by 7 ada) (reservations db)
   /\ filter (fun p => p_id p =? 10) (properties db) = [lasu_flat 3])
  /\ isUnlocked
       (fst (run rpc_undefined
               (fetchProperty (mount 10 (Some ada_signed_in) (Some ada)))
               (Some 2) []
               (snd (run rpc_undefined
                       (StudentDashboard.requestRefund true 7 [])
                       (Some 2) [] db)))) = true.
Proof.
  cbv zeta.
  assert (Hkeys : ledger_keys (seeded 3 [paid_by 7 ada])).
  { split; (constructor; [intros []|constructor]). }
  split; [split; [exact Hkeys|split; [now left|reflexivity]]|].
  apply (AfterRefund.refund_keeps_the_unlock rpc_undefined ada_signed_in
           (Some ada) 10 7 (paid_by 7 ada) (lasu_flat 3) []
           (seeded 3 [paid_by 7 ada]));
    try reflexivity; [exact Hkeys|now left].
Defined.

Lemma paying_again_after_a_refund_witness :
  let db := seeded 3 [paid_by 7 ada] in
  let c := opened ada db in
  let db' := snd (run rpc_undefined (StudentDashboard.requestRefund true 7 [])
                    (Some 2) [] db) in
  (ledger_keys db /\ user c = Some ada_signed_in
   /\ property c = Some (lasu_flat 3))
  /\ run rpc_undefined (handlePaymentSuccess c) (Some 2) [] db'
     = (setPaymentLoading false
          (setIsUnlocked true
             (show (toast already_unlocked) (setPaymentLoading true c))), db').
Proof.
  cbv zeta.
  assert (Hkeys : ledger_keys (seeded 3 [paid_by 7 ada])).
  { split; (constructor; [intros []|constructor]). }
  split; [split; [exact Hkeys|split; reflexivity]|].
  apply (AfterRefund.paying_again_after_a_refund rpc_undefined
           (opened ada (seeded 3 [paid_by 7 ada])) ada_signed_in (lasu_flat 3)
           7 (paid_by 7 ada) [] (seeded 3 [paid_by 7 ada]));
    try reflexivity; [exact Hkeys|now left].
Defined.



Lemma delete_of_a_listing_one_does_not_own_witness :
  (forall p, In p (properties (seeded 3 [])) -> p_id p = 10 ->
     properties_write (Some 2) p = false)
  /\ run rpc_undefined (LandlordListings.handleDelete true 10 []) (Some 2) []
       (seeded 3 [])
     = ([toast_success "Property deleted successfully!"], seeded 3 []).
Proof.
  assert (H : forall p, In p (properties (seeded 3 [])) -> p_id p = 10 ->
                properties_write (Some 2) p = false).
  { intros p [<-|[]] _. reflexivity. }
  split; [exact H|].
  exact (Deleting.delete_of_a_listing_one_does_not_own rpc_undefined (Some 2)
           10 [] (seeded 3 []) H).
Defined.

Lemma delete_of_an_own_listing_witness :
  let db := seeded 3 [paid_by 7 ada] in
  let res := run rpc_undefined (LandlordListings.handleDelete true 10 [])
               (Some 1) [] db in
  (filter (fun p => p_id p =? 10) (properties db) = [lasu_flat 3]
   /\ landlord_id (lasu_flat 3) = 1)
  /\ fst res = [toast_success "Property deleted successfully!"]
  /\ properties (snd res)
     = filter (fun p => negb (p_id p =? 10)) (properties db)
  /\ reservations (snd res)
     = filter (fun r => negb (property_id r =? 10)) (reservations db)
  /\ users (snd res) = users db.
Proof.
  cbv zeta. split; [split; reflexivity|].
  apply (Deleting.delete_of_an_own_listing rpc_undefined 1 10 (lasu_flat 3) []
           (seeded 3 [paid_by 7 ada])); reflexivity.
Defined.

Lemma whatsapp_link_is_clean_witness :
  let l := landlord_columns sample_landlord in
  (l_phone l = Some "+2348012345678"%string
   /\ nonempty "+2348012345678" = true)
  /\ WhatsApp.generateWhatsAppLink None (Some (lasu_flat 3)) = "#"%string
  /\ WhatsApp.generateWhatsAppLink (Some l) None = "#"%string
  /\ exists number text,
       WhatsApp.generateWhatsAppLink (Some l) (Some (lasu_flat 3))
       = ("https://wa.me/" ++ number ++ "?text=" ++ text)%string
       /\ forallb JsString.is_digit (list_ascii_of_string number) = true
       /\ forallb (fun c => JsString.unreserved c || Ascii.eqb c "%")
            (list_ascii_of_string text) = true.
Proof.
  cbv zeta. split; [split; reflexivity|].
  apply (Links.whatsapp_link_is_clean (landlord_columns sample_landlord)
           (lasu_flat 3) "+2348012345678"); reflexivity.
Defined.


Lemma paystack_is_asked_for_the_fee_in_kobo_witness :
  (0 < price (lasu_flat 3) < 2 ^ 31 /\ 0 < total_rooms (lasu_flat 3) < 2 ^ 31)
  /\ PaystackButton.pay_for true ada_signed_in (lasu_flat 3)
     = (true,
        Some (PaystackButton.mkSetup "ada@example.com"
                (Fee.Z2float (100 * Fee.fee_exact 180000 4)) "NGN"))
  /\ PaystackButton.pay_for false ada_signed_in (lasu_flat 3) = (false, None).
Proof.
  split; [cbn; lia|].
  apply (KoboFacts.paystack_is_asked_for_the_fee_in_kobo ada_signed_in
           (lasu_flat 3)); cbn; lia.
Defined.

Lemma saving_an_unchanged_form_witness :
  let db := with_annex [] in
  let res := run rpc_undefined
               (LandlordDashboard.handleSubmit (Some 1)
                  (LandlordListings.startEdit (lasu_flat 3))
                  (Some (lasu_flat 3)) [])
               (Some 1) [] db in
  (filter (fun p => p_id p =? 10) (properties db) = [lasu_flat 3]
   /\ 50 * total_rooms (lasu_flat 3) <= price (lasu_flat 3))
  /\ fst res = [toast_success "Property updated successfully!"]
  /\ map reservation_fee (properties (snd res)) = [Fee.fee_exact 180000 4; 450]
  /\ reservations (snd res) = [].
Proof.
  cbv zeta. split; [split; [reflexivity|cbn; lia]|].
  pose proof (Editing.saving_an_unchanged_form rpc_undefined 1 (lasu_flat 3)
                [] (with_annex []) eq_refl eq_refl
                ltac:(cbn; lia) ltac:(cbn; lia) ltac:(cbn; lia)
                ltac:(cbn; lia) ltac:(discriminate) ltac:(discriminate))
    as H.
  cbv zeta in H. destruct H as (Ht & Hp & Hr).
  split; [exact Ht|]. split; [|exact Hr].
  exact (f_equal (map reservation_fee) Hp).
Defined.

Lemma clearing_the_filters_shows_everything_witness :
  let toLowerCase (s : string) := s in
  let parseInt (s : string) := PrimFloat.zero in
  toLowerCase EmptyString = EmptyString
  /\ ExplorePage.filteredProperties toLowerCase parseInt filtered = []
  /\ ExplorePage.filteredProperties toLowerCase parseInt
       (ExplorePage.clearAllFilters filtered) = [lasu_flat 3]
  /\ ExplorePage.activeFiltersCount filtered = 4%nat
  /\ ExplorePage.activeFiltersCount (ExplorePage.clearAllFilters filtered)
     = 0%nat.
Proof.
  cbv zeta. split; [reflexivity|]. split; [reflexivity|].
  destruct (Exploring.clearing_the_filters_shows_everything
              (fun s => s) (fun _ => PrimFloat.zero) filtered eq_refl)
    as (Hall & Hcount & _).
  split; [exact Hall|]. split; [reflexivity|exact Hcount].
Defined.

Lemma any_account_can_publish_a_verified_listing_witness :
  let res := ExplorePage.createSampleProperty rpc_undefined
               (fun _ => EmptyString) (Some ada_signed_in) ExplorePage.mount
               (Some 2) [] (seeded 3 []) in
  (role ada = Schema.student
   /\ existsb (fun x => u_id x =? 2) (users (seeded 3 [])) = true)
  /\ map p_id (ExplorePage.properties (fst res)) = [11; 10]
  /\ map landlord_id (ExplorePage.properties (fst res)) = [2; 1]
  /\ map is_verified (ExplorePage.properties (fst res)) = [true; true].
Proof.
  cbv zeta. split; [split; reflexivity|].
  pose proof (Unreviewed.any_account_can_publish_a_verified_listing
                rpc_undefined (fun _ => EmptyString) ada_signed_in
                ExplorePage.mount (seeded 3 []) eq_refl) as H.
  cbv zeta in H. destruct H as (_ & _ & Hlist & _).
  split; [exact (f_equal (map p_id) Hlist)|].
  split; [exact (f_equal (map landlord_id) Hlist)|].
  exact (f_equal (map is_verified) Hlist).
Defined.

End Instances.
